(** * Cardano-Tools: the Shelley transaction builder ([shelley_tools.py])

    A shallow embedding of the coin-selection code of the [ShelleyTools]
    class, and the properties of it that the specification states.

    Conventions of the embedding.
    - Text is a [string] of characters with code points below 256.
    - Lovelace quantities are Python integers, hence [Z].
    - The parsed UTXO is the Python dict of the source, a [gmap string string]
      (every value of that dict is a column of the row, still text).
    - The node and its command-line interface are an external collaborator:
      a [Node] record gives the answers, and every command the code issues
      is appended to a trace, so that what was called, and how often, can be
      stated.  The node may answer differently at different times: answers
      are indexed by the number of commands issued before.
    - The methods are computations in a monad of state and exceptions; the
      exceptions are the [ShelleyError] of the source, told apart by their
      message, and the exceptions of Python itself.
    - A file written by one command and read by a later one is represented
      by what it holds; the names that the source takes from the clock
      ([tx_name]) are arguments.

    Left out: the remote execution over ssh (the commands are the same), the
    creation of folders, the debugging output, and the text of the error
    messages, which shows the quantities in ADA as floats: an error carries
    the integers its message is made of.  The conversions to float that can
    fail, or that change what is printed in a command, are in the model. *)

From Stdlib Require Import ZArith Ascii String List Bool Lia Sorted.
From stdpp Require Import base option list strings gmap.

Local Open Scope Z_scope.

(** ** Python text primitives *)

Module Py.

(** [str.isspace] on the code points below 256. *)
Definition is_space (c : ascii) : bool :=
  let n := nat_of_ascii c in
  ((9 <=? n)%nat && (n <=? 13)%nat) || ((28 <=? n)%nat && (n <=? 32)%nat)
  || (n =? 133)%nat || (n =? 160)%nat.

Definition is_empty (s : string) : bool :=
  match s with EmptyString => true | String _ _ => false end.

Fixpoint lstrip (s : string) : string :=
  match s with
  | EmptyString => EmptyString
  | String c s' => if is_space c then lstrip s' else s
  end.

Fixpoint rstrip (s : string) : string :=
  match s with
  | EmptyString => EmptyString
  | String c s' =>
      let r := rstrip s' in
      if is_space c && is_empty r then EmptyString else String c r
  end.

(** [s.strip()] *)
Definition strip (s : string) : string := rstrip (lstrip s).

(** The word in progress at the front of [s], and the words after it. *)
Fixpoint split_ws (s : string) : string * list string :=
  match s with
  | EmptyString => (EmptyString, [])
  | String c s' =>
      let '(w, ws) := split_ws s' in
      if is_space c then (EmptyString, if is_empty w then ws else w :: ws)
      else (String c w, ws)
  end.

(** [s.split()]: the maximal runs of characters that are not white space. *)
Definition split (s : string) : list string :=
  let '(w, ws) := split_ws s in if is_empty w then ws else w :: ws.

Fixpoint split_nl (s : string) : string * list string :=
  match s with
  | EmptyString => (EmptyString, [])
  | String c s' =>
      let '(w, ws) := split_nl s' in
      if Ascii.eqb c "010" then (EmptyString, w :: ws) else (String c w, ws)
  end.

(** [s.split("\n")]: never empty, the empty text gives one empty line. *)
Definition split_lines (s : string) : list string :=
  let '(w, ws) := split_nl s in w :: ws.

Definition digit_of (c : ascii) : option Z :=
  let n := nat_of_ascii c in
  if (48 <=? n)%nat && (n <=? 57)%nat then Some (Z.of_nat n - 48) else None.

(** Decimal digits, single underscores allowed between two digits. *)
Fixpoint digits (s : string) (acc : Z) (after_digit : bool) : option Z :=
  match s with
  | EmptyString => if after_digit then Some acc else None
  | String c s' =>
      match digit_of c with
      | Some d => digits s' (10 * acc + d) true
      | None =>
          if Ascii.eqb c "_" && after_digit then digits s' acc false else None
      end
  end.

(** [int(s)] for text [s]; [None] is Python's [ValueError]. *)
Definition int (s : string) : option Z :=
  match strip s with
  | String "+" r => digits r 0 false
  | String "-" r => Z.opp <$> digits r 0 false
  | r => digits r 0 false
  end.

(** [a < b] on text: lexicographic on code points. *)
Definition str_ltb (a b : string) : bool :=
  match String.compare a b with Lt => true | _ => false end.

(** [l.sort(key=key, reverse=True)] with text keys: descending, and stable
    (elements with equal keys keep the order they had). *)
Section Sort.
Context {A : Type} (key : A → string).

Fixpoint insert_desc (x : A) (l : list A) : list A :=
  match l with
  | [] => [x]
  | y :: l' =>
      if str_ltb (key x) (key y) then y :: insert_desc x l'
      else x :: y :: l'
  end.

Fixpoint sort_desc (l : list A) : list A :=
  match l with
  | [] => []
  | x :: l' => insert_desc x (sort_desc l')
  end.
End Sort.

(** [s.lower()] on the code points below 256. *)
Definition lower_char (c : ascii) : ascii :=
  let n := nat_of_ascii c in
  if ((65 <=? n)%nat && (n <=? 90)%nat)
     || ((192 <=? n)%nat && (n <=? 222)%nat && negb (n =? 215)%nat)
  then ascii_of_nat (n + 32) else c.

Fixpoint lower (s : string) : string :=
  match s with
  | EmptyString => EmptyString
  | String c s' => String (lower_char c) (lower s')
  end.

(** [sys.maxsize] of a 64-bit CPython. *)
Definition maxsize : Z := 2 ^ 63 - 1.

(** The value of [float(n)] for an integer [n]: [n] rounded to 53
    significant bits, ties to even.  ([None]: [OverflowError].) *)
Definition float_of_int (n : Z) : option Z :=
  let a := Z.abs n in
  let e := Z.log2 a + 1 - 53 in
  if e <=? 0 then Some n
  else
    let q := Z.shiftr a e in
    let r := Z.land a (Z.ones e) in
    let half := Z.shiftl 1 (e - 1) in
    let q' := if (half <? r) || ((r =? half) && Z.odd q) then q + 1 else q in
    let v := Z.shiftl q' e in
    if 2 ^ 1024 <=? v then None else Some (Z.sgn n * v).

(** [f"{n:.0f}"] for an integer [n], as the integer the text denotes. *)
Definition format_0f (n : Z) : option Z := float_of_int n.

(** [n / 1_000_000] raises [OverflowError] when the quotient, rounded, is
    not a finite float. *)
Definition ada_overflows (n : Z) : bool :=
  (2 ^ 1024 - 2 ^ 970) * 1000000 <=? Z.abs n.

End Py.

(** ** Data *)

(** The protocol parameters document, with the keys the code and the fee
    formula read. *)
Record ProtocolParameters := {
  minUTxOValue : Z;
  stakeAddressDeposit : Z;
  poolDeposit : Z;
  eMax : Z;
  txFeePerByte : Z;
  txFeeFixed : Z
}.

(** The arguments of [transaction build-raw], in the order they are given. *)
Record TxBody := {
  tx_in : list (string * string);      (* --tx-in TxHash#TxIx *)
  tx_out : list (string * Z);          (* --tx-out addr+amount *)
  tx_ttl : Z;
  tx_fee : Z;
  tx_cert : list string                (* --certificate-file *)
}.

(** A transaction file: where it is ([parent/stem + suffix]), and the body
    [build-raw] wrote in it. *)
Record TxFile := {
  file_parent : string;
  file_stem : string;
  file_suffix : string;
  file_body : TxBody
}.

Definition path (parent name : string) : string :=
  (parent +:+ "/" +:+ name)%stdpp.

Definition file_path (f : TxFile) : string :=
  path (file_parent f) (file_stem f +:+ file_suffix f)%stdpp.

(** A parsed UTXO: the dict of [get_utxos]. *)
Abbreviation Utxo := (gmap string string).

(** The commands sent to the node's command-line interface. *)
Inductive Command :=
| QueryUtxo (addr : string)
| QueryTip
| QueryProtocolParameters
| BuildRaw (f : TxFile)
| CalculateMinFee (draft : TxFile) (tx_in_count tx_out_count witness_count
                   byron_witness_count : Z) (params_file : ProtocolParameters)
| StakeRegistrationCertificate (stake_vkey_file cert : string)
| Sign (body : TxFile) (skeys : list string) (out_file : string)
| Submit (signed_tx_file : string)
| Remove (file : string).

(** The two output channels of a command. *)
Record CliResult := { stdout : string; stderr : string }.

(** The external collaborator.  Its answers are indexed by the number of
    commands issued before.
    - [utxo_table t addr]: the answer to [query utxo] for [addr];
    - [tip t]: the slot in the answer to [query tip], or, when the answer
      has no slot, the text on the error channel;
    - [parameters t]: the document written by [query protocol-parameters];
    - [min_fee_of params body ins outs witnesses byron]: the number that
      [transaction calculate-min-fee] prints, a function of its arguments;
    - [sign_stderr t], [submit_stderr t]: the error channel of
      [transaction sign] and of [transaction submit].
    The channels are as the command leaves them: [run_cli] strips them
    before the methods see them. *)
Record Node := {
  utxo_table : nat → string → CliResult;
  tip : nat → Z + string;
  parameters : nat → ProtocolParameters;
  min_fee_of : ProtocolParameters → TxBody → Z → Z → Z → Z → Z;
  sign_stderr : nat → string;
  submit_stderr : nat → string
}.

(** What is raised. *)
Inductive PyError :=
  IndexError | KeyError | ValueError | TypeError | NameError | OverflowError.

Inductive ShelleyError :=
| QueryTipFailed (stderr : string)
| AccountEmpty (addr : string)
| InsufficientFunds (addr : string) (cost available : Z)
| ChangeBelowMinimum (addr : string) (cost available min_utxo : Z)
| UnableToSign (stderr : string)
| UnableToSubmit (stderr : string)
| InvalidRequiredSignatures.

Inductive outcome (A : Type) :=
| Ok (a : A)
| Shelley (e : ShelleyError)
| Python (e : PyError).
Arguments Ok {A} a.
Arguments Shelley {A} e.
Arguments Python {A} e.

(** The state: the [protocol_parameters] field of the object, the commands
    issued so far (the removals of files among them), and what was printed. *)
Record World := {
  protocol_parameters : option ProtocolParameters;
  commands : list Command;
  printed : list string
}.

Definition now (w : World) : nat := length (commands w).

(** ** The monad of the methods: state, and the two kinds of exception *)

Definition M (A : Type) : Type := World → outcome A * World.

Definition ret {A} (a : A) : M A := λ w, (Ok a, w).

Definition bind {A B} (m : M A) (k : A → M B) : M B :=
  λ w, match m w with
       | (Ok a, w') => k a w'
       | (Shelley e, w') => (Shelley e, w')
       | (Python e, w') => (Python e, w')
       end.

Notation "'let*' x ':=' m 'in' k" := (bind m (λ x, k))
  (at level 10, x pattern, m at level 100, k at level 200).
Notation "m ';;' k" := (bind m (λ _, k))
  (at level 100, k at level 200, right associativity).

Definition raise {A} (e : ShelleyError) : M A := λ w, (Shelley e, w).
Definition raise_py {A} (e : PyError) : M A := λ w, (Python e, w).

(** [run_cli]: the command is issued (and recorded); the answer is read at
    the time of the call. *)
Definition run_cli {A} (c : Command) (answer : nat → A) : M A :=
  λ w, (Ok (answer (now w)),
        {| protocol_parameters := protocol_parameters w;
           commands := commands w ++ [c];
           printed := printed w |}).

Definition print (msg : string) : M unit :=
  λ w, (Ok tt,
        {| protocol_parameters := protocol_parameters w;
           commands := commands w;
           printed := printed w ++ [msg] |}).

Definition set_protocol_parameters (p : ProtocolParameters) : M unit :=
  λ w, (Ok tt,
        {| protocol_parameters := Some p;
           commands := commands w;
           printed := printed w |}).

Definition get_protocol_parameters : M ProtocolParameters :=
  λ w, match protocol_parameters w with
       | Some p => (Ok p, w)
       | None => (Python KeyError, w)     (* subscript of [None] *)
       end.

(** [for x in l: body x], the body run for its effects. *)
Fixpoint for_each {A} (l : list A) (body : A → M unit) : M unit :=
  match l with
  | [] => ret tt
  | x :: l' => body x;; for_each l' body
  end.

Section Tools.
Variable node : Node.

(** [load_protocol_parameters]: query the node, store the answer in the
    object; the file returned holds the same answer. *)
Definition load_protocol_parameters : M ProtocolParameters :=
  let* p := run_cli QueryProtocolParameters (parameters node) in
  set_protocol_parameters p;;
  ret p.

(** [get_tip]; the error carries the error channel, stripped by [run_cli]. *)
Definition get_tip : M Z :=
  let* r := run_cli QueryTip (tip node) in
  match r with
  | inl slot => ret slot
  | inr stderr => raise (QueryTipFailed (Py.strip stderr))
  end.

(** [calc_min_fee] *)
Definition calc_min_fee (tx_draft : TxFile)
    (tx_in_count tx_out_count witness_count byron_witness_count : Z) : M Z :=
  let* params_file := load_protocol_parameters in
  run_cli (CalculateMinFee tx_draft tx_in_count tx_out_count witness_count
             byron_witness_count params_file)
          (λ _, min_fee_of node params_file (file_body tx_draft) tx_in_count
                  tx_out_count witness_count byron_witness_count).

(** One [+] group of a row, at column [i] of [vals]: the asset and its
    quantity are added to the dict; if a column is missing the group is
    skipped with a message. *)
Definition add_extra (vals : list string) (i : nat) (utxo_dict : Utxo)
    : Utxo * list string :=
  match vals !! (i + 2)%nat, vals !! (i + 1)%nat with
  | Some asset, Some amt =>
      match utxo_dict !! asset with
      | Some old => (<[asset := (old +:+ amt)%stdpp]> utxo_dict, [])
      | None => (<[asset := amt]> utxo_dict, [])
      end
  | _, _ => (utxo_dict, ["skipping alonzo extra datum"%string])
  end.

(** [[i for i, j in enumerate(vals) if j == "+"]] *)
Fixpoint plus_columns (vals : list string) (i : nat) : list nat :=
  match vals with
  | [] => []
  | j :: vals' =>
      if String.eqb j "+" then i :: plus_columns vals' (S i)
      else plus_columns vals' (S i)
  end.

Fixpoint add_extras (vals : list string) (extra : list nat) (d : Utxo)
    : Utxo * list string :=
  match extra with
  | [] => (d, [])
  | i :: extra' =>
      let '(d', msgs) := add_extra vals i d in
      let '(d'', msgs') := add_extras vals extra' d' in
      (d'', msgs ++ msgs')
  end.

(** One row of the table; [None] is the [IndexError] of [vals[0..2]]. *)
Definition parse_row (utxo_line : string) : option (Utxo * list string) :=
  let vals := Py.split utxo_line in
  match vals !! 0%nat, vals !! 1%nat, vals !! 2%nat with
  | Some h, Some ix, Some amount =>
      let utxo_dict : Utxo :=
        <["Lovelace"%string := amount]>
          (<["TxIx"%string := ix]> (<["TxHash"%string := h]> ∅)) in
      Some (add_extras vals (plus_columns vals 0) utxo_dict)
  | _, _, _ => None
  end.

Fixpoint parse_rows (raw_utxos : list string) (utxos : list Utxo) : M (list Utxo) :=
  match raw_utxos with
  | [] => ret utxos
  | utxo_line :: rest =>
      match parse_row utxo_line with
      | None => raise_py IndexError
      | Some (utxo_dict, msgs) =>
          for_each msgs print;;
          parse_rows rest (utxos ++ [utxo_dict])
      end
  end.

Definition has_key (k : string) (u : Utxo) : bool := bool_decide (is_Some (u !! k)).

(** The [filter] argument of [get_utxos]. *)
Definition filter_utxos (filter : option string) (utxos : list Utxo) : list Utxo :=
  match filter with
  | None => utxos
  | Some f =>
      if String.eqb f "Lovelace"
      then List.filter (λ u, has_key f u && (size u =? 3)%nat) utxos
      else List.filter (has_key f) utxos
  end.

(** [get_utxos]; the output is stripped by [run_cli], the error channel is
    not read. *)
Definition get_utxos (addr : string) (filter : option string) : M (list Utxo) :=
  let* result := run_cli (QueryUtxo addr) (λ t, utxo_table node t addr) in
  let raw_utxos := drop 2 (Py.split_lines (Py.strip (stdout result))) in
  let* utxos := parse_rows raw_utxos [] in
  ret (filter_utxos filter utxos).

(** [for idx, x in enumerate(l): s = body idx x s; if stop s: break] *)
Fixpoint for_break {A V} (l : list A) (idx : nat) (body : nat → A → V → M V)
    (stop : V → bool) (v : V) : M V :=
  match l with
  | [] => ret v
  | x :: l' =>
      let* v' := body idx x v in
      if stop v' then ret v' else for_break l' (S idx) body stop v'
  end.

(** The fields of the object set at construction. *)
Variable ttl_buffer : Z.
Variable working_dir : string.

(** [int(utxo["Lovelace"])] *)
Definition lovelace_of (utxo : Utxo) : M Z :=
  match utxo !! "Lovelace"%string with
  | None => raise_py KeyError
  | Some s => match Py.int s with
              | None => raise_py ValueError
              | Some n => ret n
              end
  end.

(** [f"--tx-in {utxo['TxHash']}#{utxo['TxIx']}"] *)
Definition tx_in_of (utxo : Utxo) : M (string * string) :=
  match utxo !! "TxHash"%string, utxo !! "TxIx"%string with
  | Some h, Some ix => ret (h, ix)
  | _, _ => raise_py KeyError
  end.

(** [utxos.sort(key=lambda k: k["Lovelace"], reverse=True)]: the key is the
    text of the column. *)
Definition lovelace_key (utxo : Utxo) : string :=
  default EmptyString (utxo !! "Lovelace"%string).

(** The sort itself; a dict without the key ends it in a [KeyError]. *)
Definition sort_utxos (utxos : list Utxo) : M (list Utxo) :=
  if forallb (has_key "Lovelace") utxos
  then ret (Py.sort_desc lovelace_key utxos)
  else raise_py KeyError.

(** [_cleanup_file]: the removal is recorded with the commands. *)
Definition cleanup_file (fpath : string) : M unit :=
  run_cli (Remove fpath) (λ _, tt).

(** [n / 1_000_000], computed for a message. *)
Definition check_ada (n : Z) : M unit :=
  if Py.ada_overflows n then raise_py OverflowError else ret tt.

(** The payment arguments: [(pymt_args_zero, pymt_args)]. *)
Fixpoint payment_args (pairs : list (string * Z))
    : M (list (string * Z) * list (string * Z)) :=
  match pairs with
  | [] => ret ([], [])
  | (addr, amt) :: rest =>
      match Py.format_0f amt with
      | None => raise_py OverflowError
      | Some printed_amt =>
          let* (zero, real) := payment_args rest in
          ret ((addr, 0) :: zero, (addr, printed_amt) :: real)
      end
  end.

Definition sum_Z (l : list Z) : Z := foldr Z.add 0 l.

(** The locals of the selection loop of [build_raw_transaction]. *)
Record Selection := {
  lovelaces_out : Z;
  utxo_total : Z;
  min_fee : Z;
  tx_in_str : list (string * string);
  utxo_amt : option Z        (* unbound until the loop body has run *)
}.

Section BuildRawTransaction.
Variable tx_name : string.       (* from the clock: tx_<date>_<time> *)
Variable payment_addr : string.
Variable witness_count : Z.
Variable receive_addrs : list string.     (* [None] is [[]] *)
Variable payments : option (list Z).
Variable certs : list string.             (* [None] is [[]] *)
Variable deposits : Z.
Variable cleanup : bool.

Definition tx_draft_file : string := path working_dir (tx_name +:+ ".draft")%stdpp.

Definition total_payments : Z :=
  match payments with
  | Some (p :: ps) => sum_Z (p :: ps)
  | _ => 0
  end.

(** The zipped payments ([TypeError] when there are receivers and
    [payments] is [None]). *)
Definition zipped_payments : M (list (string * Z)) :=
  match receive_addrs, payments with
  | [], _ => ret []
  | _ :: _, None => raise_py TypeError
  | _ :: _, Some ps => ret (zip receive_addrs ps)
  end.

Definition draft (pymt_args_zero : list (string * Z))
    (ins : list (string * string)) : TxFile :=
  {| file_parent := working_dir; file_stem := tx_name;
     file_suffix := ".draft";
     file_body := {| tx_in := ins;
                     tx_out := (payment_addr, 0) :: pymt_args_zero;
                     tx_ttl := 0; tx_fee := 0; tx_cert := certs |} |}.

(** One turn of the loop, up to the test. *)
Definition select_body (pymt_args_zero : list (string * Z))
    (idx : nat) (utxo : Utxo) (v : Selection) : M Selection :=
  let utxo_count := Z.of_nat idx + 1 in
  let* amount := lovelace_of utxo in
  let utxo_total := utxo_total v + amount in
  let* tx_in := tx_in_of utxo in
  let tx_in_str := tx_in_str v ++ [tx_in] in
  let tx_draft := draft pymt_args_zero tx_in_str in
  run_cli (BuildRaw tx_draft) (λ _, tt);;
  let* min_fee := calc_min_fee tx_draft utxo_count 1 witness_count 0 in
  let lovelaces_out := min_fee + deposits + total_payments in
  let utxo_amt := utxo_total - lovelaces_out in
  ret {| lovelaces_out := lovelaces_out; utxo_total := utxo_total;
         min_fee := min_fee; tx_in_str := tx_in_str;
         utxo_amt := Some utxo_amt |}.

(** The test that breaks the loop. *)
Definition select_stop (min_utxo : Z) (v : Selection) : bool :=
  match utxo_amt v with
  | Some utxo_amt =>
      (lovelaces_out v <? utxo_total v)
      && ((min_utxo <? utxo_amt) || (utxo_amt =? 0))
  | None => false
  end.

(** The locals before the loop: [lovelaces_out = sys.maxsize],
    [utxo_total = 0], [min_fee = 1], no input. *)
Definition select_init : Selection :=
  {| lovelaces_out := Py.maxsize; utxo_total := 0; min_fee := 1;
     tx_in_str := []; utxo_amt := None |}.

(** After the loop: the two failures for lack of funds, the change
    output, the final body. *)
Definition finish (min_utxo ttl : Z) (pymt_args : list (string * Z))
    (v : Selection) : M TxFile :=
  check_ada (lovelaces_out v);;
  check_ada (utxo_total v);;
  (if utxo_total v <? lovelaces_out v then
     if lovelaces_out v =? Py.maxsize
     then raise (AccountEmpty payment_addr)
     else raise (InsufficientFunds payment_addr (lovelaces_out v) (utxo_total v))
   else ret tt);;
  let* utxo_str :=
    match utxo_amt v with
    | None => raise_py NameError
    | Some utxo_amt =>
        if utxo_amt =? 0 then ret []
        else if utxo_amt <? min_utxo then
          check_ada min_utxo;;
          raise (ChangeBelowMinimum payment_addr (lovelaces_out v)
                   (utxo_total v) min_utxo)
        else ret [(payment_addr, utxo_amt)]
    end in
  let tx_raw_file :=
    {| file_parent := working_dir; file_stem := tx_name;
       file_suffix := ".raw";
       file_body := {| tx_in := tx_in_str v;
                       tx_out := utxo_str ++ pymt_args;
                       tx_ttl := ttl; tx_fee := min_fee v;
                       tx_cert := certs |} |} in
  run_cli (BuildRaw tx_raw_file) (λ _, tt);;
  (if cleanup then cleanup_file tx_draft_file else ret tt);;
  ret tx_raw_file.

(** [build_raw_transaction] *)
Definition build_raw_transaction : M TxFile :=
  let* pairs := zipped_payments in
  let* (pymt_args_zero, pymt_args) := payment_args pairs in
  let* utxos := get_utxos payment_addr (Some "Lovelace"%string) in
  let* utxos := sort_utxos utxos in
  let* tip := get_tip in
  let ttl := tip + ttl_buffer in
  load_protocol_parameters;;
  let* pp := get_protocol_parameters in
  let min_utxo := minUTxOValue pp in
  let* v := for_break utxos 0 (select_body pymt_args_zero)
              (select_stop min_utxo) select_init in
  finish min_utxo ttl pymt_args v.


End BuildRawTransaction.

(** [sign_transaction]: the signed file is named after the stem of the
    body file; [run_cli] strips the error channel, and any text left on it
    is a failure, which carries the stripped text. *)
Definition sign_transaction (tx_file : TxFile) (skeys : list string) : M string :=
  let tx_name := file_stem tx_file in
  let tx_signed_file := (tx_name +:+ ".signed")%stdpp in
  let* result_stderr :=
    run_cli (Sign tx_file skeys tx_signed_file)
            (λ t, Py.strip (sign_stderr node t)) in
  if Py.is_empty result_stderr then ret tx_signed_file
  else raise (UnableToSign result_stderr).

(** [submit_transaction]; the error channel is stripped in the same way. *)
Definition submit_transaction (signed_tx_file : string) (cleanup : bool) : M unit :=
  let* result_stderr :=
    run_cli (Submit signed_tx_file)
            (λ t, Py.strip (submit_stderr node t)) in
  if Py.is_empty result_stderr then
    if cleanup then cleanup_file signed_tx_file else ret tt
  else raise (UnableToSubmit result_stderr).

(** The last lines of every sending method: submit, or say where the
    signed file is.  Nothing is returned: the result is Python's [None],
    here [None : option string]. *)
Definition submit_or_print (tx_signed_file : string) (offline cleanup : bool)
    : M (option string) :=
  if negb offline then
    submit_transaction tx_signed_file cleanup;;
    ret None
  else
    print ("Signed transaction file saved to: " +:+ tx_signed_file)%stdpp;;
    ret None.

(** [send_payment], called with an [int] number of ADA; [tx_name] is the
    name [build_raw_transaction] takes from the clock.  (The documented type
    of [amt] is [float].  With a float the payment, the required amount and
    the change are floats, and the change is printed as a float: the
    amounts of this development are integers, and it says nothing of such
    a call.) *)
Definition send_payment (tx_name : string) (amt : Z)
    (to_addr from_addr key_file : string) (offline cleanup : bool)
    : M (option string) :=
  let payment := amt * 1000000 in
  let* tx_raw_file :=
    build_raw_transaction tx_name from_addr 1 [to_addr] (Some [payment]) [] 0
      cleanup in
  let* tx_signed_file := sign_transaction tx_raw_file [key_file] in
  (if cleanup then cleanup_file (file_path tx_raw_file) else ret tt);;
  submit_or_print tx_signed_file offline cleanup.

(** The locals of the selection loops of the certificate transactions.
    ([None]: not bound yet.) *)
Record Funding := {
  utxo_total' : Z;
  tx_in_str' : list (string * string);
  min_fee' : option Z;
  cost' : option Z
}.

(** The body files of the certificate transactions: one output, to the
    paying address. *)
Definition cert_tx (tx_name suffix : string) (ins : list (string * string))
    (addr : string) (amount ttl fee : Z) (cert_files : list string) : TxFile :=
  {| file_parent := working_dir; file_stem := tx_name; file_suffix := suffix;
     file_body := {| tx_in := ins; tx_out := [(addr, amount)];
                     tx_ttl := ttl; tx_fee := fee; tx_cert := cert_files |} |}.

Section RegisterStakeAddress.
Variable tx_name : string.       (* from the clock: reg_stake_key_<date>_<time> *)
Variable addr : string.
Variable stake_vkey_file stake_skey_file pmt_skey_file : string.
Variable stake_cert_path : string.   (* the key file, with suffix .cert *)
Variable offline cleanup : bool.

Definition stake_body (idx : nat) (utxo : Utxo) (v : Funding) : M Funding :=
  let utxo_count := Z.of_nat idx + 1 in
  let* amount := lovelace_of utxo in
  let utxo_total := utxo_total' v + amount in
  let* tx_in := tx_in_of utxo in
  let tx_in_str := tx_in_str' v ++ [tx_in] in
  let tx_draft_file :=
    cert_tx tx_name ".draft" tx_in_str addr 0 0 0 [stake_cert_path] in
  run_cli (BuildRaw tx_draft_file) (λ _, tt);;
  let* min_fee := calc_min_fee tx_draft_file utxo_count 1 2 0 in
  let* pp := get_protocol_parameters in
  let cost := min_fee + stakeAddressDeposit pp in
  ret {| utxo_total' := utxo_total; tx_in_str' := tx_in_str;
         min_fee' := Some min_fee; cost' := Some cost |}.

Definition stake_stop (v : Funding) : bool :=
  match cost' v with
  | Some cost => cost <? utxo_total' v
  | None => false
  end.

(** [register_stake_address], from the tip to the raw file: the
    assembly of the transaction that pays for the certificate. *)
Definition stake_assemble : M TxFile :=
  let* tip := get_tip in
  let ttl := tip + ttl_buffer in
  let* utxos := get_utxos addr None in
  (if (length utxos <? 1)%nat then raise (AccountEmpty addr) else ret tt);;
  let* utxos := sort_utxos utxos in
  load_protocol_parameters;;
  let* v := for_break utxos 0 stake_body stake_stop
              {| utxo_total' := 0; tx_in_str' := [];
                 min_fee' := None; cost' := None |} in
  let utxo_total := utxo_total' v in
  let tx_in_str := tx_in_str' v in
  let* cost := match cost' v with
               | Some c => ret c
               | None => raise_py NameError
               end in
  (if utxo_total <? cost then
     check_ada cost;; check_ada utxo_total;;
     raise (InsufficientFunds addr cost utxo_total)
   else ret tt);;
  let* min_fee := match min_fee' v with
                  | Some f => ret f
                  | None => raise_py NameError
                  end in
  let tx_raw_file :=
    cert_tx tx_name ".raw" tx_in_str addr (utxo_total - cost) ttl min_fee
      [stake_cert_path] in
  run_cli (BuildRaw tx_raw_file) (λ _, tt);;
  ret tx_raw_file.

(** [register_stake_address] *)
Definition register_stake_address : M (option string) :=
  run_cli (StakeRegistrationCertificate stake_vkey_file stake_cert_path)
          (λ _, tt);;
  let* tx_raw_file := stake_assemble in
  let tx_signed_file := path working_dir (tx_name +:+ ".signed")%stdpp in
  run_cli (Sign tx_raw_file [pmt_skey_file; stake_skey_file] tx_signed_file)
          (λ _, tt);;
  (if cleanup then
     cleanup_file (path working_dir (tx_name +:+ ".draft")%stdpp);;
     cleanup_file (file_path tx_raw_file)
   else ret tt);;
  submit_or_print tx_signed_file offline cleanup.

End RegisterStakeAddress.

(** The two pool registrations, from the point where the certificates
    exist: [pool_cert_path] and [del_certs] are the files written by the
    certificate issuer, [pool_deposit] the deposit the method has
    determined ([register_stake_pool] reads it in the genesis file,
    [update_stake_pool_registration] sets it to 0). *)
Section PoolRegistration.
Variable tx_name : string.       (* from the clock: reg_pool_<date>_<time> *)
Variable payment_addr payment_skey pool_cold_skey : string.
Variable owner_stake_skeys : list string.
Variable pool_cert_path : string.
Variable del_certs : list string.
Variable offline cleanup : bool.

Definition pool_body (idx : nat) (utxo : Utxo) (v : Funding) : M Funding :=
  let utxo_count := Z.of_nat idx + 1 in
  let* amount := lovelace_of utxo in
  let utxo_total := utxo_total' v + amount in
  let* tx_in := tx_in_of utxo in
  let tx_in_str := tx_in_str' v ++ [tx_in] in
  let tx_draft_file :=
    cert_tx tx_name ".draft" tx_in_str payment_addr 0 0 0
      (pool_cert_path :: del_certs) in
  run_cli (BuildRaw tx_draft_file) (λ _, tt);;
  let nwit := Z.of_nat (length owner_stake_skeys) + 2 in
  let* min_fee := calc_min_fee tx_draft_file utxo_count 1 nwit 0 in
  ret {| utxo_total' := utxo_total; tx_in_str' := tx_in_str;
         min_fee' := Some min_fee; cost' := cost' v |}.

Definition pool_init : Funding :=
  {| utxo_total' := 0; tx_in_str' := []; min_fee' := Some 1; cost' := None |}.

(** The test of [register_stake_pool]. *)
Definition register_stop (pool_deposit : Z) (v : Funding) : bool :=
  match min_fee' v with
  | Some min_fee => min_fee + pool_deposit + 10 <? utxo_total' v
  | None => false
  end.

(** The test of [update_stake_pool_registration]. *)
Definition update_stop (pool_deposit : Z) (v : Funding) : bool :=
  match min_fee' v with
  | Some min_fee => min_fee + pool_deposit <? utxo_total' v
  | None => false
  end.

(** What the two methods share, up to the raw file; [stop] is the test
    of the loop and [short] the test for lack of funds after it. *)
Definition pool_assemble (pool_deposit : Z) (stop : Funding → bool)
    (short : Z → Z → bool) : M TxFile :=
  let* utxos := get_utxos payment_addr None in
  let* utxos := sort_utxos utxos in
  let* tip := get_tip in
  let ttl := tip + ttl_buffer in
  load_protocol_parameters;;
  let* v := for_break utxos 0 pool_body stop pool_init in
  let utxo_total := utxo_total' v in
  let tx_in_str := tx_in_str' v in
  let* min_fee := match min_fee' v with
                  | Some f => ret f
                  | None => raise_py NameError
                  end in
  (if short utxo_total min_fee then
     check_ada (min_fee + pool_deposit);; check_ada utxo_total;;
     raise (InsufficientFunds payment_addr (min_fee + pool_deposit) utxo_total)
   else ret tt);;
  let tx_raw_file :=
    cert_tx tx_name ".raw" tx_in_str payment_addr
      (utxo_total - min_fee - pool_deposit) ttl min_fee
      (pool_cert_path :: del_certs) in
  run_cli (BuildRaw tx_raw_file) (λ _, tt);;
  ret tx_raw_file.

(** Sign with the payment key, the owners' keys and the cold key, clean
    up, submit. *)
Definition pool_transaction (pool_deposit : Z) (stop : Funding → bool)
    (short : Z → Z → bool) : M (option string) :=
  let* tx_raw_file := pool_assemble pool_deposit stop short in
  let tx_signed_file := path working_dir (tx_name +:+ ".signed")%stdpp in
  run_cli (Sign tx_raw_file
             (payment_skey :: owner_stake_skeys ++ [pool_cold_skey])
             tx_signed_file)
          (λ _, tt);;
  (if cleanup then
     cleanup_file (path working_dir (tx_name +:+ ".draft")%stdpp);;
     cleanup_file (file_path tx_raw_file)
   else ret tt);;
  submit_or_print tx_signed_file offline cleanup.

(** [register_stake_pool]: leaves the loop on
    [utxo_total > min_fee + pool_deposit + 10], fails on
    [utxo_total < min_fee + pool_deposit]. *)
Definition register_short (pool_deposit utxo_total min_fee : Z) : bool :=
  utxo_total <? min_fee + pool_deposit.

Definition register_stake_pool (pool_deposit : Z) : M (option string) :=
  pool_transaction pool_deposit (register_stop pool_deposit)
    (register_short pool_deposit).

(** [update_stake_pool_registration]: no deposit; leaves the loop on
    [utxo_total > min_fee + pool_deposit], fails on
    [utxo_total < min_fee]. *)
Definition update_short (utxo_total min_fee : Z) : bool :=
  utxo_total <? min_fee.

Definition update_stake_pool_registration : M (option string) :=
  let pool_deposit := 0 in
  pool_transaction pool_deposit (update_stop pool_deposit) update_short.

End PoolRegistration.
End Tools.

(** ** Multi-signature scripts *)

(** An entry of the [scripts] list. *)
Inductive ScriptEntry :=
| SigEntry (keyHash : string)                       (* {"keyHash": h, "type": "sig"} *)
| SlotEntry (slot : option Z) (type : string).      (* {"slot": s, "type": t} *)

Record Script := {
  scripts : list ScriptEntry;
  script_type : string;
  script_required : option Z
}.

(** [build_multisignature_scripts]: the file written, and what is in it. *)
Definition build_multisignature_scripts (folder script_name : string)
    (key_hashes : list string) (sig_type : string) (required : option Z)
    (start_slot end_slot : option Z) : ShelleyError + (string * Script) :=
  let sigs := map SigEntry key_hashes in
  let sig_type := Py.lower sig_type in
  let typed : ShelleyError + (string * option Z) :=
    if String.eqb sig_type "any" then inr ("any"%string, None)
    else match String.eqb sig_type "atleast", required with
         | true, Some r =>
             if (r <? 1) || (Z.of_nat (length key_hashes) <=? r)
             then inl InvalidRequiredSignatures
             else inr ("atLeast"%string, Some r)
         | _, _ => inr ("all"%string, None)
         end in
  match typed with
  | inl e => inl e
  | inr (type, req) =>
      let after :=
        match start_slot with
        | Some _ => [SlotEntry start_slot "after"]
        | None => []
        end in
      let before :=
        match end_slot with
        | Some _ => [SlotEntry start_slot "before"]
        | None => []
        end in
      inr (path folder (script_name +:+ ".json")%stdpp,
           {| scripts := sigs ++ after ++ before;
              script_type := type; script_required := req |})
  end.

(** ** What the loops compute, turn by turn

    The selection loops are described here without the monad: the inputs,
    the total, the fee and the commands of each turn, from the list the loop
    runs over and the world in which it starts. *)

Definition amount_of (utxo : Utxo) : option Z :=
  utxo !! "Lovelace"%string ≫= Py.int.

Definition ref_of (utxo : Utxo) : option (string * string) :=
  match utxo !! "TxHash"%string, utxo !! "TxIx"%string with
  | Some h, Some ix => Some (h, ix)
  | _, _ => None
  end.

(** The UTXO has the three columns, and its amount is a number. *)
Definition utxo_ok (utxo : Utxo) : bool :=
  bool_decide (is_Some (amount_of utxo)) && bool_decide (is_Some (ref_of utxo)).

Definition amounts (utxos : list Utxo) : list Z :=
  map (λ u, default 0 (amount_of u)) utxos.

Definition refs (utxos : list Utxo) : list (string * string) :=
  map (λ u, default (EmptyString, EmptyString) (ref_of u)) utxos.

(** The world after one more command. *)
Definition issue (c : Command) (w : World) : World :=
  {| protocol_parameters := protocol_parameters w;
     commands := commands w ++ [c];
     printed := printed w |}.

(** The world after more lines were printed. *)
Definition print_all (msgs : list string) (w : World) : World :=
  {| protocol_parameters := protocol_parameters w;
     commands := commands w;
     printed := printed w ++ msgs |}.

(** The world after [load_protocol_parameters]. *)
Definition fetched (node : Node) (w : World) : World :=
  {| protocol_parameters := Some (parameters node (now w));
     commands := commands w ++ [QueryProtocolParameters];
     printed := printed w |}.

Section Turns.
Variable node : Node.
Variable mk_draft : list (string * string) → TxFile.
Variable witnesses : Z.
Variable utxos : list Utxo.
Variable before : World.

(** A turn issues three commands; the second one fetches the parameters. *)
Definition fetch_time (j : nat) : nat := (now before + 3 * j + 1)%nat.
Definition snapshot_of_turn (j : nat) : ProtocolParameters :=
  parameters node (fetch_time j).

Definition inputs_upto (k : nat) : list (string * string) := refs (take k utxos).
Definition total_upto (k : nat) : Z := sum_Z (amounts (take k utxos)).

(** The fee estimated in turn [j] (the first turn is turn 0), on the
    draft with the first [j + 1] inputs. *)
Definition fee_of_turn (j : nat) : Z :=
  min_fee_of node (snapshot_of_turn j)
    (file_body (mk_draft (inputs_upto (S j)))) (Z.of_nat j + 1) 1 witnesses 0.

Definition turn_commands (j : nat) : list Command :=
  [ BuildRaw (mk_draft (inputs_upto (S j)));
    QueryProtocolParameters;
    CalculateMinFee (mk_draft (inputs_upto (S j))) (Z.of_nat j + 1) 1
      witnesses 0 (snapshot_of_turn j) ].

Fixpoint loop_commands (n : nat) : list Command :=
  match n with
  | O => []
  | S j => loop_commands j ++ turn_commands j
  end.

Definition world_after (k : nat) : World :=
  {| protocol_parameters :=
       match k with
       | O => protocol_parameters before
       | S j => Some (snapshot_of_turn j)
       end;
     commands := commands before ++ loop_commands k;
     printed := printed before |}.
End Turns.

(** The locals of [build_raw_transaction] after [k] turns. *)
Definition selection_after (fee : nat → Z) (total : nat → Z)
    (inputs : nat → list (string * string)) (deposits total_payments : Z)
    (k : nat) : Selection :=
  match k with
  | O => select_init
  | S j =>
      let required := fee j + deposits + total_payments in
      {| lovelaces_out := required; utxo_total := total k; min_fee := fee j;
         tx_in_str := inputs k; utxo_amt := Some (total k - required) |}
  end.

(** The stop condition as the specification words it, on the first [k]
    UTXOs ([k] at least 1). *)
Definition stop_condition (fee : nat → Z) (total : nat → Z)
    (deposits total_payments min_utxo : Z) (k : nat) : bool :=
  let required := fee (pred k) + deposits + total_payments in
  let change := total k - required in
  (total k >? required) && ((change >? min_utxo) || (change =? 0)).

(** The locals of the certificate transactions after [k] turns; [cost] is
    what the turn binds to [cost], if it does. *)
Definition funding_after (init : Funding) (fee : nat → Z) (total : nat → Z)
    (inputs : nat → list (string * string)) (cost : nat → option Z)
    (k : nat) : Funding :=
  match k with
  | O => init
  | S j =>
      {| utxo_total' := total k; tx_in_str' := inputs k;
         min_fee' := Some (fee j); cost' := cost j |}
  end.


Definition is_submit (c : Command) : bool :=
  match c with Submit _ => true | _ => false end.

Definition is_fetch (c : Command) : bool :=
  match c with QueryProtocolParameters => true | _ => false end.

Definition fetches (cs : list Command) : nat := length (List.filter is_fetch cs).

(** The rows of the table in the output of [query utxo]: the lines after
    the two of the header. *)
Definition rows_of (out : string) : list string :=
  drop 2 (Py.split_lines (Py.strip out)).

(** A row with the three columns [TxHash TxIx Amount]. *)
Definition wide (row : string) : bool := (3 <=? length (Py.split row))%nat.

Definition skip_message : string := "skipping alonzo extra datum".

(** The world in which the loop of [build_raw_transaction] (and of the pool
    registrations) starts: the UTXOs, the tip and the parameters have been
    queried, in this order, and [msgs] printed by the parser. *)
Definition prelude (node : Node) (addr : string) (msgs : list string)
    (w : World) : World :=
  {| protocol_parameters := Some (parameters node (now w + 2)%nat);
     commands := commands w ++ [QueryUtxo addr; QueryTip; QueryProtocolParameters];
     printed := printed w ++ msgs |}.

(** The change output of [build_raw_transaction]: none when the change is
    zero. *)
Definition change_output (addr : string) (change : Z) : list (string * Z) :=
  if change =? 0 then [] else [(addr, change)].

(** The raw file of [build_raw_transaction]. *)
Definition raw_file (working_dir tx_name addr : string) (certs : list string)
    (ttl : Z) (pymt_args : list (string * Z)) (v : Selection) (change : Z)
    : TxFile :=
  {| file_parent := working_dir; file_stem := tx_name; file_suffix := ".raw";
     file_body := {| tx_in := tx_in_str v;
                     tx_out := change_output addr change ++ pymt_args;
                     tx_ttl := ttl; tx_fee := min_fee v; tx_cert := certs |} |}.

(** The world after the last commands of a method: the raw file is built,
    and the draft removed if asked. *)
Definition finished (working_dir tx_name : string) (cleanup : bool)
    (f : TxFile) (w : World) : World :=
  let w1 := issue (BuildRaw f) w in
  if cleanup then issue (Remove (tx_draft_file working_dir tx_name)) w1 else w1.


(** The balance law of a body file [f] whose inputs are the first UTXOs of
    [utxos]: what the inputs hold is what the outputs receive, plus the fee,
    plus the deposit. *)
Definition balances (utxos : list Utxo) (f : TxFile) (deposit : Z) : Prop :=
  ∃ n : nat,
    let selected := take n utxos in
    Forall (λ u, utxo_ok u = true) selected
    ∧ tx_in (file_body f) = refs selected
    ∧ sum_Z (amounts selected)
      = sum_Z (map snd (tx_out (file_body f))) + tx_fee (file_body f) + deposit.

(** No command of [cs] is a submission. *)
Definition no_submit (cs : list Command) : bool :=
  forallb (λ c, negb (is_submit c)) cs.

(** A computation that, however it ends, issues no submission. *)
Definition silent {A} (m : M A) : Prop :=
  ∀ w r w', m w = (r, w') →
    ∃ new, commands w' = commands w ++ new ∧ no_submit new = true.

Definition saved_message (tx_signed_file : string) : string :=
  ("Signed transaction file saved to: " +:+ tx_signed_file)%stdpp.

(** [a] may stand before [b] in a list sorted by descending text key. *)
Definition text_ge {A} (key : A → string) (a b : A) : Prop :=
  Py.str_ltb (key a) (key b) = false.

(** ** Concrete nodes and tables, for the examples *)

Module Example.

Definition start : World :=
  {| protocol_parameters := None; commands := []; printed := [] |}.

Definition newline : string := String "010" EmptyString.

Fixpoint lines (rows : list string) : string :=
  match rows with
  | [] => EmptyString
  | [row] => row
  | row :: rest => (row +:+ newline +:+ lines rest)%stdpp
  end.

(** The output of [query utxo]: two lines of header, then the rows. *)
Definition table (rows : list string) : string :=
  lines ("                           TxHash                                 TxIx        Amount"%string
         :: "--------------------------------------------------------------------------------------"%string
         :: rows).

Definition params (min_utxo : Z) : ProtocolParameters :=
  {| minUTxOValue := min_utxo; stakeAddressDeposit := 2000000;
     poolDeposit := 500000000; eMax := 18;
     txFeePerByte := 44; txFeeFixed := 155381 |}.

(** A node that always gives the same answers: the table [out], the
    parameters [p], the fee [fee], the tip at slot 100. *)
Definition steady (out : CliResult) (p : ProtocolParameters) (fee : Z) : Node :=
  {| utxo_table := λ _ _, out;
     tip := λ _, inl 100;
     parameters := λ _, p;
     min_fee_of := λ _ _ _ _ _ _, fee;
     sign_stderr := λ _, EmptyString;
     submit_stderr := λ _, EmptyString |}.

Definition answer (rows : list string) : CliResult :=
  {| stdout := table rows; stderr := EmptyString |}.

(** A node whose minimum UTXO value grows by one with every command it
    receives, and whose fee is the [txFeeFixed] of the parameters file it
    is given. *)
Definition drifting (rows : list string) : Node :=
  {| utxo_table := λ _ _, answer rows;
     tip := λ _, inl 100;
     parameters := λ t, {| minUTxOValue := Z.of_nat t;
                           stakeAddressDeposit := 2000000;
                           poolDeposit := 500000000; eMax := 18;
                           txFeePerByte := 44;
                           txFeeFixed := 1 + Z.of_nat t |};
     min_fee_of := λ p _ _ _ _ _, txFeeFixed p;
     sign_stderr := λ _, EmptyString;
     submit_stderr := λ _, EmptyString |}.

(** A UTXO with the base currency only. *)
Definition utxo (h ix amount : string) : Utxo :=
  <["Lovelace"%string := amount]>
    (<["TxIx"%string := ix]> (<["TxHash"%string := h]> ∅)).

(** The UTXOs of the scenario of the specification: 5, 3 and 2. *)
Definition three : list Utxo :=
  [utxo "aa" "0" "5"; utxo "bb" "1" "3"; utxo "cc" "0" "2"].

Definition three_rows : list string :=
  ["aa 0 5 lovelace"; "bb 1 3 lovelace"; "cc 0 2 lovelace"]%string.

(** The node of that scenario: a fee of 1, a minimum UTXO value of 1. *)
Definition node : Node := steady (answer three_rows) (params 1) 1.

End Example.

(** ** More of the class: the balance of an address, emptying an account *)

Section Accounts.
Variable node : Node.
Variable ttl_buffer : Z.
Variable working_dir : string.

(** [for utxo in utxos: total += int(utxo["Lovelace"])] *)
Fixpoint add_lovelace (utxos : list Utxo) (total : Z) : M Z :=
  match utxos with
  | [] => ret total
  | utxo :: rest =>
      let* amount := lovelace_of utxo in
      add_lovelace rest (total + amount)
  end.

(** [query_balance]: every UTXO of the address counts, whatever else it
    carries. *)
Definition query_balance (addr : string) : M Z :=
  let* utxos := get_utxos node addr None in
  add_lovelace utxos 0.

(** [for utxo in utxos: tx_in_str += f" --tx-in {utxo['TxHash']}#{utxo['TxIx']}"] *)
Fixpoint add_tx_in (utxos : list Utxo) (tx_in_str : list (string * string))
    : M (list (string * string)) :=
  match utxos with
  | [] => ret tx_in_str
  | utxo :: rest =>
      let* tx_in := tx_in_of utxo in
      add_tx_in rest (tx_in_str ++ [tx_in])
  end.

Section EmptyAccount.
Variable tx_name : string.       (* from the clock: empty_acct_<date>_<time> *)
Variable to_addr from_addr key_file : string.
Variable offline cleanup : bool.

(** The two body files of [empty_account]: the inputs, one output to the
    receiver, no certificate. *)
Definition sweep_tx (suffix : string) (ins : list (string * string))
    (amount ttl fee : Z) : TxFile :=
  {| file_parent := working_dir; file_stem := tx_name; file_suffix := suffix;
     file_body := {| tx_in := ins; tx_out := [(to_addr, amount)];
                     tx_ttl := ttl; tx_fee := fee; tx_cert := [] |} |}.

(** [empty_account], up to the raw file.  The balance comes from one query
    of the UTXOs and the inputs from a second one.  The failure for lack of
    funds is the [ShelleyError] whose message names the fees and the
    balance; its message divides the balance by [1_000_000] and by
    [1_000_000.], and the fee by [1_000_000]. *)
Definition empty_account_assemble : M TxFile :=
  let* bal := query_balance from_addr in
  let* utxos := get_utxos node from_addr None in
  let* tx_in_str := add_tx_in utxos [] in
  let tx_draft_file := sweep_tx ".draft" tx_in_str 0 0 0 in
  run_cli (BuildRaw tx_draft_file) (λ _, tt);;
  let* min_fee :=
    calc_min_fee node tx_draft_file (Z.of_nat (length utxos)) 2 1 0 in
  (if bal <? min_fee then
     check_ada bal;;
     check_ada min_fee;;
     match Py.float_of_int bal with
     | None => raise_py OverflowError
     | Some _ => raise (InsufficientFunds from_addr min_fee bal)
     end
   else ret tt);;
  let* tip := get_tip node in
  let ttl := tip + ttl_buffer in
  let* amount := match Py.format_0f (bal - min_fee) with
                 | None => raise_py OverflowError
                 | Some printed_amt => ret printed_amt
                 end in
  let tx_raw_file := sweep_tx ".raw" tx_in_str amount ttl min_fee in
  run_cli (BuildRaw tx_raw_file) (λ _, tt);;
  ret tx_raw_file.

(** [empty_account] *)
Definition empty_account : M (option string) :=
  let* tx_raw_file := empty_account_assemble in
  let* tx_signed_file := sign_transaction node tx_raw_file [key_file] in
  (if cleanup then cleanup_file (file_path tx_raw_file) else ret tt);;
  submit_or_print node tx_signed_file offline cleanup.

End EmptyAccount.
End Accounts.

(** ** The retirement of a pool *)

(** How the first lines of [retire_stake_pool] end: with the epoch written
    in the deregistration certificate; with the [ShelleyError] for too many
    remaining epochs; or in the [ZeroDivisionError] of [tip // epoch_length]. *)
Inductive Retirement :=
| RetireAt (epoch : Z)
| InvalidRemainingEpochs (remaining_epochs e_max : Z)
| ZeroEpochLength.

(** The epoch of the certificate, [epoch + remaining_epochs], from the
    [eMax] of the parameters, the argument, the [epochLength] of the genesis
    file and the tip.  The number of remaining epochs is checked before the
    genesis file and the tip are read. *)
Definition retirement_epoch (e_max remaining_epochs epoch_length tip : Z)
    : Retirement :=
  let checked : Z + Retirement :=
    if remaining_epochs <? 1 then inl 1
    else if e_max <? remaining_epochs
         then inr (InvalidRemainingEpochs remaining_epochs e_max)
         else inl remaining_epochs in
  match checked with
  | inr failure => failure
  | inl remaining_epochs =>
      if epoch_length =? 0 then ZeroEpochLength
      else
        let epoch := tip / epoch_length in
        RetireAt (epoch + remaining_epochs)
  end.

(** ** Views for the accessors *)

(** The three columns every row of the table gives a UTXO. *)
Definition three_columns (u : Utxo) : Prop :=
  is_Some (u !! "TxHash"%string) ∧ is_Some (u !! "TxIx"%string)
  ∧ is_Some (u !! "Lovelace"%string).

(** The keys of a UTXO that holds the base currency only. *)
Definition plain_columns : gset string :=
  {[ "TxHash"%string; "TxIx"%string; "Lovelace"%string ]}.

(** The amount column of the UTXO is a number. *)
Definition numeric (u : Utxo) : bool := bool_decide (is_Some (amount_of u)).

(** ** The classified failures *)

(** A computation that, when it ends in a classified error, ends in one
    of the class [P]. *)
Definition raises_only {A} (P : ShelleyError → Prop) (m : M A) : Prop :=
  ∀ w e w', m w = (Shelley e, w') → P e.

(** A computation that ends in no classified error. *)
Definition unclassified {A} (m : M A) : Prop := raises_only (λ _, False) m.

(** The failures of the assembly of a payment from [addr]: the tip is not
    known; the address holds nothing; it holds less than the cost; the
    change is positive and below the minimum. *)
Definition build_failure (addr : string) (e : ShelleyError) : Prop :=
  match e with
  | QueryTipFailed _ => True
  | AccountEmpty a => a = addr
  | InsufficientFunds a cost available => a = addr ∧ available < cost
  | ChangeBelowMinimum a cost available min_utxo =>
      a = addr ∧ 0 < available - cost < min_utxo
  | _ => False
  end.

(** The failures of the assembly of a certificate transaction paid by
    [addr]. *)
Definition funding_failure (addr : string) (e : ShelleyError) : Prop :=
  match e with
  | QueryTipFailed _ => True
  | AccountEmpty a => a = addr
  | InsufficientFunds a cost available => a = addr ∧ available < cost
  | _ => False
  end.

Definition is_sign_failure (e : ShelleyError) : Prop :=
  match e with UnableToSign _ => True | _ => False end.

Definition is_submit_failure (e : ShelleyError) : Prop :=
  match e with UnableToSubmit _ => True | _ => False end.

(** The locals of the loop, when the change is bound, hold the change. *)
Definition change_bound (v : Selection) : Prop :=
  ∀ c, utxo_amt v = Some c → c = utxo_total v - lovelaces_out v.

(** The failures of an assembly that has no case for the empty address
    (the pool registrations, the emptying of an account): the tip is not
    known, or the address holds less than the cost. *)
Definition short_of_funds (addr : string) (e : ShelleyError) : Prop :=
  match e with
  | QueryTipFailed _ => True
  | InsufficientFunds a cost available => a = addr ∧ available < cost
  | _ => False
  end.

(** ** Nodes that fail *)

Module Failing.

(** The node [n], with the text [msg] on the error channel of every
    signature. *)
Definition sign (msg : string) (n : Node) : Node :=
  {| utxo_table := utxo_table n; tip := tip n; parameters := parameters n;
     min_fee_of := min_fee_of n;
     sign_stderr := λ _, msg; submit_stderr := submit_stderr n |}.

(** The node [n], with the text [msg] on the error channel of every
    submission. *)
Definition submit (msg : string) (n : Node) : Node :=
  {| utxo_table := utxo_table n; tip := tip n; parameters := parameters n;
     min_fee_of := min_fee_of n;
     sign_stderr := sign_stderr n; submit_stderr := λ _, msg |}.

(** The node [n], answering every query of the tip with the text [msg] on
    the error channel. *)
Definition tip (msg : string) (n : Node) : Node :=
  {| utxo_table := utxo_table n; tip := λ _, inr msg;
     parameters := parameters n; min_fee_of := min_fee_of n;
     sign_stderr := sign_stderr n; submit_stderr := submit_stderr n |}.

End Failing.

(** ** Views of [empty_account] *)

(** The world after [calc_min_fee] on the draft [d]. *)
Definition estimated (node : Node) (d : TxFile) (ins outs wits byron : Z)
    (w : World) : World :=
  issue (CalculateMinFee d ins outs wits byron (parameters node (now w)))
    (fetched node w).

(** The commands of [empty_account] up to the raw file: the two queries of
    the UTXOs, the draft, the estimation of the fee (for two outputs and
    one witness), the tip, the raw file. *)
Definition sweep_commands (from_addr : string) (n : nat) (draft raw : TxFile)
    (p : ProtocolParameters) : list Command :=
  [ QueryUtxo from_addr; QueryUtxo from_addr; BuildRaw draft;
    QueryProtocolParameters; CalculateMinFee draft (Z.of_nat n) 2 1 0 p;
    QueryTip; BuildRaw raw ].

(** The commands that follow the raw file [raw] in [send_payment] and
    [empty_account]: the signature, the removal of the raw file, the
    submission, the removal of the signed file. *)
Definition closing_commands (raw : TxFile) (key_file : string)
    (offline cleanup : bool) : list Command :=
  let signed := (file_stem raw +:+ ".signed")%stdpp in
  Sign raw [key_file] signed
  :: (if cleanup then [Remove (file_path raw)] else [])
  ++ (if offline then []
      else Submit signed :: (if cleanup then [Remove signed] else [])).

(** The last lines of [send_payment] and of [empty_account], from the raw
    file on: sign with the one key, remove the raw file, submit or print. *)
Definition sign_and_send (node : Node) (raw : TxFile) (key_file : string)
    (offline cleanup : bool) : M (option string) :=
  let* tx_signed_file := sign_transaction node raw [key_file] in
  (if cleanup then cleanup_file (file_path raw) else ret tt);;
  submit_or_print node tx_signed_file offline cleanup.

(** ** Amounts as text *)

Fixpoint all_digits (s : string) : bool :=
  match s with
  | EmptyString => true
  | String c s' =>
      match Py.digit_of c with Some _ => all_digits s' | None => false end
  end.

(** A decimal numeral: digits only, at least one. *)
Definition numeral (s : string) : bool := negb (Py.is_empty s) && all_digits s.

(** The number a text of digits denotes, after the digits [acc]. *)
Fixpoint digits_val (s : string) (acc : Z) : Z :=
  match s with
  | EmptyString => acc
  | String c s' => digits_val s' (10 * acc + default 0 (Py.digit_of c))
  end.

(** The amount column of [u] is a numeral of [n] digits. *)
Definition amount_width (n : nat) (u : Utxo) : Prop :=
  ∃ s, u !! "Lovelace"%string = Some s ∧ numeral s = true ∧ String.length s = n.
Example split_row :
  Py.split "  ab  0   17 lovelace + 5 tok " = ["ab"; "0"; "17"; "lovelace"; "+"; "5"; "tok"]%string.
Proof. reflexivity. Qed.

Example split_lines_empty : Py.split_lines EmptyString = [EmptyString].
Proof. reflexivity. Qed.

Example int_ok : Py.int "1_000" = Some 1000 ∧ Py.int "12a" = None ∧ Py.int "-7" = Some (-7).
Proof. repeat split; reflexivity. Qed.

(** ** The sort: descending on the text of the key, and stable *)

Section SortFacts.
Context {A : Type} (key : A → string).

Lemma str_ltb_asym a b : Py.str_ltb a b = true → Py.str_ltb b a = false.
Proof.
  unfold Py.str_ltb. rewrite (String.compare_antisym a b).
  destruct (String.compare b a); simpl; congruence.
Qed.

Lemma str_ltb_irrefl a : Py.str_ltb a a = false.
Proof.
  unfold Py.str_ltb. pose proof (String.compare_antisym a a) as H.
  destruct (String.compare a a); simpl in H; try reflexivity; discriminate.
Qed.

Lemma insert_desc_perm x (l : list A) : Py.insert_desc key x l ≡ₚ x :: l.
Proof.
  induction l as [|y l IH]; simpl; [reflexivity|].
  destruct (Py.str_ltb (key x) (key y)); [|reflexivity].
  rewrite IH. apply Permutation_swap.
Qed.

Lemma sort_desc_perm (l : list A) : Py.sort_desc key l ≡ₚ l.
Proof.
  induction l as [|x l IH]; simpl; [reflexivity|].
  now rewrite insert_desc_perm, IH.
Qed.

Lemma insert_desc_sorted x (l : list A) :
  Sorted (text_ge key) l → Sorted (text_ge key) (Py.insert_desc key x l).
Proof.
  induction l as [|y l IH]; intros Hl; simpl.
  - repeat constructor.
  - inversion Hl as [|? ? Hl' Hhd]; subst.
    destruct (Py.str_ltb (key x) (key y)) eqn:E.
    + constructor; [now apply IH|].
      destruct l as [|z l]; simpl.
      * constructor. now apply str_ltb_asym.
      * destruct (Py.str_ltb (key x) (key z)).
        -- inversion Hhd; subst. now constructor.
        -- constructor. now apply str_ltb_asym.
    + constructor; [exact Hl|]. constructor. exact E.
Qed.

(** The sorted list descends on the text of the keys. *)
Lemma sort_desc_sorted (l : list A) : Sorted (text_ge key) (Py.sort_desc key l).
Proof.
  induction l as [|x l IH]; simpl; [constructor|].
  now apply insert_desc_sorted.
Qed.

Lemma insert_desc_filter s x (l : list A) :
  List.filter (λ a, String.eqb (key a) s) (Py.insert_desc key x l)
  = List.filter (λ a, String.eqb (key a) s) (x :: l).
Proof.
  induction l as [|y l IH]; [reflexivity|].
  simpl. destruct (Py.str_ltb (key x) (key y)) eqn:E; [|reflexivity].
  simpl. rewrite IH. simpl.
  destruct (String.eqb_spec (key x) s) as [Hx|Hx]; [|reflexivity].
  destruct (String.eqb_spec (key y) s) as [Hy|Hy]; [|reflexivity].
  rewrite Hx, Hy, str_ltb_irrefl in E. discriminate.
Qed.

(** The elements with one and the same key keep their order. *)
Lemma sort_desc_stable s (l : list A) :
  List.filter (λ a, String.eqb (key a) s) (Py.sort_desc key l)
  = List.filter (λ a, String.eqb (key a) s) l.
Proof.
  induction l as [|x l IH]; [reflexivity|].
  simpl Py.sort_desc. rewrite insert_desc_filter. simpl. now rewrite IH.
Qed.
End SortFacts.

(** ** Equations of the monad *)

Lemma bind_ok {A B} (m : M A) (k : A → M B) w a w' :
  m w = (Ok a, w') → bind m k w = k a w'.
Proof. intros H. unfold bind. now rewrite H. Qed.

Lemma bind_ret {A B} (a : A) (k : A → M B) w : bind (ret a) k w = k a w.
Proof. reflexivity. Qed.

Lemma bind_run_cli {A B} c (answer : nat → A) (k : A → M B) w :
  bind (run_cli c answer) k w = k (answer (now w)) (issue c w).
Proof. reflexivity. Qed.

(** A computation that returns went through each of its two halves. *)
Lemma bind_inv {A B} (m : M A) (k : A → M B) w b w' :
  bind m k w = (Ok b, w') →
  ∃ a w1, m w = (Ok a, w1) ∧ k a w1 = (Ok b, w').
Proof.
  unfold bind. destruct (m w) as [[a|e|e] w1]; intros H; try discriminate.
  eauto.
Qed.

(** ** The loop with [break] *)

Section ForBreak.
Context {A V : Type}.
Variable body : nat → A → V → M V.
Variable stop : V → bool.
(** The locals and the world after [k] turns, as far as the turns succeed. *)
Variable v_at : nat → V.
Variable w_at : nat → World.

Lemma for_break_from (l : list A) : ∀ i : nat,
  (∀ k x, l !! k = Some x →
     body (i + k)%nat x (v_at (i + k)%nat) (w_at (i + k)%nat)
     = (Ok (v_at (S (i + k))), w_at (S (i + k)))) →
  ∃ n : nat,
    (i ≤ n ≤ i + length l)%nat
    ∧ for_break l i body stop (v_at i) (w_at i) = (Ok (v_at n), w_at n)
    ∧ (∀ k, (i < k < n)%nat → stop (v_at k) = false)
    ∧ ((n < i + length l)%nat → stop (v_at n) = true)
    ∧ ((0 < length l)%nat → (i < n)%nat).
Proof.
  induction l as [|x l IH]; intros i Hbody.
  - exists i. simpl. repeat split; try lia.
  - pose proof (Hbody 0%nat x eq_refl) as H0.
    rewrite Nat.add_0_r in H0.
    simpl. unfold bind at 1. rewrite H0.
    destruct (stop (v_at (S i))) eqn:Hstop.
    + exists (S i). repeat split; try lia; auto.
    + destruct (IH (S i)) as (n & Hn & Hrun & Hbefore & Hat & Hpos).
      { intros k y Hy. replace (S i + k)%nat with (i + S k)%nat by lia.
        apply Hbody. exact Hy. }
      exists n. repeat split; try lia.
      * exact Hrun.
      * intros k Hk. destruct (decide (k = S i)) as [->|Hne]; [exact Hstop|].
        apply Hbefore. lia.
      * intros Hlt. apply Hat. simpl in Hlt. lia.
Qed.

(** The loop leaves at the first turn whose test holds, and at the end of
    the list if there is none. *)
Lemma for_break_exit (l : list A) :
  (∀ k x, l !! k = Some x →
     body k x (v_at k) (w_at k) = (Ok (v_at (S k)), w_at (S k))) →
  ∃ n : nat,
    (n ≤ length l)%nat
    ∧ for_break l 0 body stop (v_at 0%nat) (w_at 0%nat) = (Ok (v_at n), w_at n)
    ∧ (∀ k, (1 ≤ k < n)%nat → stop (v_at k) = false)
    ∧ ((n < length l)%nat → stop (v_at n) = true)
    ∧ ((0 < length l)%nat → (1 ≤ n)%nat).
Proof.
  intros Hbody.
  destruct (for_break_from l 0) as (n & Hn & Hrun & Hbefore & Hat & Hpos).
  { intros k x Hx. simpl. apply Hbody, Hx. }
  exists n. repeat split; try lia; auto.
Qed.

(** The same, read from a loop that has returned: the turns it ran all
    read elements that are [good]. *)
Variable good : A → Prop.

Lemma for_break_from_inv (l : list A) : ∀ (i : nat) r w',
  (∀ k x, l !! k = Some x → good x →
     body (i + k)%nat x (v_at (i + k)%nat) (w_at (i + k)%nat)
     = (Ok (v_at (S (i + k))), w_at (S (i + k)))) →
  (∀ k x v w r w', body k x v w = (Ok r, w') → good x) →
  for_break l i body stop (v_at i) (w_at i) = (Ok r, w') →
  ∃ n : nat,
    (i ≤ n ≤ i + length l)%nat
    ∧ r = v_at n ∧ w' = w_at n
    ∧ Forall good (take (n - i) l)
    ∧ (∀ k, (i < k < n)%nat → stop (v_at k) = false)
    ∧ ((n < i + length l)%nat → stop (v_at n) = true)
    ∧ ((0 < length l)%nat → (i < n)%nat).
Proof.
  induction l as [|x l IH]; intros i r w' Hbody Hgood Hrun.
  - simpl in Hrun. injection Hrun as <- <-.
    exists i. simpl. rewrite take_nil. repeat split; try lia; auto.
  - simpl in Hrun. apply bind_inv in Hrun as (v1 & w1 & H1 & Hrun).
    assert (Hx : good x) by (eapply Hgood, H1).
    pose proof (Hbody 0%nat x eq_refl Hx) as H0.
    rewrite Nat.add_0_r in H0. rewrite H0 in H1.
    injection H1 as <- <-.
    destruct (stop (v_at (S i))) eqn:Hstop.
    + injection Hrun as <- <-.
      exists (S i). replace (S i - i)%nat with 1%nat by lia.
      simpl. rewrite take_0.
      repeat split; try lia; auto.
    + apply IH in Hrun as (n & Hn & -> & -> & Hall & Hbefore & Hat & Hpos);
        [|intros k y Hy Hgy; replace (S i + k)%nat with (i + S k)%nat by lia;
          now apply Hbody | exact Hgood].
      exists n. replace (n - i)%nat with (S (n - S i)) by lia.
      simpl. repeat split; try lia; auto.
      * intros k Hk. destruct (decide (k = S i)) as [->|Hne]; [exact Hstop|].
        apply Hbefore. lia.
      * intros Hlt. apply Hat. simpl in Hlt. lia.
Qed.

Lemma for_break_inv (l : list A) r w' :
  (∀ k x, l !! k = Some x → good x →
     body k x (v_at k) (w_at k) = (Ok (v_at (S k)), w_at (S k))) →
  (∀ k x v w r w', body k x v w = (Ok r, w') → good x) →
  for_break l 0 body stop (v_at 0%nat) (w_at 0%nat) = (Ok r, w') →
  ∃ n : nat,
    (n ≤ length l)%nat
    ∧ r = v_at n ∧ w' = w_at n
    ∧ Forall good (take n l)
    ∧ (∀ k, (1 ≤ k < n)%nat → stop (v_at k) = false)
    ∧ ((n < length l)%nat → stop (v_at n) = true)
    ∧ ((0 < length l)%nat → (1 ≤ n)%nat).
Proof.
  intros Hbody Hgood Hrun.
  apply for_break_from_inv in Hrun
    as (n & Hn & -> & -> & Hall & Hbefore & Hat & Hpos); auto.
  exists n. rewrite Nat.sub_0_r in Hall.
  repeat split; try lia; auto.
Qed.
End ForBreak.

Lemma now_issue c w : now (issue c w) = S (now w).
Proof. unfold now, issue. simpl. rewrite length_app. simpl. lia. Qed.

Lemma lovelace_of_ok u w :
  utxo_ok u = true → lovelace_of u w = (Ok (default 0 (amount_of u)), w).
Proof.
  unfold utxo_ok, amount_of, lovelace_of. intros H.
  apply andb_prop in H as [H _]. apply bool_decide_eq_true in H.
  destruct (u !! "Lovelace"%string) as [s|]; simpl in *.
  - destruct (Py.int s); [reflexivity|]. destruct H; discriminate.
  - destruct H; discriminate.
Qed.

Lemma tx_in_of_ok u w :
  utxo_ok u = true →
  tx_in_of u w = (Ok (default (EmptyString, EmptyString) (ref_of u)), w).
Proof.
  unfold utxo_ok, ref_of, tx_in_of. intros H.
  apply andb_prop in H as [_ H]. apply bool_decide_eq_true in H.
  destruct (u !! "TxHash"%string), (u !! "TxIx"%string);
    simpl in *; try reflexivity; destruct H; discriminate.
Qed.

(** A turn that returns has read a well-formed UTXO. *)
Lemma lovelace_of_inv u w a w' :
  lovelace_of u w = (Ok a, w') → is_Some (amount_of u).
Proof.
  unfold lovelace_of, amount_of.
  destruct (u !! "Lovelace"%string) as [s|]; simpl; [|discriminate].
  destruct (Py.int s); [eauto | discriminate].
Qed.

Lemma tx_in_of_inv u w a w' :
  tx_in_of u w = (Ok a, w') → is_Some (ref_of u).
Proof.
  unfold tx_in_of, ref_of.
  destruct (u !! "TxHash"%string), (u !! "TxIx"%string); try discriminate; eauto.
Qed.

Lemma sum_Z_app l1 l2 : sum_Z (l1 ++ l2) = sum_Z l1 + sum_Z l2.
Proof. unfold sum_Z. induction l1; simpl; lia. Qed.

Section TurnFacts.
Variable node : Node.
Variable mk_draft : list (string * string) → TxFile.
Variable witnesses : Z.
Variable utxos : list Utxo.
Variable before : World.

Lemma length_loop_commands n :
  length (loop_commands node mk_draft witnesses utxos before n) = (3 * n)%nat.
Proof. induction n; simpl; [reflexivity|]. rewrite length_app, IHn. simpl. lia. Qed.

Lemma now_world_after k :
  now (world_after node mk_draft witnesses utxos before k) = (now before + 3 * k)%nat.
Proof.
  unfold now, world_after. simpl. rewrite length_app, length_loop_commands. lia.
Qed.

Lemma total_upto_S j x :
  utxos !! j = Some x →
  total_upto utxos (S j) = total_upto utxos j + default 0 (amount_of x).
Proof.
  intros H. unfold total_upto, amounts.
  rewrite (take_S_r _ _ _ H), map_app, sum_Z_app. simpl. lia.
Qed.

Lemma inputs_upto_S j x :
  utxos !! j = Some x →
  inputs_upto utxos (S j)
  = inputs_upto utxos j ++ [default (EmptyString, EmptyString) (ref_of x)].
Proof.
  intros H. unfold inputs_upto, refs.
  now rewrite (take_S_r _ _ _ H), map_app.
Qed.

(** The fee estimation of turn [j], run after the draft was built. *)
Lemma calc_min_fee_turn j :
  let w := issue (BuildRaw (mk_draft (inputs_upto utxos (S j))))
             (world_after node mk_draft witnesses utxos before j) in
  calc_min_fee node (mk_draft (inputs_upto utxos (S j))) (Z.of_nat j + 1) 1
    witnesses 0 w
  = (Ok (fee_of_turn node mk_draft witnesses utxos before j),
     world_after node mk_draft witnesses utxos before (S j)).
Proof.
  intros w. unfold calc_min_fee, load_protocol_parameters.
  unfold bind, run_cli, set_protocol_parameters, ret. simpl.
  assert (Hnow : now w = fetch_time before j).
  { unfold w. rewrite now_issue, now_world_after. unfold fetch_time. lia. }
  rewrite Hnow. unfold fee_of_turn, snapshot_of_turn.
  f_equal. unfold world_after. simpl. f_equal.
  unfold turn_commands, snapshot_of_turn.
  rewrite <- !app_assoc. reflexivity.
Qed.
End TurnFacts.

Lemma world_after_0 node mk witnesses utxos before :
  world_after node mk witnesses utxos before 0 = before.
Proof. destruct before. unfold world_after. simpl. now rewrite app_nil_r. Qed.


(** ** The selection loop of [build_raw_transaction] *)

Section SelectLoop.
Variable node : Node.
Variable working_dir tx_name payment_addr : string.
Variable witness_count : Z.
Variable payments : option (list Z).
Variable certs : list string.
Variable deposits : Z.
Variable pymt_args_zero : list (string * Z).
Variable utxos : list Utxo.
Variable before : World.

Let mk := draft working_dir tx_name payment_addr certs pymt_args_zero.
Let fee := fee_of_turn node mk witness_count utxos before.
Let sel := selection_after fee (total_upto utxos) (inputs_upto utxos)
             deposits (total_payments payments).
Let world := world_after node mk witness_count utxos before.
Let body := select_body node working_dir tx_name payment_addr witness_count
              payments certs deposits pymt_args_zero.

Lemma selection_total k : utxo_total (sel k) = total_upto utxos k.
Proof. destruct k; reflexivity. Qed.

Lemma selection_inputs k : tx_in_str (sel k) = inputs_upto utxos k.
Proof. destruct k; reflexivity. Qed.

Lemma select_body_turn j x :
  utxos !! j = Some x → utxo_ok x = true →
  body j x (sel j) (world j) = (Ok (sel (S j)), world (S j)).
Proof.
  intros Hx Hok. unfold body, select_body.
  rewrite (bind_ok _ _ _ _ _ (lovelace_of_ok x _ Hok)).
  rewrite (bind_ok _ _ _ _ _ (tx_in_of_ok x _ Hok)).
  rewrite selection_inputs, selection_total.
  rewrite <- (inputs_upto_S utxos j x Hx), <- (total_upto_S utxos j x Hx).
  rewrite bind_run_cli.
  rewrite (bind_ok _ _ _ _ _
             (calc_min_fee_turn node mk witness_count utxos before j)).
  reflexivity.
Qed.

Lemma select_body_inv j x v w r w' :
  body j x v w = (Ok r, w') → utxo_ok x = true.
Proof.
  unfold body, select_body. intros H.
  apply bind_inv in H as (a & w1 & Ha & H).
  apply bind_inv in H as (b & w2 & Hb & _).
  unfold utxo_ok. apply andb_true_intro. split; apply bool_decide_eq_true.
  - eapply lovelace_of_inv, Ha.
  - eapply tx_in_of_inv, Hb.
Qed.

(** The test of the loop is the stop condition of the specification. *)
Lemma select_stop_condition min_utxo k :
  (1 ≤ k)%nat →
  select_stop min_utxo (sel k)
  = stop_condition fee (total_upto utxos) deposits (total_payments payments)
      min_utxo k.
Proof.
  destruct k as [|j]; [lia|]. intros _.
  unfold select_stop, stop_condition. simpl.
  rewrite Z.gtb_ltb, (Z.gtb_ltb _ min_utxo). reflexivity.
Qed.

(** What a loop that has returned has done. *)
Lemma select_loop_inv min_utxo v w2 :
  for_break utxos 0 body (select_stop min_utxo) select_init before = (Ok v, w2) →
  ∃ n : nat,
    (n ≤ length utxos)%nat
    ∧ v = sel n ∧ w2 = world n
    ∧ Forall (λ u, utxo_ok u = true) (take n utxos)
    ∧ (∀ k, (1 ≤ k < n)%nat → select_stop min_utxo (sel k) = false)
    ∧ ((n < length utxos)%nat → select_stop min_utxo (sel n) = true)
    ∧ ((0 < length utxos)%nat → (1 ≤ n)%nat).
Proof.
  intros H.
  apply (for_break_inv body (select_stop min_utxo) sel world
           (λ u, utxo_ok u = true) utxos).
  - intros k x Hx Hok. now apply select_body_turn.
  - intros k x v0 w0 r w' Hb. eapply select_body_inv, Hb.
  - unfold world. rewrite world_after_0. exact H.
Qed.
End SelectLoop.

Lemma check_ada_inv n w r w' :
  check_ada n w = (r, w') → w' = w ∧ (r = Ok tt ∨ r = Python OverflowError).
Proof.
  unfold check_ada. destruct (Py.ada_overflows n); intros H;
    injection H as <- <-; auto.
Qed.

(** What [finish] has done when it returns. *)
Lemma finish_inv working_dir tx_name addr certs cleanup min_utxo ttl pymt v w f w' :
  finish working_dir tx_name addr certs cleanup min_utxo ttl pymt v w = (Ok f, w') →
  lovelaces_out v ≤ utxo_total v
  ∧ ∃ change, utxo_amt v = Some change
      ∧ (change = 0 ∨ min_utxo ≤ change)
      ∧ f = raw_file working_dir tx_name addr certs ttl pymt v change
      ∧ w' = finished working_dir tx_name cleanup f w.
Proof.
  unfold finish. intros H.
  apply bind_inv in H as ([] & w1 & H1 & H). apply check_ada_inv in H1 as [-> _].
  apply bind_inv in H as ([] & w1 & H1 & H). apply check_ada_inv in H1 as [-> _].
  apply bind_inv in H as ([] & w1 & H1 & H).
  destruct (utxo_total v <? lovelaces_out v) eqn:Hlt.
  { destruct (lovelaces_out v =? Py.maxsize); discriminate. }
  injection H1 as <-. apply Z.ltb_ge in Hlt. split; [exact Hlt|].
  apply bind_inv in H as (utxo_str & w1 & H1 & H).
  destruct (utxo_amt v) as [change|]; [|discriminate].
  exists change. split; [reflexivity|].
  assert (Hstr : (change = 0 ∨ min_utxo ≤ change)
                 ∧ utxo_str = change_output addr change ∧ w1 = w).
  { unfold change_output. destruct (change =? 0) eqn:E0.
    - injection H1 as <- <-. apply Z.eqb_eq in E0. auto.
    - destruct (change <? min_utxo) eqn:Emin.
      + unfold bind in H1. destruct (check_ada min_utxo w) as [[| |] ?];
          discriminate.
      + injection H1 as <- <-. apply Z.ltb_ge in Emin. auto. }
  destruct Hstr as (Hchange & -> & ->). split; [exact Hchange|].
  rewrite bind_run_cli in H. unfold finished, raw_file.
  destruct cleanup.
  - unfold cleanup_file in H. rewrite bind_run_cli in H.
    injection H as <- <-. split; reflexivity.
  - injection H as <- <-. split; reflexivity.
Qed.

(** ** The UTXO accessor *)

Lemma add_extras_messages vals extra : ∀ d,
  Forall (eq skip_message) (add_extras vals extra d).2.
Proof.
  induction extra as [|i extra IH]; intros d; simpl; [constructor|].
  destruct (add_extra vals i d) as [d1 m1] eqn:E1.
  specialize (IH d1). destruct (add_extras vals extra d1) as [d2 m2].
  simpl in *. apply Forall_app. split; [|exact IH].
  unfold add_extra in E1.
  destruct (vals !! (i + 2)%nat), (vals !! (i + 1)%nat);
    try (destruct (d !! _)); injection E1 as <- <-;
    repeat constructor.
Qed.

Lemma parse_row_wide row :
  if wide row then ∃ u msgs, parse_row row = Some (u, msgs)
                       ∧ Forall (eq skip_message) msgs
  else parse_row row = None.
Proof.
  unfold wide, parse_row.
  destruct (Py.split row) as [|a [|b [|c vals]]]; try reflexivity.
  generalize (plus_columns (a :: b :: c :: vals) 0) as extra. intros extra.
  simpl.
  pose proof (add_extras_messages (a :: b :: c :: vals) extra
                (<["Lovelace"%string:=c]>
                   (<["TxIx"%string:=b]> (<["TxHash"%string:=a]> ∅)))) as H.
  destruct (add_extras _ extra _) as [u msgs]. eauto.
Qed.

Lemma for_each_print msgs w :
  for_each msgs print w = (Ok tt, print_all msgs w).
Proof.
  revert w. induction msgs as [|m msgs IH]; intros w; simpl.
  - unfold ret, print_all. rewrite app_nil_r. now destruct w.
  - unfold bind at 1. unfold print at 1. rewrite IH.
    unfold print_all. simpl. now rewrite <- app_assoc.
Qed.

(** The rows are parsed one by one; the first row that is not wide ends the
    parsing with an [IndexError]. *)
Lemma parse_rows_result rows : ∀ acc w,
  ∃ msgs, Forall (eq skip_message) msgs ∧
    if forallb wide rows
    then ∃ us, Forall2 (λ row u, ∃ m, parse_row row = Some (u, m)) rows us
               ∧ parse_rows rows acc w = (Ok (acc ++ us), print_all msgs w)
    else parse_rows rows acc w = (Python IndexError, print_all msgs w).
Proof.
  induction rows as [|row rows IH]; intros acc w.
  - exists []. split; [constructor|]. simpl. exists [].
    split; [constructor|]. unfold ret, print_all. rewrite !app_nil_r.
    now destruct w.
  - simpl. pose proof (parse_row_wide row) as Hrow.
    destruct (wide row).
    + destruct Hrow as (u & m & Hpr & Hm). rewrite Hpr. simpl.
      rewrite !(bind_ok _ _ _ _ _ (for_each_print m w)).
      destruct (IH (acc ++ [u]) (print_all m w)) as (msgs & Hmsgs & Hres).
      exists (m ++ msgs). split; [now apply Forall_app|].
      assert (Hw : print_all msgs (print_all m w) = print_all (m ++ msgs) w).
      { unfold print_all. simpl. now rewrite app_assoc. }
      rewrite Hw in Hres.
      destruct (forallb wide rows).
      * destruct Hres as (us & Hus & Hres). exists (u :: us).
        split; [constructor; eauto|]. rewrite Hres.
        now rewrite <- app_assoc.
      * exact Hres.
    + rewrite Hrow. simpl. exists []. split; [constructor|].
      unfold raise_py, print_all. rewrite app_nil_r. now destruct w.
Qed.

Lemma get_utxos_world node addr filter w r w' :
  get_utxos node addr filter w = (r, w') →
  ∃ msgs, w' = print_all msgs (issue (QueryUtxo addr) w).
Proof.
  intros H.
  destruct (parse_rows_result
              (rows_of (stdout (utxo_table node (now w) addr))) []
              (issue (QueryUtxo addr) w)) as (msgs & _ & Hres).
  exists msgs. unfold get_utxos in H. rewrite bind_run_cli in H.
  unfold bind in H. fold (rows_of (stdout (utxo_table node (now w) addr))) in H.
  destruct (forallb wide _).
  - destruct Hres as (us & _ & Hres). rewrite Hres in H. now injection H.
  - rewrite Hres in H. now injection H.
Qed.

(** ** The steps around the loops *)

Lemma sort_utxos_inv utxos w l w' :
  sort_utxos utxos w = (Ok l, w') → l = Py.sort_desc lovelace_key utxos ∧ w' = w.
Proof.
  unfold sort_utxos. destruct (forallb _ utxos); [|discriminate].
  intros H. now injection H.
Qed.

Lemma get_tip_inv node w t w' :
  get_tip node w = (Ok t, w') → tip node (now w) = inl t ∧ w' = issue QueryTip w.
Proof.
  unfold get_tip. rewrite bind_run_cli.
  destruct (tip node (now w)); [|discriminate].
  intros H. now injection H as <- <-.
Qed.

Lemma load_protocol_parameters_eq node w :
  load_protocol_parameters node w = (Ok (parameters node (now w)), fetched node w).
Proof. reflexivity. Qed.

Lemma payment_args_pure pairs : ∀ w r w',
  payment_args pairs w = (r, w') → w' = w.
Proof.
  induction pairs as [|[addr amt] rest IH]; intros w r w' H; simpl in H.
  - now injection H.
  - destruct (Py.format_0f amt); [|now injection H].
    unfold bind in H.
    destruct (payment_args rest w) as [[[zero real]|e|e] w1] eqn:E;
      apply IH in E; subst w1; now injection H.
Qed.

Lemma zipped_payments_pure receive payments w r w' :
  zipped_payments receive payments w = (r, w') → w' = w.
Proof.
  unfold zipped_payments. destruct receive, payments; intros H; now injection H.
Qed.

Lemma prelude_eq node addr msgs w :
  fetched node (issue QueryTip (print_all msgs (issue (QueryUtxo addr) w)))
  = prelude node addr msgs w.
Proof.
  unfold fetched, prelude, issue, print_all, now. simpl.
  rewrite <- !app_assoc. simpl. rewrite !length_app. simpl.
  replace (length (commands w) + 1 + 1)%nat with (length (commands w) + 2)%nat
    by lia.
  reflexivity.
Qed.

Section BuildRawSteps.
Variable node : Node.
Variable ttl_buffer : Z.
Variable working_dir tx_name payment_addr : string.
Variable witness_count : Z.
Variable receive_addrs : list string.
Variable payments : option (list Z).
Variable certs : list string.
Variable deposits : Z.
Variable cleanup : bool.

(** A call that returns went through these steps. *)
Lemma build_raw_transaction_inv w f w' :
  build_raw_transaction node ttl_buffer working_dir tx_name payment_addr
    witness_count receive_addrs payments certs deposits cleanup w = (Ok f, w') →
  ∃ pairs zero pymt utxos0 msgs tipv v w2,
    zipped_payments receive_addrs payments w = (Ok pairs, w)
    ∧ payment_args pairs w = (Ok (zero, pymt), w)
    ∧ get_utxos node payment_addr (Some "Lovelace"%string) w
      = (Ok utxos0, print_all msgs (issue (QueryUtxo payment_addr) w))
    ∧ tip node (S (now w)) = inl tipv
    ∧ let min_utxo := minUTxOValue (parameters node (now w + 2)%nat) in
      for_break (Py.sort_desc lovelace_key utxos0) 0
        (select_body node working_dir tx_name payment_addr witness_count
           payments certs deposits zero)
        (select_stop min_utxo) select_init (prelude node payment_addr msgs w)
      = (Ok v, w2)
      ∧ finish working_dir tx_name payment_addr certs cleanup min_utxo
          (tipv + ttl_buffer) pymt v w2 = (Ok f, w').
Proof.
  unfold build_raw_transaction. intros H.
  apply bind_inv in H as (pairs & w1 & Hz & H).
  pose proof (zipped_payments_pure _ _ _ _ _ Hz) as ->.
  apply bind_inv in H as ([zero pymt] & w1 & Hp & H).
  pose proof (payment_args_pure _ _ _ _ Hp) as ->.
  apply bind_inv in H as (utxos0 & w1 & Hu & H).
  destruct (get_utxos_world _ _ _ _ _ _ Hu) as (msgs & ->).
  apply bind_inv in H as (utxos & w1 & Hs & H).
  apply sort_utxos_inv in Hs as [-> ->].
  apply bind_inv in H as (tipv & w1 & Ht & H).
  apply get_tip_inv in Ht as [Ht ->].
  rewrite (bind_ok _ _ _ _ _ (load_protocol_parameters_eq node _)) in H.
  rewrite prelude_eq in H.
  unfold bind at 1 in H. unfold get_protocol_parameters in H. simpl in H.
  apply bind_inv in H as (v & w2 & Hloop & H).
  exists pairs, zero, pymt, utxos0, msgs, tipv, v, w2.
  repeat split; try assumption.
  - unfold print_all, issue, now in Ht. simpl in Ht.
    rewrite length_app in Ht. simpl in Ht.
    now replace (length (commands w) + 1)%nat with (S (now w)) in Ht
      by (unfold now; lia).
Qed.
End BuildRawSteps.

(** ** The selection loop of [register_stake_address] *)

Section StakeLoop.
Variable node : Node.
Variable working_dir tx_name addr stake_cert_path : string.
Variable utxos : list Utxo.
Variable before : World.

Let mk := λ ins, cert_tx working_dir tx_name ".draft" ins addr 0 0 0
                   [stake_cert_path].
Let fee := fee_of_turn node mk 2 utxos before.
Let init := {| utxo_total' := 0; tx_in_str' := []; min_fee' := None;
               cost' := None |}.
Let deposit := λ j, stakeAddressDeposit (snapshot_of_turn node before j).
Let fund := funding_after init fee (total_upto utxos) (inputs_upto utxos)
              (λ j, Some (fee j + deposit j)).
Let world := world_after node mk 2 utxos before.
Let body := stake_body node working_dir tx_name addr stake_cert_path.

Lemma stake_total k : utxo_total' (fund k) = total_upto utxos k.
Proof. destruct k; reflexivity. Qed.

Lemma stake_inputs k : tx_in_str' (fund k) = inputs_upto utxos k.
Proof. destruct k; reflexivity. Qed.

Lemma stake_body_turn j x :
  utxos !! j = Some x → utxo_ok x = true →
  body j x (fund j) (world j) = (Ok (fund (S j)), world (S j)).
Proof.
  intros Hx Hok. unfold body, stake_body.
  rewrite (bind_ok _ _ _ _ _ (lovelace_of_ok x _ Hok)).
  rewrite (bind_ok _ _ _ _ _ (tx_in_of_ok x _ Hok)).
  rewrite stake_inputs, stake_total.
  rewrite <- (inputs_upto_S utxos j x Hx), <- (total_upto_S utxos j x Hx).
  rewrite bind_run_cli.
  rewrite (bind_ok _ _ _ _ _ (calc_min_fee_turn node mk 2 utxos before j)).
  reflexivity.
Qed.

Lemma stake_body_inv j x v w r w' :
  body j x v w = (Ok r, w') → utxo_ok x = true.
Proof.
  unfold body, stake_body. intros H.
  apply bind_inv in H as (a & w1 & Ha & H).
  apply bind_inv in H as (b & w2 & Hb & _).
  unfold utxo_ok. apply andb_true_intro. split; apply bool_decide_eq_true.
  - eapply lovelace_of_inv, Ha.
  - eapply tx_in_of_inv, Hb.
Qed.


Lemma stake_loop_inv v w2 :
  for_break utxos 0 body stake_stop init before = (Ok v, w2) →
  ∃ n : nat,
    (n ≤ length utxos)%nat
    ∧ v = fund n ∧ w2 = world n
    ∧ Forall (λ u, utxo_ok u = true) (take n utxos)
    ∧ (∀ k, (1 ≤ k < n)%nat → stake_stop (fund k) = false)
    ∧ ((n < length utxos)%nat → stake_stop (fund n) = true)
    ∧ ((0 < length utxos)%nat → (1 ≤ n)%nat).
Proof.
  intros H.
  apply (for_break_inv body stake_stop fund world
           (λ u, utxo_ok u = true) utxos).
  - intros k x Hx Hok. now apply stake_body_turn.
  - intros k x v0 w0 r w' Hb. eapply stake_body_inv, Hb.
  - unfold world. rewrite world_after_0. exact H.
Qed.
End StakeLoop.

(** ** The selection loop of the pool registrations *)

Section PoolLoop.
Variable node : Node.
Variable working_dir tx_name payment_addr : string.
Variable owner_stake_skeys : list string.
Variable pool_cert_path : string.
Variable del_certs : list string.
Variable utxos : list Utxo.
Variable before : World.

Let mk := λ ins, cert_tx working_dir tx_name ".draft" ins payment_addr 0 0 0
                   (pool_cert_path :: del_certs).
Let nwit := Z.of_nat (length owner_stake_skeys) + 2.
Let fee := fee_of_turn node mk nwit utxos before.
Let fund := funding_after pool_init fee (total_upto utxos)
              (inputs_upto utxos) (λ _, None).
Let world := world_after node mk nwit utxos before.
Let body := pool_body node working_dir tx_name payment_addr
              owner_stake_skeys pool_cert_path del_certs.

Lemma pool_total k : utxo_total' (fund k) = total_upto utxos k.
Proof. destruct k; reflexivity. Qed.

Lemma pool_inputs k : tx_in_str' (fund k) = inputs_upto utxos k.
Proof. destruct k; reflexivity. Qed.

Lemma pool_cost k : cost' (fund k) = None.
Proof. destruct k; reflexivity. Qed.

Lemma pool_body_turn j x :
  utxos !! j = Some x → utxo_ok x = true →
  body j x (fund j) (world j) = (Ok (fund (S j)), world (S j)).
Proof.
  intros Hx Hok. unfold body, pool_body.
  rewrite (bind_ok _ _ _ _ _ (lovelace_of_ok x _ Hok)).
  rewrite (bind_ok _ _ _ _ _ (tx_in_of_ok x _ Hok)).
  rewrite pool_inputs, pool_total, pool_cost.
  rewrite <- (inputs_upto_S utxos j x Hx), <- (total_upto_S utxos j x Hx).
  rewrite bind_run_cli.
  rewrite (bind_ok _ _ _ _ _ (calc_min_fee_turn node mk nwit utxos before j)).
  reflexivity.
Qed.

Lemma pool_body_inv j x v w r w' :
  body j x v w = (Ok r, w') → utxo_ok x = true.
Proof.
  unfold body, pool_body. intros H.
  apply bind_inv in H as (a & w1 & Ha & H).
  apply bind_inv in H as (b & w2 & Hb & _).
  unfold utxo_ok. apply andb_true_intro. split; apply bool_decide_eq_true.
  - eapply lovelace_of_inv, Ha.
  - eapply tx_in_of_inv, Hb.
Qed.



Lemma pool_loop_inv stop v w2 :
  for_break utxos 0 body stop pool_init before = (Ok v, w2) →
  ∃ n : nat,
    (n ≤ length utxos)%nat
    ∧ v = fund n ∧ w2 = world n
    ∧ Forall (λ u, utxo_ok u = true) (take n utxos)
    ∧ (∀ k, (1 ≤ k < n)%nat → stop (fund k) = false)
    ∧ ((n < length utxos)%nat → stop (fund n) = true)
    ∧ ((0 < length utxos)%nat → (1 ≤ n)%nat).
Proof.
  intros H.
  apply (for_break_inv body stop fund world (λ u, utxo_ok u = true) utxos).
  - intros k x Hx Hok. now apply pool_body_turn.
  - intros k x v0 w0 r w' Hb. eapply pool_body_inv, Hb.
  - unfold world. rewrite world_after_0. exact H.
Qed.
End PoolLoop.

(** ** The assembly of the certificate transactions *)

Section StakeSteps.
Variable node : Node.
Variable ttl_buffer : Z.
Variable working_dir tx_name addr stake_cert_path : string.

Lemma stake_assemble_inv w f w' :
  stake_assemble node ttl_buffer working_dir tx_name addr stake_cert_path w
  = (Ok f, w') →
  ∃ utxos0 msgs tipv (n : nat),
    let w1 := print_all msgs (issue (QueryUtxo addr) (issue QueryTip w)) in
    get_utxos node addr None (issue QueryTip w) = (Ok utxos0, w1)
    ∧ let utxos := Py.sort_desc lovelace_key utxos0 in
      let before := fetched node w1 in
      let mk := λ ins, cert_tx working_dir tx_name ".draft" ins addr 0 0 0
                         [stake_cert_path] in
      let fee := fee_of_turn node mk 2 utxos before (pred n) in
      let cost := fee + stakeAddressDeposit
                          (snapshot_of_turn node before (pred n)) in
      (1 ≤ n ≤ length utxos)%nat
      ∧ Forall (λ u, utxo_ok u = true) (take n utxos)
      ∧ cost ≤ total_upto utxos n
      ∧ f = cert_tx working_dir tx_name ".raw" (inputs_upto utxos n) addr
              (total_upto utxos n - cost) (tipv + ttl_buffer) fee
              [stake_cert_path]
      ∧ w' = issue (BuildRaw f) (world_after node mk 2 utxos before n).
Proof.
  unfold stake_assemble. intros H.
  apply bind_inv in H as (tipv & w1 & Ht & H).
  apply get_tip_inv in Ht as [Ht ->].
  apply bind_inv in H as (utxos0 & w1 & Hu & H).
  destruct (get_utxos_world _ _ _ _ _ _ Hu) as (msgs & ->).
  apply bind_inv in H as ([] & w1 & Hlen & H).
  destruct (length utxos0 <? 1)%nat eqn:Elen; [discriminate|].
  injection Hlen as <-.
  apply bind_inv in H as (utxos & w1 & Hs & H).
  apply sort_utxos_inv in Hs as [-> ->].
  rewrite (bind_ok _ _ _ _ _ (load_protocol_parameters_eq node _)) in H.
  apply bind_inv in H as (v & w2 & Hloop & H).
  apply stake_loop_inv in Hloop as (n & Hn & -> & -> & Hall & _ & _ & Hpos).
  exists utxos0, msgs, tipv, n. cbv zeta. split; [exact Hu|].
  destruct n as [|j]; [simpl in H; discriminate|].
  simpl in H. rewrite bind_ret in H.
  apply bind_inv in H as ([] & w1 & Hshort & H).
  match type of Hshort with
  | (if ?c then _ else _) _ = _ => destruct c eqn:Ecost
  end.
  { unfold bind in Hshort.
    destruct (check_ada _ _) as [[| |] ?]; [|discriminate..].
    destruct (check_ada _ _) as [[| |] ?]; discriminate. }
  injection Hshort as <-. rewrite bind_ret, bind_run_cli in H.
  injection H as <- <-. apply Z.ltb_ge in Ecost.
  repeat split; try assumption; lia.
Qed.
End StakeSteps.

Section PoolSteps.
Variable node : Node.
Variable ttl_buffer : Z.
Variable working_dir tx_name payment_addr : string.
Variable owner_stake_skeys : list string.
Variable pool_cert_path : string.
Variable del_certs : list string.

Lemma pool_assemble_inv pool_deposit stop short w f w' :
  pool_assemble node ttl_buffer working_dir tx_name payment_addr
    owner_stake_skeys pool_cert_path del_certs pool_deposit stop short w
  = (Ok f, w') →
  ∃ utxos0 msgs tipv (n : nat) min_fee,
    get_utxos node payment_addr None w
    = (Ok utxos0, print_all msgs (issue (QueryUtxo payment_addr) w))
    ∧ let utxos := Py.sort_desc lovelace_key utxos0 in
      let before := prelude node payment_addr msgs w in
      let mk := λ ins, cert_tx working_dir tx_name ".draft" ins payment_addr
                         0 0 0 (pool_cert_path :: del_certs) in
      let nwit := Z.of_nat (length owner_stake_skeys) + 2 in
      (n ≤ length utxos)%nat
      ∧ Forall (λ u, utxo_ok u = true) (take n utxos)
      ∧ min_fee = match n with
                  | O => 1
                  | S j => fee_of_turn node mk nwit utxos before j
                  end
      ∧ short (total_upto utxos n) min_fee = false
      ∧ f = cert_tx working_dir tx_name ".raw" (inputs_upto utxos n)
              payment_addr (total_upto utxos n - min_fee - pool_deposit)
              (tipv + ttl_buffer) min_fee (pool_cert_path :: del_certs)
      ∧ w' = issue (BuildRaw f) (world_after node mk nwit utxos before n).
Proof.
  unfold pool_assemble. intros H.
  apply bind_inv in H as (utxos0 & w1 & Hu & H).
  destruct (get_utxos_world _ _ _ _ _ _ Hu) as (msgs & ->).
  apply bind_inv in H as (utxos & w1 & Hs & H).
  apply sort_utxos_inv in Hs as [-> ->].
  apply bind_inv in H as (tipv & w1 & Ht & H).
  apply get_tip_inv in Ht as [Ht ->].
  rewrite (bind_ok _ _ _ _ _ (load_protocol_parameters_eq node _)) in H.
  rewrite prelude_eq in H.
  apply bind_inv in H as (v & w2 & Hloop & H).
  apply pool_loop_inv in Hloop as (n & Hn & -> & -> & Hall & _ & _ & _).
  apply bind_inv in H as (min_fee & w1 & Hfee & H).
  exists utxos0, msgs, tipv, n, min_fee. cbv zeta. split; [exact Hu|].
  rewrite pool_total, pool_inputs in H.
  assert (Hmin : min_fee = match n with
                           | O => 1
                           | S j => fee_of_turn node
                               (λ ins, cert_tx working_dir tx_name ".draft" ins
                                         payment_addr 0 0 0
                                         (pool_cert_path :: del_certs))
                               (Z.of_nat (length owner_stake_skeys) + 2)
                               (Py.sort_desc lovelace_key utxos0)
                               (prelude node payment_addr msgs w) j
                           end ∧ w1 = world_after node
                               (λ ins, cert_tx working_dir tx_name ".draft" ins
                                         payment_addr 0 0 0
                                         (pool_cert_path :: del_certs))
                               (Z.of_nat (length owner_stake_skeys) + 2)
                               (Py.sort_desc lovelace_key utxos0)
                               (prelude node payment_addr msgs w) n).
  { destruct n; simpl in Hfee; injection Hfee as <- <-; auto. }
  destruct Hmin as [Hmin ->].
  apply bind_inv in H as ([] & w1 & Hshort & H).
  destruct (short _ min_fee) eqn:Eshort.
  { unfold bind in Hshort.
    destruct (check_ada _ _) as [[| |] ?]; [|discriminate..].
    destruct (check_ada _ _) as [[| |] ?]; discriminate. }
  injection Hshort as <-. rewrite bind_run_cli in H.
  injection H as <- <-.
  repeat split; try assumption.
Qed.
End PoolSteps.

(** ** Payments *)

Lemma float_of_int_exact a : Z.abs a < 2 ^ 53 → Py.float_of_int a = Some a.
Proof.
  intros H. unfold Py.float_of_int.
  assert (Z.log2 (Z.abs a) < 53).
  { destruct (Z.eq_dec (Z.abs a) 0) as [->|Hne]; [reflexivity|].
    apply Z.log2_lt_pow2; lia. }
  destruct (Z.leb_spec (Z.log2 (Z.abs a) + 1 - 53) 0); [reflexivity | lia].
Qed.

Lemma payment_args_exact pairs : ∀ w zero pymt w',
  Forall (λ p : string * Z, Z.abs p.2 < 2 ^ 53) pairs →
  payment_args pairs w = (Ok (zero, pymt), w') → pymt = pairs.
Proof.
  induction pairs as [|[addr amt] rest IH]; intros w zero pymt w' Hall H;
    simpl in H.
  - now injection H.
  - inversion Hall as [|? ? Hamt Hrest]; subst. simpl in Hamt.
    unfold Py.format_0f in H. rewrite (float_of_int_exact _ Hamt) in H.
    apply bind_inv in H as ([z p] & w1 & Hrec & H).
    apply IH in Hrec; [|exact Hrest]. subst p. now injection H.
Qed.

(** With as many payments as receivers, each payment small enough to be
    printed exactly, the payment outputs add up to the total of the
    payments. *)
Lemma payments_sum receive_addrs payments w pairs zero pymt :
  length receive_addrs = length (default [] payments) →
  Forall (λ a, Z.abs a < 2 ^ 53) (default [] payments) →
  zipped_payments receive_addrs payments w = (Ok pairs, w) →
  payment_args pairs w = (Ok (zero, pymt), w) →
  sum_Z (map snd pymt) = total_payments payments.
Proof.
  intros Hlen Hsmall Hz Hp.
  assert (Hpairs : pairs = zip receive_addrs (default [] payments)).
  { unfold zipped_payments in Hz.
    destruct receive_addrs as [|r rs]; [now injection Hz|].
    destruct payments as [ps|]; [now injection Hz | discriminate]. }
  assert (Hsnd : map snd pairs = default [] payments).
  { rewrite Hpairs. apply snd_zip. lia. }
  apply payment_args_exact in Hp.
  - subst pymt. rewrite Hsnd. unfold total_payments.
    destruct payments as [[|p ps]|]; reflexivity.
  - apply Forall_forall. intros [a amt] Hin. simpl.
    rewrite Forall_forall in Hsmall. apply Hsmall.
    rewrite <- Hsnd. apply list_elem_of_fmap. exists (a, amt). auto.
Qed.

(** ** Counting the queries for the parameters *)

Lemma fetches_app cs1 cs2 : fetches (cs1 ++ cs2) = (fetches cs1 + fetches cs2)%nat.
Proof. unfold fetches. now rewrite List.filter_app, length_app. Qed.

Lemma fetches_loop_commands node mk witnesses utxos before n :
  fetches (loop_commands node mk witnesses utxos before n) = n.
Proof.
  induction n as [|j IH]; [reflexivity|].
  simpl. rewrite fetches_app, IH. unfold fetches. simpl. lia.
Qed.

(** ** Computations that do not submit *)

Create HintDb silent.

Lemma silent_same {A} (m : M A) :
  (∀ w r w', m w = (r, w') → commands w' = commands w) → silent m.
Proof.
  intros H w r w' Hrun. exists []. rewrite app_nil_r. split; [eauto | reflexivity].
Qed.

Lemma silent_ret {A} (a : A) : silent (ret a).
Proof. apply silent_same. intros w r w' H. now injection H as <- <-. Qed.

Lemma silent_raise {A} e : silent (@raise A e).
Proof. apply silent_same. intros w r w' H. now injection H as <- <-. Qed.

Lemma silent_raise_py {A} e : silent (@raise_py A e).
Proof. apply silent_same. intros w r w' H. now injection H as <- <-. Qed.

Lemma silent_print msg : silent (print msg).
Proof. apply silent_same. intros w r w' H. now injection H as <- <-. Qed.

Lemma silent_set_protocol_parameters p : silent (set_protocol_parameters p).
Proof. apply silent_same. intros w r w' H. now injection H as <- <-. Qed.

Lemma silent_get_protocol_parameters : silent get_protocol_parameters.
Proof.
  apply silent_same. intros w r w' H. unfold get_protocol_parameters in H.
  destruct (protocol_parameters w); now injection H as <- <-.
Qed.

Lemma silent_run_cli {A} c (answer : nat → A) :
  is_submit c = false → silent (run_cli c answer).
Proof.
  intros Hc w r w' H. injection H as <- <-. exists [c]. split; [reflexivity|].
  unfold no_submit. simpl. now rewrite Hc.
Qed.

Lemma silent_bind {A B} (m : M A) (k : A → M B) :
  silent m → (∀ a, silent (k a)) → silent (bind m k).
Proof.
  intros Hm Hk w r w' H. unfold bind in H.
  destruct (m w) as [[a|e|e] w1] eqn:E; apply Hm in E as (new1 & E1 & N1).
  - apply Hk in H as (new2 & E2 & N2). exists (new1 ++ new2).
    rewrite E2, E1, app_assoc. split; [reflexivity|].
    unfold no_submit in *. rewrite forallb_app. now rewrite N1, N2.
  - injection H as <- <-. eauto.
  - injection H as <- <-. eauto.
Qed.

#[local] Hint Resolve silent_ret silent_raise silent_raise_py silent_print
  silent_set_protocol_parameters silent_get_protocol_parameters : silent.

(** Take a computation apart along its binds, branches and commands. *)
Ltac silence :=
  repeat first
    [ progress (auto with silent)
    | apply silent_bind; [|intros ?]
    | apply silent_run_cli; reflexivity
    | match goal with
      | |- silent (if ?c then _ else _) => destruct c
      | |- silent (match ?x with _ => _ end) => destruct x
      | |- silent (let '(_, _) := ?x in _) => destruct x
      end ].

Lemma silent_for_each {A} (l : list A) (body : A → M unit) :
  (∀ x, silent (body x)) → silent (for_each l body).
Proof. intros H. induction l; simpl; silence. Qed.

Lemma silent_for_break {A V} (l : list A) (body : nat → A → V → M V) stop :
  (∀ i x v, silent (body i x v)) → ∀ i v, silent (for_break l i body stop v).
Proof. intros H. induction l; intros i v; simpl; silence. Qed.

Lemma silent_lovelace_of u : silent (lovelace_of u).
Proof. unfold lovelace_of. silence. Qed.

Lemma silent_tx_in_of u : silent (tx_in_of u).
Proof. unfold tx_in_of. silence. Qed.

Lemma silent_check_ada n : silent (check_ada n).
Proof. unfold check_ada. silence. Qed.

Lemma silent_sort_utxos utxos : silent (sort_utxos utxos).
Proof. unfold sort_utxos. silence. Qed.

Lemma silent_cleanup_file fpath : silent (cleanup_file fpath).
Proof. unfold cleanup_file. silence. Qed.

#[local] Hint Resolve silent_lovelace_of silent_tx_in_of silent_check_ada
  silent_sort_utxos silent_cleanup_file silent_for_each silent_for_break : silent.

Lemma silent_parse_rows rows : ∀ acc, silent (parse_rows rows acc).
Proof. induction rows; intros acc; simpl; silence. Qed.

#[local] Hint Resolve silent_parse_rows : silent.

Lemma silent_get_utxos node addr filter : silent (get_utxos node addr filter).
Proof. unfold get_utxos. silence. Qed.

Lemma silent_get_tip node : silent (get_tip node).
Proof. unfold get_tip. silence. Qed.

Lemma silent_load_protocol_parameters node : silent (load_protocol_parameters node).
Proof. unfold load_protocol_parameters. silence. Qed.

#[local] Hint Resolve silent_get_utxos silent_get_tip
  silent_load_protocol_parameters : silent.

Lemma silent_calc_min_fee node d a b c e : silent (calc_min_fee node d a b c e).
Proof. unfold calc_min_fee. silence. Qed.

#[local] Hint Resolve silent_calc_min_fee : silent.

Lemma silent_payment_args pairs : silent (payment_args pairs).
Proof. induction pairs as [|[a amt] rest IH]; simpl; silence. Qed.

Lemma silent_zipped_payments receive payments :
  silent (zipped_payments receive payments).
Proof. unfold zipped_payments. silence. Qed.

#[local] Hint Resolve silent_payment_args silent_zipped_payments : silent.

Lemma silent_build_raw_transaction node ttl_buffer working_dir tx_name
    payment_addr witness_count receive_addrs payments certs deposits cleanup :
  silent (build_raw_transaction node ttl_buffer working_dir tx_name payment_addr
            witness_count receive_addrs payments certs deposits cleanup).
Proof.
  unfold build_raw_transaction, finish. silence.
  apply silent_for_break. intros i x v. unfold select_body. silence.
Qed.

Lemma silent_sign_transaction node tx_file skeys :
  silent (sign_transaction node tx_file skeys).
Proof. unfold sign_transaction. silence. Qed.

Lemma silent_stake_assemble node ttl_buffer working_dir tx_name addr cert :
  silent (stake_assemble node ttl_buffer working_dir tx_name addr cert).
Proof.
  unfold stake_assemble. silence.
  apply silent_for_break. intros i x v. unfold stake_body. silence.
Qed.

#[local] Hint Resolve silent_build_raw_transaction silent_sign_transaction
  silent_stake_assemble : silent.

Lemma silent_offline node tx_signed_file cleanup :
  silent (submit_or_print node tx_signed_file true cleanup).
Proof. unfold submit_or_print. simpl. silence. Qed.

Lemma offline_prints node tx_signed_file cleanup w r w' :
  submit_or_print node tx_signed_file true cleanup w = (r, w') →
  r = Ok None ∧ last (printed w') = Some (saved_message tx_signed_file).
Proof.
  unfold submit_or_print. simpl. intros H. injection H as <- <-.
  split; [reflexivity|]. simpl. apply last_snoc.
Qed.

Lemma build_raw_transaction_stem node ttl_buffer working_dir tx_name
    payment_addr witness_count receive_addrs payments certs deposits cleanup
    w f w' :
  build_raw_transaction node ttl_buffer working_dir tx_name payment_addr
    witness_count receive_addrs payments certs deposits cleanup w = (Ok f, w') →
  file_stem f = tx_name.
Proof.
  intros H.
  apply build_raw_transaction_inv in H
    as (pairs & zero & pymt & utxos0 & msgs & tipv & v & w2
        & _ & _ & _ & _ & _ & Hfin).
  apply finish_inv in Hfin as (_ & change & _ & _ & -> & _). reflexivity.
Qed.

Lemma sign_transaction_inv node tx_file skeys w s w' :
  sign_transaction node tx_file skeys w = (Ok s, w') →
  s = (file_stem tx_file +:+ ".signed")%stdpp.
Proof.
  unfold sign_transaction. rewrite bind_run_cli.
  destruct (Py.is_empty _); [|discriminate]. intros H. now injection H.
Qed.


(** X25.  The certificate transactions compare nothing with the minimum UTXO
    value: their body file has the one output, of the change, which is zero
    or more. *)
Lemma certificate_change_unchecked
    (node : Node) (ttl_buffer : Z) (working_dir tx_name payment_addr : string)
    (owner_stake_skeys : list string) (pool_cert_path : string)
    (del_certs : list string) (pool_deposit : Z) (stake_cert_path : string)
    (w : World) :
  (∀ f w',
     pool_assemble node ttl_buffer working_dir tx_name payment_addr
       owner_stake_skeys pool_cert_path del_certs pool_deposit
       (register_stop pool_deposit) (register_short pool_deposit) w
     = (Ok f, w') →
     ∃ change, tx_out (file_body f) = [(payment_addr, change)] ∧ 0 ≤ change)
  ∧ (∀ f w',
       pool_assemble node ttl_buffer working_dir tx_name payment_addr
         owner_stake_skeys pool_cert_path del_certs 0
         (update_stop 0) update_short w
       = (Ok f, w') →
       ∃ change, tx_out (file_body f) = [(payment_addr, change)] ∧ 0 ≤ change)
  ∧ (∀ f w',
       stake_assemble node ttl_buffer working_dir tx_name payment_addr
         stake_cert_path w = (Ok f, w') →
       ∃ change, tx_out (file_body f) = [(payment_addr, change)] ∧ 0 ≤ change).
Proof.
  split; [|split].
  - intros f w' H.
    apply pool_assemble_inv in H
      as (utxos0 & msgs & tipv & n & min_fee & _ & _ & _ & _ & Hshort & -> & _).
    eexists. split; [reflexivity|].
    unfold register_short in Hshort. apply Z.ltb_ge in Hshort. lia.
  - intros f w' H.
    apply pool_assemble_inv in H
      as (utxos0 & msgs & tipv & n & min_fee & _ & _ & _ & _ & Hshort & -> & _).
    eexists. split; [reflexivity|].
    unfold update_short in Hshort. apply Z.ltb_ge in Hshort. lia.
  - intros f w' H.
    apply stake_assemble_inv in H
      as (utxos0 & msgs & tipv & n & _ & _ & _ & Hcost & -> & _).
    eexists. split; [reflexivity|]. lia.
Qed.

(** ** The limits of the numeric hypotheses

    Two of the properties below are stated for quantities of a size the
    ledger can hold.  Outside it the code behaves otherwise: a payment is
    printed through a float format, which rounds it from 2^53 on; and
    [sys.maxsize], the mark of the loop that never ran, is taken for that
    mark also when it is the required amount of a loop that did run. *)

Remark large_payment_is_rounded : Py.format_0f (2 ^ 53 + 1) = Some (2 ^ 53).
Proof. reflexivity. Qed.

Remark sentinel_hides_a_shortfall :
  finish "wd" "tx" "addr" [] true 1 1100 []
    {| lovelaces_out := Py.maxsize; utxo_total := 5; min_fee := 170000;
       tx_in_str := [("aa", "0")]%string; utxo_amt := Some (5 - Py.maxsize) |}
    Example.start
  = (Shelley (AccountEmpty "addr"), Example.start).
Proof. vm_compute. reflexivity. Qed.

(** X1.  What [get_utxos] does.  It issues the query and never fails with a
    classified error, whatever the two channels of the answer hold:
    when every row after the two header lines has at least three columns it
    returns the list with one UTXO for each row (filtered as asked), having
    printed a message for every [+] group it skipped; otherwise it ends in
    an [IndexError]. *)
Lemma get_utxos_outcome (node : Node) (addr : string)
    (filter : option string) (w : World) :
  let rows := rows_of (stdout (utxo_table node (now w) addr)) in
  (∀ e w', get_utxos node addr filter w ≠ (Shelley e, w'))
  ∧ ∃ msgs : list string,
      Forall (eq skip_message) msgs
      ∧ let w' := print_all msgs (issue (QueryUtxo addr) w) in
        if forallb wide rows
        then ∃ utxos : list Utxo,
               Forall2 (λ row u, ∃ m, parse_row row = Some (u, m)) rows utxos
               ∧ get_utxos node addr filter w
                 = (Ok (filter_utxos filter utxos), w')
        else get_utxos node addr filter w = (Python IndexError, w').
Proof.
  intros rows.
  destruct (parse_rows_result rows [] (issue (QueryUtxo addr) w))
    as (msgs & Hmsgs & Hres).
  assert (Hrun : get_utxos node addr filter w
                 = bind (parse_rows rows [])
                     (λ utxos, ret (filter_utxos filter utxos))
                     (issue (QueryUtxo addr) w)) by reflexivity.
  split.
  - intros e w' H. rewrite Hrun in H. unfold bind in H.
    destruct (forallb wide rows).
    + destruct Hres as (us & _ & Hres). rewrite Hres in H. discriminate.
    + rewrite Hres in H. discriminate.
  - exists msgs. split; [exact Hmsgs|]. cbv zeta. rewrite Hrun. unfold bind.
    destruct (forallb wide rows).
    + destruct Hres as (us & Hus & Hres). exists us. split; [exact Hus|].
      now rewrite Hres.
    + now rewrite Hres.
Qed.


(** ** Sums *)

(** The total the code computes for the payments is their sum: the test
    [if payments:] leaves 0 for [None] and for the empty list. *)
Lemma total_payments_sum payments :
  total_payments payments = foldr Z.add 0 (default [] payments).
Proof. destruct payments as [[|p ps]|]; reflexivity. Qed.

Lemma sum_Z_Permutation l1 l2 : l1 ≡ₚ l2 → sum_Z l1 = sum_Z l2.
Proof.
  unfold sum_Z. induction 1; simpl; lia.
Qed.

Lemma amounts_Permutation l1 l2 : l1 ≡ₚ l2 → amounts l1 ≡ₚ amounts l2.
Proof. intros H. unfold amounts. now apply fmap_Permutation. Qed.

Lemma forallb_Permutation {A} (f : A → bool) l1 l2 :
  l1 ≡ₚ l2 → forallb f l1 = forallb f l2.
Proof.
  induction 1; simpl; try congruence.
  destruct (f x), (f y); reflexivity.
Qed.

(** ** The claims *)



(** C2 fails on the code.  [build_raw_transaction] assembles body files
    that do not balance.  The required amount counts every payment of the
    list ([sum(payments)]), while the outputs are those of
    [zip(receive_addrs, payments)]: with one receiver and the payments 1
    and 2, an input of 8 and a fee of 1, the change is 8 - (1 + 3) = 4 and
    the body file has the outputs 4 and 1, so the input exceeds the outputs
    and the fee by the payment that was dropped.  And a payment is printed
    through a float format: the payment 2^53 + 1 is written as 2^53, while
    the change is computed from 2^53 + 1. *)
Theorem unbalanced_draft_is_assembled :
  (let node := Example.steady (Example.answer ["aa 0 8 lovelace"%string])
                 (Example.params 1) 1 in
   ∃ f w',
     build_raw_transaction node 1000 "wd" "tx" "addr" 1 ["to"%string]
       (Some [1; 2]) [] 0 true Example.start = (Ok f, w')
     ∧ tx_in (file_body f) = [("aa", "0")]%string
     ∧ tx_out (file_body f) = [("addr"%string, 4); ("to"%string, 1)]
     ∧ tx_fee (file_body f) = 1
     ∧ 8 ≠ (4 + 1) + 1 + 0
     ∧ ¬ balances [Example.utxo "aa" "0" "8"] f 0)
  ∧ (let node := Example.steady
                   (Example.answer ["aa 0 9007199254741002 lovelace"%string])
                   (Example.params 1) 1 in
     ∃ f w',
       build_raw_transaction node 1000 "wd" "tx" "addr" 1 ["to"%string]
         (Some [2 ^ 53 + 1]) [] 0 true Example.start = (Ok f, w')
       ∧ tx_in (file_body f) = [("aa", "0")]%string
       ∧ tx_out (file_body f) = [("addr"%string, 8); ("to"%string, 2 ^ 53)]
       ∧ tx_fee (file_body f) = 1
       ∧ 9007199254741002 ≠ (8 + 2 ^ 53) + 1 + 0
       ∧ ¬ balances [Example.utxo "aa" "0" "9007199254741002"] f 0).
Proof.
  split; cbv zeta.
  - eexists _, _. split; [vm_compute; reflexivity|].
    split; [reflexivity|]. split; [reflexivity|]. split; [reflexivity|].
    split; [discriminate|].
    intros (n & _ & Hin & Hsum). destruct n as [|[|n]];
      vm_compute in Hin, Hsum; discriminate.
  - eexists _, _. split; [vm_compute; reflexivity|].
    split; [reflexivity|]. split; [vm_compute; reflexivity|].
    split; [reflexivity|]. split; [vm_compute; discriminate|].
    intros (n & _ & Hin & Hsum). destruct n as [|[|n]];
      vm_compute in Hin, Hsum; discriminate.
Qed.

(** C3 fails on the code.  The key of the sort is the text of the amount
    column, so the order is the order of texts: of the amounts 9 and 10, "9"
    comes first.  The list the loop runs over is then [9; 10], which is not
    descending, and a payment that the UTXO of 10 alone would cover is
    built with both inputs. *)
Theorem sort_orders_amounts_as_text :
  let node := Example.steady
                (Example.answer ["aa 0 9 lovelace"; "bb 1 10 lovelace"]%string)
                (Example.params 1) 1 in
  let sorted := [Example.utxo "aa" "0" "9"; Example.utxo "bb" "1" "10"] in
  (bind (get_utxos node "addr" (Some "Lovelace"%string)) sort_utxos
     Example.start).1 = Ok sorted
  ∧ amounts sorted = [9; 10]
  ∧ ∃ f w', build_raw_transaction node 1000 "wd" "tx" "addr" 1 ["to"%string]
              (Some [7]) [] 0 true Example.start = (Ok f, w')
            ∧ tx_in (file_body f) = [("aa", "0"); ("bb", "1")]%string.
Proof.
  cbv zeta. split; [vm_compute; reflexivity|].
  split; [vm_compute; reflexivity|].
  eexists _, _. split; vm_compute; reflexivity.
Qed.

(** C4, as the code has it.  A body file assembled by
    [build_raw_transaction] has, before the payment outputs, either no
    change output, when the change is zero, or a change output of at least
    the minimum UTXO value read before the loop (a change equal to the
    minimum is accepted); the change is the total of the inputs less the
    fee, the deposit and the payments. *)
Theorem change_is_zero_or_not_below_minimum
    (node : Node) (ttl_buffer : Z) (working_dir tx_name payment_addr : string)
    (witness_count : Z) (receive_addrs : list string)
    (payments : option (list Z)) (certs : list string) (deposits : Z)
    (cleanup : bool) (w : World) (f : TxFile) (w' : World) :
  build_raw_transaction node ttl_buffer working_dir tx_name payment_addr
    witness_count receive_addrs payments certs deposits cleanup w
  = (Ok f, w') →
  ∃ pairs zero pymt_args utxos w1 (n : nat) change,
    zipped_payments receive_addrs payments w = (Ok pairs, w)
    ∧ payment_args pairs w = (Ok (zero, pymt_args), w)
    ∧ get_utxos node payment_addr (Some "Lovelace"%string) w = (Ok utxos, w1)
    ∧ tx_in (file_body f) = inputs_upto (Py.sort_desc lovelace_key utxos) n
    ∧ change = total_upto (Py.sort_desc lovelace_key utxos) n
               - (tx_fee (file_body f) + deposits + total_payments payments)
    ∧ (change = 0 ∧ tx_out (file_body f) = pymt_args
       ∨ 0 < change
         ∧ minUTxOValue (parameters node (now w + 2)%nat) ≤ change
         ∧ tx_out (file_body f) = (payment_addr, change) :: pymt_args).
Proof.
  intros H.
  apply build_raw_transaction_inv in H
    as (pairs & zero & pymt & utxos0 & msgs & tipv & v & w2
        & Hz & Hp & Hu & _ & Hloop & Hfin).
  apply select_loop_inv in Hloop as (n & _ & -> & -> & _).
  apply finish_inv in Hfin as (Hcover & change & Hamt & Hmin & -> & _).
  destruct n as [|j]; [discriminate|].
  simpl in Hamt, Hcover. injection Hamt as Hchange.
  eexists pairs, zero, pymt, utxos0, _, (S j), change.
  split; [exact Hz|]. split; [exact Hp|]. split; [exact Hu|].
  split; [reflexivity|]. split; [simpl; lia|].
  simpl. unfold change_output.
  destruct (Z.eqb_spec change 0) as [E|E]; [left; auto|].
  right. split; [lia|]. split; [|reflexivity].
  destruct Hmin; [contradiction | assumption].
Qed.

(** The invariant as the specification has it fails.  [register_stake_address] on an
    address with 2170001 lovelace, a fee of 170000 and a deposit of 2000000
    builds a body file with a change output of 1 lovelace, below the
    minimum of 1000000; and [build_raw_transaction] paying 5 lovelace from
    1170005 builds a change output of exactly the minimum, 1000000, which
    is not greater than it. *)
Lemma change_output_at_or_below_minimum :
  (∃ f w',
     stake_assemble
       (Example.steady (Example.answer ["aa 0 2170001 lovelace"%string])
          (Example.params 1000000) 170000)
       1000 "wd" "reg" "addr" "stake.cert" Example.start = (Ok f, w')
     ∧ tx_out (file_body f) = [("addr"%string, 1)]
     ∧ 0 < 1 ≤ minUTxOValue (Example.params 1000000))
  ∧ (∃ f w',
       build_raw_transaction
         (Example.steady (Example.answer ["aa 0 1170005 lovelace"%string])
            (Example.params 1000000) 170000)
         1000 "wd" "tx" "addr" 1 ["to"%string] (Some [5]) [] 0 true
         Example.start = (Ok f, w')
       ∧ tx_out (file_body f) = [("addr"%string, 1000000); ("to"%string, 5)]
       ∧ ¬ (1000000 > minUTxOValue (Example.params 1000000))).
Proof.
  split.
  - eexists _, _. split; [vm_compute; reflexivity|].
    split; [reflexivity | simpl; lia].
  - eexists _, _. split; [vm_compute; reflexivity|].
    split; [reflexivity | simpl; lia].
Qed.

(** The theorem at the scenario of the specification. *)
Lemma change_is_zero_or_not_below_minimum_witness :
  ∃ f w',
    build_raw_transaction Example.node 1000 "wd" "tx" "addr" 1
      ["to"%string] (Some [5]) [] 0 true Example.start = (Ok f, w')
    ∧ ∃ pairs zero pymt_args utxos w1 (n : nat) change,
        zipped_payments ["to"%string] (Some [5]) Example.start
        = (Ok pairs, Example.start)
        ∧ payment_args pairs Example.start
          = (Ok (zero, pymt_args), Example.start)
        ∧ get_utxos Example.node "addr" (Some "Lovelace"%string) Example.start
          = (Ok utxos, w1)
        ∧ tx_in (file_body f) = inputs_upto (Py.sort_desc lovelace_key utxos) n
        ∧ change = total_upto (Py.sort_desc lovelace_key utxos) n
                   - (tx_fee (file_body f) + 0 + total_payments (Some [5]))
        ∧ (change = 0 ∧ tx_out (file_body f) = pymt_args
           ∨ 0 < change
             ∧ minUTxOValue (parameters Example.node (now Example.start + 2)%nat)
               ≤ change
             ∧ tx_out (file_body f) = ("addr"%string, change) :: pymt_args).
Proof.
  eexists _, _. split; [vm_compute; reflexivity|].
  eapply (change_is_zero_or_not_below_minimum Example.node 1000 "wd" "tx"
            "addr" 1 ["to"%string] (Some [5]) [] 0 true Example.start).
  vm_compute; reflexivity.
Defined.

(** C6, as the code has it.  A call of [build_raw_transaction] that returns
    a body file with [n] inputs has queried the protocol parameters [1 + n]
    times: once before the loop and once in every turn, by the fee
    estimation.  Its commands are the three queries of the start, then for
    each turn the draft, the query for the parameters and the fee
    estimation, which is given the answer to the query of its own turn (the
    answer of the node at that moment); then the raw file, and the removal
    of the draft if asked.  The stored parameters are, at the end, the
    answer to the last of these queries. *)
Theorem parameters_fetched_in_every_turn
    (node : Node) (ttl_buffer : Z) (working_dir tx_name payment_addr : string)
    (witness_count : Z) (receive_addrs : list string)
    (payments : option (list Z)) (certs : list string) (deposits : Z)
    (cleanup : bool) (w : World) (f : TxFile) (w' : World) :
  build_raw_transaction node ttl_buffer working_dir tx_name payment_addr
    witness_count receive_addrs payments certs deposits cleanup w = (Ok f, w') →
  ∃ utxos0 pymt_args_zero msgs (j : nat),
    let n := S j in
    let utxos := Py.sort_desc lovelace_key utxos0 in
    let before := prelude node payment_addr msgs w in
    let mk := draft working_dir tx_name payment_addr certs pymt_args_zero in
    get_utxos node payment_addr (Some "Lovelace"%string) w
    = (Ok utxos0, print_all msgs (issue (QueryUtxo payment_addr) w))
    ∧ length (tx_in (file_body f)) = n
    ∧ commands w'
      = commands w
        ++ [QueryUtxo payment_addr; QueryTip; QueryProtocolParameters]
        ++ loop_commands node mk witness_count utxos before n
        ++ BuildRaw f
           :: (if cleanup then [Remove (tx_draft_file working_dir tx_name)]
               else [])
    ∧ fetches (commands w') = (fetches (commands w) + 1 + n)%nat
    ∧ protocol_parameters w'
      = Some (parameters node (now w + 3 + 3 * j + 1)%nat)
    ∧ tx_fee (file_body f)
      = min_fee_of node (parameters node (now w + 3 + 3 * j + 1)%nat)
          (file_body (mk (tx_in (file_body f)))) (Z.of_nat n) 1 witness_count 0.
Proof.
  intros H.
  apply build_raw_transaction_inv in H
    as (pairs & zero & pymt & utxos0 & msgs & tipv & v & w2
        & _ & _ & Hu & _ & Hloop & Hfin).
  apply select_loop_inv in Hloop as (n & Hn & -> & -> & _).
  apply finish_inv in Hfin as (_ & change & Hamt & _ & Hf & ->).
  destruct n as [|j]; [discriminate|].
  exists utxos0, zero, msgs, j. cbv zeta. split; [exact Hu|].
  set (utxos := Py.sort_desc lovelace_key utxos0) in *.
  set (before := prelude node payment_addr msgs w) in *.
  set (mk := draft working_dir tx_name payment_addr certs zero) in *.
  assert (Hnow : now before = (now w + 3)%nat).
  { unfold before, prelude, now. simpl. rewrite length_app. simpl. lia. }
  assert (Hcmds : commands (finished working_dir tx_name cleanup f
                              (world_after node mk witness_count utxos before (S j)))
                  = commands w
                    ++ [QueryUtxo payment_addr; QueryTip; QueryProtocolParameters]
                    ++ loop_commands node mk witness_count utxos before (S j)
                    ++ BuildRaw f
                       :: (if cleanup
                           then [Remove (tx_draft_file working_dir tx_name)]
                           else [])).
  { unfold finished. destruct cleanup; unfold issue, world_after, before, prelude;
      cbn [commands]; rewrite <- ?app_assoc; reflexivity. }
  split.
  { rewrite Hf. simpl. unfold inputs_upto, refs.
    rewrite length_map, length_take. lia. }
  split; [exact Hcmds|]. split.
  { rewrite Hcmds, !fetches_app, fetches_loop_commands.
    unfold fetches. destruct cleanup; simpl; lia. }
  split.
  { unfold finished. destruct cleanup; simpl;
      unfold snapshot_of_turn, fetch_time; rewrite Hnow; reflexivity. }
  rewrite Hf. simpl. unfold fee_of_turn, snapshot_of_turn, fetch_time.
  rewrite Hnow. do 2 f_equal. lia.
Qed.

(** The snapshot is not fetched once.  With a node whose parameters
    change with time, a payment that takes two UTXOs queries the parameters
    three times; the second fee estimation reads the answer to the third
    query, which is not the answer to the first; and that later answer is
    what the object holds in the end. *)
Lemma parameters_fetched_again :
  let node := Example.drifting ["aa 0 50 lovelace"; "bb 1 50 lovelace"]%string in
  ∃ f w',
    build_raw_transaction node 1000 "wd" "tx" "addr" 1 ["to"%string]
      (Some [60]) [] 0 true Example.start = (Ok f, w')
    ∧ fetches (commands w') = 3%nat
    ∧ commands w' !! 2%nat = Some QueryProtocolParameters
    ∧ commands w' !! 7%nat = Some QueryProtocolParameters
    ∧ (∃ d, commands w' !! 8%nat
            = Some (CalculateMinFee d 2 1 1 0 (parameters node 7)))
    ∧ parameters node 7 ≠ parameters node 2
    ∧ protocol_parameters w' = Some (parameters node 7).
Proof.
  cbv zeta. eexists _, _. split; [vm_compute; reflexivity|].
  split; [reflexivity|]. split; [reflexivity|]. split; [reflexivity|].
  split; [eexists; reflexivity|]. split; [discriminate | reflexivity].
Qed.

(** The theorem at the scenario of the specification. *)
Lemma parameters_fetched_in_every_turn_witness :
  ∃ f w',
    build_raw_transaction Example.node 1000 "wd" "tx" "addr" 1
      ["to"%string] (Some [5]) [] 0 true Example.start = (Ok f, w')
    ∧ ∃ utxos0 pymt_args_zero msgs (j : nat),
        let n := S j in
        let utxos := Py.sort_desc lovelace_key utxos0 in
        let before := prelude Example.node "addr" msgs Example.start in
        let mk := draft "wd" "tx" "addr" [] pymt_args_zero in
        get_utxos Example.node "addr" (Some "Lovelace"%string) Example.start
        = (Ok utxos0, print_all msgs (issue (QueryUtxo "addr") Example.start))
        ∧ length (tx_in (file_body f)) = n
        ∧ commands w'
          = commands Example.start
            ++ [QueryUtxo "addr"; QueryTip; QueryProtocolParameters]
            ++ loop_commands Example.node mk 1 utxos before n
            ++ BuildRaw f :: [Remove (tx_draft_file "wd" "tx")]
        ∧ fetches (commands w') = (fetches (commands Example.start) + 1 + n)%nat
        ∧ protocol_parameters w'
          = Some (parameters Example.node (now Example.start + 3 + 3 * j + 1)%nat)
        ∧ tx_fee (file_body f)
          = min_fee_of Example.node
              (parameters Example.node (now Example.start + 3 + 3 * j + 1)%nat)
              (file_body (mk (tx_in (file_body f)))) (Z.of_nat n) 1 1 0.
Proof.
  eexists _, _. split; [vm_compute; reflexivity|].
  eapply (parameters_fetched_in_every_turn Example.node 1000 "wd" "tx" "addr" 1
            ["to"%string] (Some [5]) [] 0 true Example.start).
  vm_compute; reflexivity.
Defined.

(** C7 fails on the code.  When the interface reports a failure (text
    on the error channel, nothing on the other), [get_utxos] does not fail:
    it returns an empty list, as if the address held nothing.  And a row
    with two columns ends the query in an [IndexError], which is not the
    classified error. *)
Theorem get_utxos_unclassified_error :
  (let failed := {| stdout := EmptyString;
                    stderr := "cardano-cli: Network.Socket.connect" |} in
   stderr failed ≠ EmptyString
   ∧ (get_utxos (Example.steady failed (Example.params 1000000) 170000)
        "addr" None Example.start).1 = Ok [])
  ∧ (get_utxos (Example.steady (Example.answer ["aa 0"%string])
                  (Example.params 1000000) 170000)
       "addr" None Example.start).1 = Python IndexError.
Proof.
  split; [split|]; [discriminate | vm_compute; reflexivity..].
Qed.



(** C9, as the code has it.  Called with [offline] set, [send_payment] and
    [register_stake_address] issue no submission, however they end; and
    when they return, they return nothing (Python's [None]), the last line
    printed being the message that names the signed file. *)
Theorem offline_build_does_not_submit
    (node : Node) (ttl_buffer : Z) (working_dir tx_name : string) (cleanup : bool)
    (amt : Z) (to_addr from_addr key_file : string)
    (addr stake_vkey_file stake_skey_file pmt_skey_file stake_cert_path : string)
    (w : World) :
  (∀ r w',
     send_payment node ttl_buffer working_dir tx_name amt to_addr from_addr
       key_file true cleanup w = (r, w') →
     (∃ new, commands w' = commands w ++ new ∧ no_submit new = true)
     ∧ ∀ x, r = Ok x →
         x = None
         ∧ last (printed w')
           = Some (saved_message (tx_name +:+ ".signed")%stdpp))
  ∧ (∀ r w',
       register_stake_address node ttl_buffer working_dir tx_name addr
         stake_vkey_file stake_skey_file pmt_skey_file stake_cert_path
         true cleanup w = (r, w') →
       (∃ new, commands w' = commands w ++ new ∧ no_submit new = true)
       ∧ ∀ x, r = Ok x →
           x = None
           ∧ last (printed w')
             = Some (saved_message
                       (path working_dir (tx_name +:+ ".signed")%stdpp))).
Proof.
  split.
  - intros r w' H. split.
    + revert w r w' H. change (silent (send_payment node ttl_buffer working_dir
        tx_name amt to_addr from_addr key_file true cleanup)).
      unfold send_payment. silence; try apply silent_offline.
    + intros x ->. unfold send_payment in H.
      apply bind_inv in H as (raw & w1 & Hraw & H).
      apply build_raw_transaction_stem in Hraw.
      apply bind_inv in H as (signed & w2 & Hsign & H).
      apply sign_transaction_inv in Hsign. rewrite Hraw in Hsign. subst signed.
      apply bind_inv in H as ([] & w3 & _ & H).
      apply offline_prints in H as [Hx Hlast]. now injection Hx as <-.
  - intros r w' H. split.
    + revert w r w' H. change (silent (register_stake_address node ttl_buffer
        working_dir tx_name addr stake_vkey_file stake_skey_file pmt_skey_file
        stake_cert_path true cleanup)).
      unfold register_stake_address. silence; try apply silent_offline.
    + intros x ->. unfold register_stake_address in H.
      rewrite bind_run_cli in H.
      apply bind_inv in H as (raw & w1 & _ & H).
      rewrite bind_run_cli in H.
      apply bind_inv in H as ([] & w3 & _ & H).
      apply offline_prints in H as [Hx Hlast]. now injection Hx as <-.
Qed.

(** The second half of the specification's sentence fails: an offline
    [send_payment] that succeeds has not submitted, but what it returns is
    [None], not the path of the signed file; the path is only printed. *)
Lemma offline_build_returns_nothing :
  let node := Example.steady (Example.answer ["aa 0 5000000 lovelace"%string])
                (Example.params 1000000) 170000 in
  ∃ w',
    send_payment node 1000 "wd" "tx" 2 "to" "from" "from.skey" true true
      Example.start = (Ok None, w')
    ∧ None ≠ Some "tx.signed"%string
    ∧ no_submit (commands w') = true
    ∧ printed w' = ["Signed transaction file saved to: tx.signed"%string].
Proof.
  cbv zeta. eexists. split; [vm_compute; reflexivity|].
  split; [discriminate|]. split; reflexivity.
Qed.

(** The theorem at the scenario of the specification. *)
Lemma offline_build_does_not_submit_witness :
  ∃ r w',
    send_payment Example.node 1000 "wd" "tx" 0 "to" "from" "from.skey" true
      true Example.start = (r, w')
    ∧ (∃ new, commands w' = commands Example.start ++ new
              ∧ no_submit new = true)
    ∧ ∀ x, r = Ok x →
        x = None
        ∧ last (printed w') = Some (saved_message ("tx" +:+ ".signed")%stdpp).
Proof.
  eexists _, _. split; [vm_compute; reflexivity|].
  apply (proj1 (offline_build_does_not_submit Example.node 1000 "wd" "tx" true
                  0 "to" "from" "from.skey" "addr" "stake.vkey" "stake.skey"
                  "pmt.skey" "stake.cert" Example.start)).
  vm_compute; reflexivity.
Defined.

(** C10.  A call of [build_multisignature_scripts] with [end_slot] given,
    when it writes a script at all (the number of required signatures is
    not refused), writes what the same call without [end_slot] writes,
    followed by one more entry: a "before" entry, the only one of the
    script, whose slot is [start_slot].  Every slot entry of the script
    carries [start_slot], and the script is the same whatever the value of
    [end_slot] is: that value is not written. *)
Theorem before_bound_carries_start_slot
    (folder script_name : string) (key_hashes : list string)
    (sig_type : string) (required start_slot : option Z) (end_slot : Z) :
  ¬ (Py.lower sig_type = "atleast"%string
     ∧ ∃ r, required = Some r ∧ (r < 1 ∨ Z.of_nat (length key_hashes) ≤ r)) →
  ∃ file script unbounded,
    build_multisignature_scripts folder script_name key_hashes sig_type
      required start_slot (Some end_slot) = inr (file, script)
    ∧ build_multisignature_scripts folder script_name key_hashes sig_type
        required start_slot None = inr (file, unbounded)
    ∧ scripts script
      = scripts unbounded ++ [SlotEntry start_slot "before"]
    ∧ script_type script = script_type unbounded
    ∧ script_required script = script_required unbounded
    ∧ (∀ slot, SlotEntry slot "before" ∉ scripts unbounded)
    ∧ (∀ slot type, SlotEntry slot type ∈ scripts script → slot = start_slot)
    ∧ ∀ other : Z,
        build_multisignature_scripts folder script_name key_hashes sig_type
          required start_slot (Some other) = inr (file, script).
Proof.
  intros Hvalid.
  set (after := match start_slot with
                | Some _ => [SlotEntry start_slot "after"]
                | None => []
                end).
  assert (Hno : ∀ slot,
            SlotEntry slot "before" ∉ map SigEntry key_hashes ++ after ++ []).
  { intros slot H. rewrite app_nil_r, elem_of_app in H. destruct H as [H|H].
    - apply list_elem_of_fmap in H as (h & Hh & _). discriminate.
    - unfold after in H. destruct start_slot.
      + apply list_elem_of_singleton in H. discriminate.
      + inversion H. }
  assert (Hslot : ∀ slot type,
            SlotEntry slot type
            ∈ (map SigEntry key_hashes ++ after ++ [])
              ++ [SlotEntry start_slot "before"] →
            slot = start_slot).
  { intros slot type H. rewrite app_nil_r, !elem_of_app in H.
    destruct H as [[H|H]|H].
    - apply list_elem_of_fmap in H as (h & Hh & _). discriminate.
    - unfold after in H. destruct start_slot.
      + apply list_elem_of_singleton in H. now injection H.
      + inversion H.
    - apply list_elem_of_singleton in H. now injection H. }
  assert (Happ : map SigEntry key_hashes ++ after
                 ++ [SlotEntry start_slot "before"]
                 = (map SigEntry key_hashes ++ after ++ [])
                   ++ [SlotEntry start_slot "before"])
    by (now rewrite app_nil_r, app_assoc).
  unfold build_multisignature_scripts. fold after.
  destruct (String.eqb_spec (Py.lower sig_type) "any") as [Hany|Hany].
  { eexists _, _, _. split; [reflexivity|]. split; [reflexivity|].
    cbn [scripts script_type script_required].
    split; [exact Happ|]. split; [reflexivity|]. split; [reflexivity|].
    split; [exact Hno|]. split; [rewrite Happ; exact Hslot|]. intros other. reflexivity. }
  destruct (String.eqb_spec (Py.lower sig_type) "atleast") as [Hat|Hat].
  - destruct required as [r|].
    + destruct (Z.ltb_spec r 1) as [H1|H1]; cbn [orb].
      { exfalso. apply Hvalid. split; [exact Hat|]. exists r. split; [reflexivity|lia]. }
      destruct (Z.leb_spec (Z.of_nat (length key_hashes)) r) as [H2|H2].
      { exfalso. apply Hvalid. split; [exact Hat|]. exists r. split; [reflexivity|lia]. }
      eexists _, _, _. split; [reflexivity|]. split; [reflexivity|].
      cbn [scripts script_type script_required].
      split; [exact Happ|]. split; [reflexivity|]. split; [reflexivity|].
    split; [exact Hno|]. split; [rewrite Happ; exact Hslot|]. intros other. reflexivity.
    + eexists _, _, _. split; [reflexivity|]. split; [reflexivity|].
      cbn [scripts script_type script_required].
      split; [exact Happ|]. split; [reflexivity|]. split; [reflexivity|].
    split; [exact Hno|]. split; [rewrite Happ; exact Hslot|]. intros other. reflexivity.
  - eexists _, _, _. split; [reflexivity|]. split; [reflexivity|].
    cbn [scripts script_type script_required].
    split; [exact Happ|]. split; [reflexivity|]. split; [reflexivity|].
    split; [exact Hno|]. split; [rewrite Happ; exact Hslot|]. intros other. reflexivity.
Qed.

(** The theorem at a script with three keys, two of them required, and
    the bounds 10 and 20. *)
Lemma before_bound_carries_start_slot_witness :
  ¬ (Py.lower "atLeast" = "atleast"%string
     ∧ ∃ r, Some 2 = Some r
            ∧ (r < 1 ∨ Z.of_nat (length ["h1"; "h2"; "h3"]%string) ≤ r))
  ∧ ∃ file script unbounded,
      build_multisignature_scripts "dir" "mint" ["h1"; "h2"; "h3"]%string
        "atLeast" (Some 2) (Some 10) (Some 20) = inr (file, script)
      ∧ build_multisignature_scripts "dir" "mint" ["h1"; "h2"; "h3"]%string
          "atLeast" (Some 2) (Some 10) None = inr (file, unbounded)
      ∧ scripts script
        = scripts unbounded ++ [SlotEntry (Some 10) "before"]
      ∧ script_type script = script_type unbounded
      ∧ script_required script = script_required unbounded
      ∧ (∀ slot, SlotEntry slot "before" ∉ scripts unbounded)
      ∧ (∀ slot type, SlotEntry slot type ∈ scripts script → slot = Some 10)
      ∧ ∀ other : Z,
          build_multisignature_scripts "dir" "mint" ["h1"; "h2"; "h3"]%string
            "atLeast" (Some 2) (Some 10) (Some other) = inr (file, script).
Proof.
  assert (Hvalid :
    ¬ (Py.lower "atLeast" = "atleast"%string
       ∧ ∃ r, Some 2 = Some r
              ∧ (r < 1 ∨ Z.of_nat (length ["h1"; "h2"; "h3"]%string) ≤ r))).
  { intros (_ & r & [= <-] & [H|H]);
      [vm_compute in H; discriminate | apply H; reflexivity]. }
  split; [exact Hvalid|].
  exact (before_bound_carries_start_slot "dir" "mint" ["h1"; "h2"; "h3"]%string
           "atLeast" (Some 2) (Some 10) 20 Hvalid).
Defined.

(** ** The accessors: [get_utxos] and [query_balance] *)

Lemma add_extra_keeps vals i (d : Utxo) k :
  is_Some (d !! k) → is_Some ((add_extra vals i d).1 !! k).
Proof.
  intros Hk. unfold add_extra.
  destruct (vals !! (i + 2)%nat) as [asset|]; [|done].
  destruct (vals !! (i + 1)%nat) as [amt|]; [|done].
  destruct (d !! asset) eqn:Ha; simpl;
    (destruct (decide (asset = k)) as [->|Hne];
     [rewrite lookup_insert_eq; eauto | rewrite lookup_insert_ne; auto]).
Qed.

Lemma add_extras_keeps vals extra : ∀ (d : Utxo) k,
  is_Some (d !! k) → is_Some ((add_extras vals extra d).1 !! k).
Proof.
  induction extra as [|i extra IH]; intros d k Hk; simpl; [done|].
  pose proof (add_extra_keeps vals i d k Hk) as H1.
  destruct (add_extra vals i d) as [d1 m1]. simpl in H1.
  specialize (IH d1 k H1).
  destruct (add_extras vals extra d1) as [d2 m2]. done.
Qed.

Lemma parse_row_keys row u m :
  parse_row row = Some (u, m) → three_columns u.
Proof.
  unfold parse_row.
  destruct (Py.split row !! 0%nat) as [h|]; [|done].
  destruct (Py.split row !! 1%nat) as [ix|]; [|done].
  destruct (Py.split row !! 2%nat) as [a|]; [|done].
  intros [= Heq].
  assert (u = (add_extras (Py.split row) (plus_columns (Py.split row) 0)
                 (<["Lovelace"%string := a]> (<["TxIx"%string := ix]> (<["TxHash"%string := h]> ∅)))).1) as ->
    by (rewrite Heq; done).
  repeat split; apply add_extras_keeps.
  - rewrite lookup_insert_ne by done. rewrite lookup_insert_ne by done.
    rewrite lookup_insert_eq. eauto.
  - rewrite lookup_insert_ne by done. rewrite lookup_insert_eq. eauto.
  - rewrite lookup_insert_eq. eauto.
Qed.

Lemma get_utxos_inv node addr filter w utxos w' :
  get_utxos node addr filter w = (Ok utxos, w') →
  ∃ us msgs,
    Forall2 (λ row u, ∃ m, parse_row row = Some (u, m))
      (rows_of (stdout (utxo_table node (now w) addr))) us
    ∧ Forall (eq skip_message) msgs
    ∧ utxos = filter_utxos filter us
    ∧ w' = print_all msgs (issue (QueryUtxo addr) w).
Proof.
  intros H.
  set (rows := rows_of (stdout (utxo_table node (now w) addr))).
  destruct (parse_rows_result rows [] (issue (QueryUtxo addr) w))
    as (msgs & Hmsgs & Hres).
  assert (Hrun : get_utxos node addr filter w
                 = bind (parse_rows rows [])
                     (λ utxos, ret (filter_utxos filter utxos))
                     (issue (QueryUtxo addr) w)) by reflexivity.
  rewrite Hrun in H. unfold bind in H.
  destruct (forallb wide rows).
  - destruct Hres as (us & Hus & Hres). rewrite Hres in H.
    injection H as <- <-. exists us, msgs. auto.
  - rewrite Hres in H. discriminate.
Qed.

Lemma three_columns_dom (u : Utxo) :
  three_columns u → size u = 3%nat → dom u = plain_columns.
Proof.
  intros (Hh & Hi & Hl) Hsz.
  symmetry. apply set_subseteq_size_eq.
  - unfold plain_columns. intros k Hk.
    apply elem_of_dom.
    set_unfold. destruct Hk as [[->| ->]| ->]; assumption.
  - rewrite size_dom, Hsz. vm_compute. lia.
Qed.

Lemma plain_columns_size (u : Utxo) : dom u = plain_columns → size u = 3%nat.
Proof. intros H. rewrite <- size_dom, H. reflexivity. Qed.

Lemma parsed_rows_columns rows us :
  Forall2 (λ row u, ∃ m, parse_row row = Some (u, m)) rows us →
  Forall three_columns us.
Proof.
  induction 1 as [|row u rows us [m Hm] _ IH]; constructor; [|exact IH].
  eapply parse_row_keys, Hm.
Qed.

Lemma List_filter_sublist {A} (P : A → bool) (l : list A) :
  sublist (List.filter P l) l.
Proof.
  induction l as [|x l IH]; simpl; [constructor|].
  destruct (P x); [now apply sublist_skip | now apply sublist_cons].
Qed.

Lemma elem_of_List_filter {A} (P : A → bool) (l : list A) x :
  x ∈ List.filter P l ↔ P x = true ∧ x ∈ l.
Proof.
  rewrite !list_elem_of_In, filter_In. tauto.
Qed.

Lemma filter_utxos_sublist filter us : sublist (filter_utxos filter us) us.
Proof.
  unfold filter_utxos. destruct filter as [f|]; [|reflexivity].
  destruct (String.eqb f "Lovelace"); apply List_filter_sublist.
Qed.

Lemma get_utxos_columns node addr filter w utxos w' :
  get_utxos node addr filter w = (Ok utxos, w') → Forall three_columns utxos.
Proof.
  intros H. apply get_utxos_inv in H as (us & msgs & Hus & _ & -> & _).
  apply parsed_rows_columns in Hus. rewrite Forall_forall in Hus.
  apply Forall_forall. intros u Hu. apply Hus.
  eapply elem_of_sublist; [exact Hu | apply filter_utxos_sublist].
Qed.

(** X2.  Every UTXO [get_utxos] returns has the columns [TxHash], [TxIx]
    and [Lovelace], whatever the filter: sorting its result by the amount
    column and printing its inputs never end in a [KeyError]. *)
Theorem get_utxos_rows_have_columns
    (node : Node) (addr : string) (filter : option string) (w : World)
    (utxos : list Utxo) (w' : World) :
  get_utxos node addr filter w = (Ok utxos, w') →
  Forall three_columns utxos
  ∧ (∀ w1, sort_utxos utxos w1 = (Ok (Py.sort_desc lovelace_key utxos), w1))
  ∧ Forall (λ u, ∀ w1, ∃ r, tx_in_of u w1 = (Ok r, w1)) utxos.
Proof.
  intros H. apply get_utxos_columns in H. split; [exact H|]. split.
  - intros w1. unfold sort_utxos.
    replace (forallb (has_key "Lovelace") utxos) with true; [reflexivity|].
    symmetry. apply forallb_forall. intros u Hu.
    apply list_elem_of_In in Hu.
    rewrite Forall_forall in H. destruct (H u Hu) as (_ & _ & Hl).
    unfold has_key. now apply bool_decide_eq_true.
  - eapply Forall_impl; [exact H|]. intros u ([h Hh] & [ix Hix] & _) w1.
    exists (h, ix). unfold tx_in_of. now rewrite Hh, Hix.
Qed.

Lemma get_utxos_rows_have_columns_witness :
  get_utxos Example.node "addr" (Some "Lovelace"%string) Example.start
  = (Ok Example.three, issue (QueryUtxo "addr") Example.start)
  ∧ Forall three_columns Example.three
  ∧ (∀ w1, sort_utxos Example.three w1
           = (Ok (Py.sort_desc lovelace_key Example.three), w1))
  ∧ Forall (λ u, ∀ w1, ∃ r, tx_in_of u w1 = (Ok r, w1)) Example.three.
Proof.
  split; [reflexivity|].
  apply (get_utxos_rows_have_columns Example.node "addr"
           (Some "Lovelace"%string) Example.start Example.three
           (issue (QueryUtxo "addr") Example.start)).
  reflexivity.
Defined.

Lemma elem_of_filter_utxos f us (u : Utxo) :
  Forall three_columns us →
  u ∈ filter_utxos (Some f) us
  ↔ u ∈ us ∧ is_Some (u !! f) ∧ (f = "Lovelace"%string → dom u = plain_columns).
Proof.
  intros Hus. unfold filter_utxos.
  destruct (String.eqb_spec f "Lovelace") as [->|Hne].
  - rewrite elem_of_List_filter. split.
    + intros [Hp Hu]. apply andb_true_iff in Hp as [Hk Hs].
      rewrite Forall_forall in Hus. specialize (Hus u Hu).
      apply Nat.eqb_eq in Hs.
      split; [exact Hu|]. split; [apply Hus|].
      intros _. now apply three_columns_dom.
    + intros (Hu & Hk & Hd). split; [|exact Hu].
      apply andb_true_iff. split.
      * unfold has_key. now apply bool_decide_eq_true.
      * apply Nat.eqb_eq, plain_columns_size. now apply Hd.
  - rewrite elem_of_List_filter. unfold has_key. rewrite bool_decide_eq_true.
    split; [intros [Hk Hu]|intros (Hu & Hk & _)]; repeat split; auto.
    intros ->. done.
Qed.

(** X3.  The filter of [get_utxos].  With a filter the query returns, in
    the order of the table, the UTXOs of the unfiltered answer that hold the
    asset named; with the filter [Lovelace], those among them that hold
    nothing but the three columns. *)
Theorem get_utxos_filter
    (node : Node) (addr f : string) (w : World) (all : list Utxo) (w1 : World) :
  get_utxos node addr None w = (Ok all, w1) →
  ∃ utxos,
    get_utxos node addr (Some f) w = (Ok utxos, w1)
    ∧ sublist utxos all
    ∧ ∀ u, u ∈ utxos
           ↔ u ∈ all ∧ is_Some (u !! f)
             ∧ (f = "Lovelace"%string → dom u = plain_columns).
Proof.
  intros H. pose proof (get_utxos_columns _ _ _ _ _ _ H) as Hcols.
  exists (filter_utxos (Some f) all). split; [|split].
  - set (rows := rows_of (stdout (utxo_table node (now w) addr))).
    assert (Hrun : ∀ filter, get_utxos node addr filter w
                   = bind (parse_rows rows [])
                       (λ utxos, ret (filter_utxos filter utxos))
                       (issue (QueryUtxo addr) w)) by reflexivity.
    rewrite Hrun in H. rewrite Hrun. unfold bind in *.
    destruct (parse_rows rows [] (issue (QueryUtxo addr) w)) as [[us|e|e] w2];
      try discriminate.
    unfold ret in *. simpl in H. now injection H as <- <-.
  - apply filter_utxos_sublist.
  - intros u. now apply elem_of_filter_utxos.
Qed.

Lemma get_utxos_filter_witness :
  let w1 := issue (QueryUtxo "addr") Example.start in
  get_utxos Example.node "addr" None Example.start = (Ok Example.three, w1)
  ∧ ∃ utxos,
      get_utxos Example.node "addr" (Some "Lovelace"%string) Example.start
      = (Ok utxos, w1)
      ∧ sublist utxos Example.three
      ∧ ∀ u, u ∈ utxos
             ↔ u ∈ Example.three ∧ is_Some (u !! "Lovelace"%string)
               ∧ ("Lovelace"%string = "Lovelace"%string
                  → dom u = plain_columns).
Proof.
  split; [reflexivity|].
  apply (get_utxos_filter Example.node "addr" "Lovelace" Example.start
           Example.three (issue (QueryUtxo "addr") Example.start)).
  reflexivity.
Defined.

Lemma add_lovelace_result utxos : ∀ total w,
  Forall three_columns utxos →
  add_lovelace utxos total w
  = (if forallb numeric utxos then Ok (total + sum_Z (amounts utxos))
     else Python ValueError, w).
Proof.
  induction utxos as [|u utxos IH]; intros total w Hcols; simpl.
  - unfold ret. do 2 f_equal. unfold sum_Z. simpl. lia.
  - inversion Hcols as [|? ? (_ & _ & [s Hs]) Hrest]; subst.
    assert (Hnum : numeric u = bool_decide (is_Some (Py.int s)))
      by (unfold numeric, amount_of; now rewrite Hs).
    assert (Hamt : default 0 (amount_of u) = default 0 (Py.int s))
      by (unfold amount_of; now rewrite Hs).
    rewrite Hnum, Hamt. unfold bind, lovelace_of. rewrite Hs.
    destruct (Py.int s) as [n|] eqn:Hn.
    + rewrite bool_decide_eq_true_2 by eauto. cbn [andb default].
      unfold ret at 1. rewrite IH by assumption.
      destruct (forallb numeric utxos); [|reflexivity].
      do 2 f_equal. unfold sum_Z, id. cbn [foldr]. lia.
    + rewrite bool_decide_eq_false_2; [reflexivity|].
      intros [? ?]. discriminate.
Qed.

(** X4.  [query_balance] adds up the amount column of every UTXO of the
    address, those that carry other assets included; an amount that is not
    a number ends it in a [ValueError].  It issues the one query of
    [get_utxos] and prints what that query prints. *)
Theorem query_balance_sums
    (node : Node) (addr : string) (w : World) (utxos : list Utxo) (w' : World) :
  get_utxos node addr None w = (Ok utxos, w') →
  query_balance node addr w
  = (if forallb numeric utxos then Ok (sum_Z (amounts utxos))
     else Python ValueError, w').
Proof.
  intros H. unfold query_balance.
  rewrite (bind_ok _ _ _ _ _ H).
  rewrite add_lovelace_result by (eapply get_utxos_columns, H).
  reflexivity.
Qed.

Lemma query_balance_sums_witness :
  let w' := issue (QueryUtxo "addr") Example.start in
  get_utxos Example.node "addr" None Example.start = (Ok Example.three, w')
  ∧ query_balance Example.node "addr" Example.start
    = (if forallb numeric Example.three
       then Ok (sum_Z (amounts Example.three))
       else Python ValueError, w').
Proof.
  split; [reflexivity|].
  apply (query_balance_sums Example.node "addr" Example.start Example.three
           (issue (QueryUtxo "addr") Example.start)).
  reflexivity.
Defined.

(** ** Which classified errors a method can end in *)

Lemma raises_only_weaken {A} (P Q : ShelleyError → Prop) (m : M A) :
  (∀ e, P e → Q e) → raises_only P m → raises_only Q m.
Proof. intros HPQ Hm w e w' H. eapply HPQ, Hm, H. Qed.

Lemma unclassified_any {A} (P : ShelleyError → Prop) (m : M A) :
  unclassified m → raises_only P m.
Proof. apply raises_only_weaken. intros e []. Qed.

Lemma raises_only_ret {A} P (a : A) : raises_only P (ret a).
Proof. intros w e w' H. discriminate. Qed.

Lemma raises_only_raise_py {A} P e : raises_only P (@raise_py A e).
Proof. intros w e' w' H. discriminate. Qed.

Lemma raises_only_raise {A} (P : ShelleyError → Prop) e :
  P e → raises_only P (@raise A e).
Proof. intros HP w e' w' H. injection H as <- _. exact HP. Qed.

Lemma raises_only_print P msg : raises_only P (print msg).
Proof. intros w e w' H. discriminate. Qed.

Lemma raises_only_set_protocol_parameters P p :
  raises_only P (set_protocol_parameters p).
Proof. intros w e w' H. discriminate. Qed.

Lemma raises_only_get_protocol_parameters P :
  raises_only P get_protocol_parameters.
Proof.
  intros w e w' H. unfold get_protocol_parameters in H.
  destruct (protocol_parameters w); discriminate.
Qed.

Lemma raises_only_run_cli {A} P c (answer : nat → A) :
  raises_only P (run_cli c answer).
Proof. intros w e w' H. discriminate. Qed.

Lemma raises_only_bind {A B} P (m : M A) (k : A → M B) :
  raises_only P m → (∀ a, raises_only P (k a)) → raises_only P (bind m k).
Proof.
  intros Hm Hk w e w' H. unfold bind in H.
  destruct (m w) as [[a|e1|e1] w1] eqn:E.
  - eapply Hk, H.
  - injection H as <- <-. eapply Hm, E.
  - discriminate.
Qed.

Create HintDb raises.

#[local] Hint Resolve raises_only_ret raises_only_raise_py raises_only_print
  raises_only_set_protocol_parameters raises_only_get_protocol_parameters
  : raises.

Ltac classify :=
  repeat first
    [ progress (auto with raises)
    | match goal with
      | |- raises_only _ (bind _ _) => apply raises_only_bind; [|intros ?]
      | |- raises_only _ (run_cli _ _) => apply raises_only_run_cli
      | |- raises_only _ (if ?c then _ else _) => destruct c eqn:?
      | |- raises_only _ (match ?x with _ => _ end) => destruct x eqn:?
      | |- raises_only _ (let '(_, _) := ?x in _) => destruct x
      end ].

Lemma raises_only_for_each {A} P (l : list A) (body : A → M unit) :
  (∀ x, raises_only P (body x)) → raises_only P (for_each l body).
Proof. intros H. induction l; simpl; classify. Qed.

Lemma raises_only_for_break {A V} P (l : list A) (body : nat → A → V → M V)
    stop :
  (∀ i x v, raises_only P (body i x v)) →
  ∀ i v, raises_only P (for_break l i body stop v).
Proof. intros H. induction l; intros i v; simpl; classify. Qed.

Lemma raises_only_lovelace_of P u : raises_only P (lovelace_of u).
Proof. unfold lovelace_of. classify. Qed.

Lemma raises_only_tx_in_of P u : raises_only P (tx_in_of u).
Proof. unfold tx_in_of. classify. Qed.

Lemma raises_only_check_ada P n : raises_only P (check_ada n).
Proof. unfold check_ada. classify. Qed.

Lemma raises_only_sort_utxos P utxos : raises_only P (sort_utxos utxos).
Proof. unfold sort_utxos. classify. Qed.

Lemma raises_only_cleanup_file P fpath : raises_only P (cleanup_file fpath).
Proof. unfold cleanup_file. classify. Qed.

#[local] Hint Resolve raises_only_lovelace_of raises_only_tx_in_of
  raises_only_check_ada raises_only_sort_utxos raises_only_cleanup_file
  raises_only_for_each raises_only_for_break : raises.

Lemma raises_only_parse_rows P rows : ∀ acc, raises_only P (parse_rows rows acc).
Proof. induction rows; intros acc; simpl; classify. Qed.

#[local] Hint Resolve raises_only_parse_rows : raises.

Lemma raises_only_get_utxos P node addr filter :
  raises_only P (get_utxos node addr filter).
Proof. unfold get_utxos. classify. Qed.

Lemma raises_only_load_protocol_parameters P node :
  raises_only P (load_protocol_parameters node).
Proof. unfold load_protocol_parameters. classify. Qed.

#[local] Hint Resolve raises_only_get_utxos
  raises_only_load_protocol_parameters : raises.

Lemma raises_only_calc_min_fee P node d a b c e :
  raises_only P (calc_min_fee node d a b c e).
Proof. unfold calc_min_fee. classify. Qed.

Lemma raises_only_payment_args P pairs : raises_only P (payment_args pairs).
Proof. induction pairs as [|[a amt] rest IH]; simpl; classify. Qed.

Lemma raises_only_zipped_payments P receive payments :
  raises_only P (zipped_payments receive payments).
Proof. unfold zipped_payments. classify. Qed.

#[local] Hint Resolve raises_only_calc_min_fee raises_only_payment_args
  raises_only_zipped_payments : raises.

Lemma raises_only_get_tip (P : ShelleyError → Prop) node :
  (∀ s, P (QueryTipFailed s)) → raises_only P (get_tip node).
Proof.
  intros HP. unfold get_tip. classify. now apply raises_only_raise.
Qed.

Lemma raises_only_select_body P node working_dir tx_name payment_addr
    witness_count payments certs deposits zero i x v :
  raises_only P (select_body node working_dir tx_name payment_addr
                   witness_count payments certs deposits zero i x v).
Proof. unfold select_body. classify. Qed.

Lemma raises_only_finish working_dir tx_name addr certs cleanup min_utxo ttl
    pymt v :
  change_bound v →
  raises_only (build_failure addr)
    (finish working_dir tx_name addr certs cleanup min_utxo ttl pymt v).
Proof.
  intros Hv w e w' H. unfold finish, bind, check_ada in H.
  destruct (Py.ada_overflows (lovelaces_out v)); [discriminate|].
  destruct (Py.ada_overflows (utxo_total v)); [discriminate|].
  cbn [ret] in H.
  destruct (Z.ltb_spec (utxo_total v) (lovelaces_out v)) as [Hlt|Hge].
  - destruct (lovelaces_out v =? Py.maxsize); injection H as <- _; simpl; auto.
  - cbn [ret] in H. destruct (utxo_amt v) as [c|] eqn:Hc; [|discriminate].
    specialize (Hv c Hc).
    destruct (Z.eqb_spec c 0) as [E0|E0];
      [destruct cleanup; simpl in H; discriminate|].
    destruct (Z.ltb_spec c min_utxo) as [Hm|Hm].
    + destruct (Py.ada_overflows min_utxo); [discriminate|].
      injection H as <- _. simpl. split; [reflexivity|]. lia.
    + destruct cleanup; simpl in H; discriminate.
Qed.

Lemma bind_shelley {A B} (m : M A) (k : A → M B) w e w' :
  bind m k w = (Shelley e, w') →
  m w = (Shelley e, w') ∨ ∃ a w1, m w = (Ok a, w1) ∧ k a w1 = (Shelley e, w').
Proof.
  unfold bind. destruct (m w) as [[a|e1|e1] w1]; intros H.
  - right. eauto.
  - left. now injection H as <- <-.
  - discriminate.
Qed.

Lemma for_break_invariant {A V} (I : V → Prop) (l : list A)
    (body : nat → A → V → M V) stop :
  (∀ i x v w v' w', body i x v w = (Ok v', w') → I v') →
  ∀ i v w r w', I v → for_break l i body stop v w = (Ok r, w') → I r.
Proof.
  intros Hbody. induction l as [|x l IH]; intros i v w r w' Hv H; simpl in H.
  - injection H as <- _. exact Hv.
  - apply bind_inv in H as (v1 & w1 & Hb & H).
    apply Hbody in Hb.
    destruct (stop v1).
    + injection H as <- _. exact Hb.
    + eapply IH; eauto.
Qed.

Lemma select_body_change_bound node working_dir tx_name payment_addr
    witness_count payments certs deposits zero i x v w v' w' :
  select_body node working_dir tx_name payment_addr witness_count payments
    certs deposits zero i x v w = (Ok v', w') →
  change_bound v'.
Proof.
  unfold select_body. intros H.
  apply bind_inv in H as (amount & w1 & _ & H).
  apply bind_inv in H as (tx_in & w2 & _ & H).
  apply bind_inv in H as ([] & w3 & _ & H).
  apply bind_inv in H as (fee & w4 & _ & H).
  injection H as <- _. intros c Hc. simpl in *. now injection Hc as <-.
Qed.

Lemma raises_only_build_raw_transaction node ttl_buffer working_dir tx_name
    payment_addr witness_count receive_addrs payments certs deposits cleanup :
  raises_only (build_failure payment_addr)
    (build_raw_transaction node ttl_buffer working_dir tx_name payment_addr
       witness_count receive_addrs payments certs deposits cleanup).
Proof.
  unfold build_raw_transaction. intros w e w' H.
  apply bind_shelley in H as [H|(pairs & w1 & _ & H)];
    [exfalso; eapply (raises_only_zipped_payments (λ _, False)), H|].
  apply bind_shelley in H as [H|([zero pymt] & w2 & _ & H)];
    [exfalso; eapply (raises_only_payment_args (λ _, False)), H|].
  apply bind_shelley in H as [H|(utxos0 & w3 & _ & H)];
    [exfalso; eapply (raises_only_get_utxos (λ _, False)), H|].
  apply bind_shelley in H as [H|(utxos & w4 & _ & H)];
    [exfalso; eapply (raises_only_sort_utxos (λ _, False)), H|].
  apply bind_shelley in H as [H|(tipv & w5 & _ & H)].
  { eapply (raises_only_get_tip (build_failure payment_addr)), H. now intros s. }
  apply bind_shelley in H as [H|(p & w6 & _ & H)];
    [exfalso; eapply (raises_only_load_protocol_parameters (λ _, False)), H|].
  apply bind_shelley in H as [H|(pp & w7 & _ & H)];
    [exfalso; eapply (raises_only_get_protocol_parameters (λ _, False)), H|].
  apply bind_shelley in H as [H|(v & w8 & Hloop & H)].
  { exfalso. eapply (raises_only_for_break (λ _, False)), H.
    intros i x v0. apply raises_only_select_body. }
  eapply raises_only_finish, H.
  eapply for_break_invariant, Hloop.
  - intros i x v0 w0 v' w0'. apply select_body_change_bound.
  - intros c Hc. discriminate.
Qed.

(** X5.  The classified failures of [build_raw_transaction].  When it ends
    in a [ShelleyError], the error is one of four: the tip could not be
    read; the address is empty; the funds are insufficient, the error then
    naming an available amount below the cost; or the change is below the
    minimum, the error then naming a cost and an available amount whose
    difference is positive and below the minimum named.  It is never the
    error of a signature or of a submission. *)
Theorem build_raw_transaction_failures
    (node : Node) (ttl_buffer : Z) (working_dir tx_name payment_addr : string)
    (witness_count : Z) (receive_addrs : list string)
    (payments : option (list Z)) (certs : list string) (deposits : Z)
    (cleanup : bool) (w : World) (e : ShelleyError) (w' : World) :
  build_raw_transaction node ttl_buffer working_dir tx_name payment_addr
    witness_count receive_addrs payments certs deposits cleanup w
  = (Shelley e, w') →
  build_failure payment_addr e.
Proof. apply raises_only_build_raw_transaction. Qed.

Lemma build_raw_transaction_failures_witness :
  let node := Example.steady (Example.answer ["aa 0 7 lovelace"%string])
                (Example.params 1000000) 1 in
  ∃ w',
    build_raw_transaction node 1000 "wd" "tx" "addr" 1 ["to"%string] (Some [5])
      [] 0 true Example.start
    = (Shelley (ChangeBelowMinimum "addr" 6 7 1000000), w')
    ∧ build_failure "addr" (ChangeBelowMinimum "addr" 6 7 1000000).
Proof.
  cbv zeta. eexists. split; [vm_compute; reflexivity|].
  eapply (build_raw_transaction_failures
            (Example.steady (Example.answer ["aa 0 7 lovelace"%string])
               (Example.params 1000000) 1)
            1000 "wd" "tx" "addr" 1 ["to"%string] (Some [5]) [] 0 true
            Example.start).
  vm_compute; reflexivity.
Defined.

Lemma raises_only_sign_transaction node tx_file skeys :
  raises_only is_sign_failure (sign_transaction node tx_file skeys).
Proof.
  unfold sign_transaction. classify. now apply raises_only_raise.
Qed.

Lemma raises_only_submit_transaction node signed cleanup :
  raises_only is_submit_failure (submit_transaction node signed cleanup).
Proof.
  unfold submit_transaction. classify. now apply raises_only_raise.
Qed.

Lemma raises_only_submit_or_print node signed offline cleanup :
  raises_only (λ e, offline = false ∧ is_submit_failure e)
    (submit_or_print node signed offline cleanup).
Proof.
  unfold submit_or_print. destruct offline; cbn [negb]; classify.
  eapply raises_only_weaken; [|apply raises_only_submit_transaction].
  now intros e He.
Qed.

Lemma raises_only_stake_assemble node ttl_buffer working_dir tx_name addr cert :
  raises_only (funding_failure addr)
    (stake_assemble node ttl_buffer working_dir tx_name addr cert).
Proof.
  unfold stake_assemble. classify.
  - apply raises_only_get_tip. now intros s.
  - now apply raises_only_raise.
  - apply raises_only_for_break. intros i x v. unfold stake_body. classify.
  - apply raises_only_raise. simpl. split; [reflexivity|].
    now apply Z.ltb_lt.
Qed.

Lemma raises_only_pool_assemble node ttl_buffer working_dir tx_name addr
    owners cert del_certs pool_deposit stop short :
  (∀ total fee, short total fee = true → total < fee + pool_deposit) →
  raises_only (short_of_funds addr)
    (pool_assemble node ttl_buffer working_dir tx_name addr owners cert
       del_certs pool_deposit stop short).
Proof.
  intros Hshort. unfold pool_assemble. classify.
  - apply raises_only_get_tip. now intros s.
  - apply raises_only_for_break. intros i x v. unfold pool_body. classify.
  - apply raises_only_raise. simpl. split; [reflexivity|].
    now apply Hshort.
Qed.

(** X6.  The classified failures of [send_payment]: those of the assembly
    of the payment, the failure of the signature, and, unless the call is
    offline, the failure of the submission. *)
Theorem send_payment_failures
    (node : Node) (ttl_buffer : Z) (working_dir tx_name : string) (amt : Z)
    (to_addr from_addr key_file : string) (offline cleanup : bool)
    (w : World) (e : ShelleyError) (w' : World) :
  send_payment node ttl_buffer working_dir tx_name amt to_addr from_addr
    key_file offline cleanup w = (Shelley e, w') →
  build_failure from_addr e ∨ is_sign_failure e
  ∨ (offline = false ∧ is_submit_failure e).
Proof.
  revert w e w'.
  change (raises_only
            (λ e, build_failure from_addr e ∨ is_sign_failure e
                  ∨ (offline = false ∧ is_submit_failure e))
            (send_payment node ttl_buffer working_dir tx_name amt to_addr
               from_addr key_file offline cleanup)).
  unfold send_payment.
  classify;
    (eapply raises_only_weaken;
     [|first [ apply raises_only_build_raw_transaction
             | apply raises_only_sign_transaction
             | apply raises_only_submit_or_print ]]; auto).
Qed.

Lemma send_payment_failures_witness :
  let node := Failing.sign "no such key"
                (Example.steady (Example.answer ["aa 0 5000000 lovelace"%string])
                   (Example.params 1000000) 170000) in
  ∃ w',
    send_payment node 1000 "wd" "tx" 2 "to" "from" "from.skey" false true
      Example.start = (Shelley (UnableToSign "no such key"), w')
    ∧ (build_failure "from" (UnableToSign "no such key")
       ∨ is_sign_failure (UnableToSign "no such key")
       ∨ (false = false ∧ is_submit_failure (UnableToSign "no such key"))).
Proof.
  cbv zeta. eexists. split; [vm_compute; reflexivity|].
  eapply (send_payment_failures
            (Failing.sign "no such key"
               (Example.steady (Example.answer ["aa 0 5000000 lovelace"%string])
                  (Example.params 1000000) 170000))
            1000 "wd" "tx" 2 "to" "from" "from.skey" false true Example.start).
  vm_compute; reflexivity.
Defined.

(** X7.  The classified failures of [register_stake_address]: the tip is
    not known, the address is empty, or it holds less than the fee and the
    deposit; and, unless the call is offline, the failure of the
    submission.  The method does not read the error channel of the
    signature: it never ends in the error of a signature, and never in the
    error of a change below the minimum. *)
Theorem register_stake_address_failures
    (node : Node) (ttl_buffer : Z) (working_dir tx_name addr : string)
    (stake_vkey_file stake_skey_file pmt_skey_file stake_cert_path : string)
    (offline cleanup : bool) (w : World) (e : ShelleyError) (w' : World) :
  register_stake_address node ttl_buffer working_dir tx_name addr
    stake_vkey_file stake_skey_file pmt_skey_file stake_cert_path offline
    cleanup w = (Shelley e, w') →
  funding_failure addr e ∨ (offline = false ∧ is_submit_failure e).
Proof.
  revert w e w'.
  change (raises_only
            (λ e, funding_failure addr e
                  ∨ (offline = false ∧ is_submit_failure e))
            (register_stake_address node ttl_buffer working_dir tx_name addr
               stake_vkey_file stake_skey_file pmt_skey_file stake_cert_path
               offline cleanup)).
  unfold register_stake_address.
  classify;
    (eapply raises_only_weaken;
     [|first [ apply raises_only_stake_assemble
             | apply raises_only_submit_or_print ]]; auto).
Qed.

Lemma register_stake_address_failures_witness :
  let node := Failing.submit "rejected"
                (Failing.sign "no such key"
                   (Example.steady
                      (Example.answer ["aa 0 5000000 lovelace"%string])
                      (Example.params 1000000) 170000)) in
  ∃ w',
    register_stake_address node 1000 "wd" "tx" "addr" "stake.vkey"
      "stake.skey" "pmt.skey" "stake.cert" false true Example.start
    = (Shelley (UnableToSubmit "rejected"), w')
    ∧ (funding_failure "addr" (UnableToSubmit "rejected")
       ∨ (false = false ∧ is_submit_failure (UnableToSubmit "rejected"))).
Proof.
  cbv zeta. eexists. split; [vm_compute; reflexivity|].
  eapply (register_stake_address_failures
            (Failing.submit "rejected"
               (Failing.sign "no such key"
                  (Example.steady
                     (Example.answer ["aa 0 5000000 lovelace"%string])
                     (Example.params 1000000) 170000)))
            1000 "wd" "tx" "addr" "stake.vkey" "stake.skey" "pmt.skey"
            "stake.cert" false true Example.start).
  vm_compute; reflexivity.
Defined.

Lemma raises_only_pool_transaction node ttl_buffer working_dir tx_name addr
    payment_skey cold_skey owners cert del_certs offline cleanup pool_deposit
    stop short :
  (∀ total fee, short total fee = true → total < fee + pool_deposit) →
  raises_only (λ e, short_of_funds addr e
                    ∨ (offline = false ∧ is_submit_failure e))
    (pool_transaction node ttl_buffer working_dir tx_name addr payment_skey
       cold_skey owners cert del_certs offline cleanup pool_deposit stop
       short).
Proof.
  intros Hshort. unfold pool_transaction.
  classify;
    (eapply raises_only_weaken;
     [|first [ now apply raises_only_pool_assemble
             | apply raises_only_submit_or_print ]]; auto).
Qed.

(** X8.  The classified failures of [register_stake_pool] and of
    [update_stake_pool_registration], from the point where the certificates
    exist: the tip is not known, or the address holds less than the cost
    named by the error; and, unless the call is offline, the failure of the
    submission.  Neither reports an empty address, a change below the
    minimum, or a failed signature. *)
Theorem pool_registration_failures
    (node : Node) (ttl_buffer : Z) (working_dir tx_name : string)
    (payment_addr payment_skey pool_cold_skey : string)
    (owner_stake_skeys : list string) (pool_cert_path : string)
    (del_certs : list string) (offline cleanup : bool) (pool_deposit : Z)
    (w : World) (e : ShelleyError) (w' : World) :
  register_stake_pool node ttl_buffer working_dir tx_name payment_addr
    payment_skey pool_cold_skey owner_stake_skeys pool_cert_path del_certs
    offline cleanup pool_deposit w = (Shelley e, w')
  ∨ update_stake_pool_registration node ttl_buffer working_dir tx_name
      payment_addr payment_skey pool_cold_skey owner_stake_skeys
      pool_cert_path del_certs offline cleanup w = (Shelley e, w') →
  short_of_funds payment_addr e ∨ (offline = false ∧ is_submit_failure e).
Proof.
  intros [H|H]; revert H; apply raises_only_pool_transaction.
  - intros total fee Hs. unfold register_short in Hs. now apply Z.ltb_lt.
  - intros total fee Hs. unfold update_short in Hs. apply Z.ltb_lt in Hs. lia.
Qed.

Lemma pool_registration_failures_witness :
  let node := Failing.sign "no such key"
                (Example.steady
                   (Example.answer ["aa 0 5000000 lovelace"%string])
                   (Example.params 1000000) 170000) in
  ∃ w',
    register_stake_pool node 1000 "wd" "tx" "addr" "pmt.skey" "cold.skey"
      ["owner.skey"%string] "pool.cert" ["del.cert"%string] false true
      500000000 Example.start
    = (Shelley (InsufficientFunds "addr" 500170000 5000000), w')
    ∧ (short_of_funds "addr" (InsufficientFunds "addr" 500170000 5000000)
       ∨ (false = false
          ∧ is_submit_failure (InsufficientFunds "addr" 500170000 5000000))).
Proof.
  cbv zeta. eexists. split; [vm_compute; reflexivity|].
  eapply (pool_registration_failures
            (Failing.sign "no such key"
               (Example.steady
                  (Example.answer ["aa 0 5000000 lovelace"%string])
                  (Example.params 1000000) 170000))
            1000 "wd" "tx" "addr" "pmt.skey" "cold.skey"
            ["owner.skey"%string] "pool.cert" ["del.cert"%string] false true
            500000000 Example.start).
  left. vm_compute; reflexivity.
Defined.

(** ** [empty_account], and the last steps of a payment *)

Lemma add_tx_in_result utxos : ∀ acc w,
  Forall three_columns utxos →
  add_tx_in utxos acc w = (Ok (acc ++ refs utxos), w).
Proof.
  induction utxos as [|u utxos IH]; intros acc w Hcols; simpl.
  - unfold ret. now rewrite app_nil_r.
  - inversion Hcols as [|? ? ([h Hh] & [ix Hix] & _) Hrest]; subst.
    unfold bind, tx_in_of, ref_of. rewrite Hh, Hix. cbn [ret default].
    rewrite IH by assumption. now rewrite <- app_assoc.
Qed.

Lemma calc_min_fee_eq node d a b c e w :
  calc_min_fee node d a b c e w
  = (Ok (min_fee_of node (parameters node (now w)) (file_body d) a b c e),
     estimated node d a b c e w).
Proof. reflexivity. Qed.

Lemma query_balance_inv node addr w bal w' :
  query_balance node addr w = (Ok bal, w') →
  ∃ utxos, get_utxos node addr None w = (Ok utxos, w')
           ∧ forallb numeric utxos = true
           ∧ bal = sum_Z (amounts utxos).
Proof.
  unfold query_balance. intros H.
  apply bind_inv in H as (utxos & w1 & Hu & H).
  rewrite add_lovelace_result in H by (eapply get_utxos_columns, Hu).
  exists utxos. destruct (forallb numeric utxos); [|discriminate].
  injection H as <- <-. auto.
Qed.

Section SweepSteps.
Variable node : Node.
Variable ttl_buffer : Z.
Variable working_dir tx_name to_addr from_addr : string.

Lemma empty_account_assemble_inv w f w' :
  empty_account_assemble node ttl_buffer working_dir tx_name to_addr
    from_addr w = (Ok f, w') →
  ∃ counted utxos w1 w2 tipv amount,
    get_utxos node from_addr None w = (Ok counted, w1)
    ∧ forallb numeric counted = true
    ∧ get_utxos node from_addr None w1 = (Ok utxos, w2)
    ∧ let bal := sum_Z (amounts counted) in
      let draft := sweep_tx working_dir tx_name to_addr ".draft" (refs utxos)
                     0 0 0 in
      let p := parameters node (S (now w2)) in
      let fee := min_fee_of node p (file_body draft)
                   (Z.of_nat (length utxos)) 2 1 0 in
      fee ≤ bal
      ∧ tip node (now w2 + 3)%nat = inl tipv
      ∧ Py.format_0f (bal - fee) = Some amount
      ∧ f = sweep_tx working_dir tx_name to_addr ".raw" (refs utxos) amount
              (tipv + ttl_buffer) fee
      ∧ protocol_parameters w' = Some p
      ∧ printed w' = printed w2
      ∧ commands w'
        = commands w2
          ++ [ BuildRaw draft; QueryProtocolParameters;
               CalculateMinFee draft (Z.of_nat (length utxos)) 2 1 0 p;
               QueryTip; BuildRaw f ].
Proof.
  unfold empty_account_assemble. intros H.
  apply bind_inv in H as (bal & w1 & Hbal & H).
  apply query_balance_inv in Hbal as (counted & Hc & Hnum & ->).
  apply bind_inv in H as (utxos & w2 & Hu & H).
  apply bind_inv in H as (ins & w3 & Hins & H).
  rewrite add_tx_in_result in Hins by (eapply get_utxos_columns, Hu).
  injection Hins as <- <-. cbn [app] in H.
  rewrite bind_run_cli in H.
  apply bind_inv in H as (fee & w4 & Hfee & H).
  rewrite calc_min_fee_eq in Hfee. injection Hfee as <- <-.
  rewrite now_issue in H.
  apply bind_inv in H as ([] & w5 & Hchk & H).
  match type of Hchk with
  | (if ?c then _ else _) _ = _ => destruct c eqn:Hlt
  end.
  { exfalso. unfold bind, check_ada in Hchk.
    repeat match type of Hchk with
           | context [if ?c then _ else _] => destruct c; try discriminate
           | context [match ?c with _ => _ end] => destruct c; try discriminate
           end. }
  injection Hchk as <-. apply Z.ltb_ge in Hlt.
  apply bind_inv in H as (tipv & w6 & Htip & H).
  apply get_tip_inv in Htip as [Htip ->].
  apply bind_inv in H as (amount & w7 & Hamt & H).
  destruct (Py.format_0f _) as [amt|] eqn:Hfmt; [|discriminate].
  injection Hamt as <- <-.
  rewrite bind_run_cli in H. injection H as <- <-.
  exists counted, utxos, w1, w2, tipv, amt. cbv zeta.
  assert (Hnow : ∀ c, now (issue c w2) = S (now w2)) by (intros; apply now_issue).
  repeat split; try assumption.
  - unfold estimated, fetched, issue, now in Htip. simpl in Htip.
    rewrite !length_app in Htip. simpl in Htip.
    replace (now w2 + 3)%nat with (length (commands w2) + 1 + 1 + 1)%nat
      by (unfold now; lia).
    exact Htip.
  - simpl. now rewrite Hnow.
  - simpl. rewrite Hnow, <- !app_assoc. reflexivity.
Qed.

End SweepSteps.

Lemma parse_rows_world rows : ∀ acc wa wb,
  (parse_rows rows acc wa).1 = (parse_rows rows acc wb).1.
Proof.
  induction rows as [|row rows IH]; intros acc wa wb; simpl; [reflexivity|].
  destruct (parse_row row) as [[u msgs]|]; [|reflexivity].
  rewrite !(bind_ok _ _ _ _ _ (for_each_print msgs _)). apply IH.
Qed.

Lemma get_utxos_same_table node addr filter wa wb :
  stdout (utxo_table node (now wa) addr) = stdout (utxo_table node (now wb) addr) →
  (get_utxos node addr filter wa).1 = (get_utxos node addr filter wb).1.
Proof.
  intros Hsame. unfold get_utxos. rewrite !bind_run_cli, Hsame.
  set (rows := drop 2 _).
  pose proof (parse_rows_world rows [] (issue (QueryUtxo addr) wa)
                (issue (QueryUtxo addr) wb)) as H.
  unfold bind.
  destruct (parse_rows rows [] (issue (QueryUtxo addr) wa)) as [ra wa'].
  destruct (parse_rows rows [] (issue (QueryUtxo addr) wb)) as [rb wb'].
  simpl in H. subst rb. now destruct ra.
Qed.

Lemma numeric_columns_ok utxos :
  Forall three_columns utxos → forallb numeric utxos = true →
  Forall (λ u, utxo_ok u = true) utxos.
Proof.
  intros Hcols Hnum. rewrite forallb_forall in Hnum.
  rewrite Forall_forall in *. intros u Hu.
  destruct (Hcols u Hu) as ([h Hh] & [ix Hix] & _).
  unfold utxo_ok. apply andb_true_iff. split.
  - apply Hnum. now apply list_elem_of_In.
  - apply bool_decide_eq_true. unfold ref_of. rewrite Hh, Hix. eauto.
Qed.

(** X9.  [empty_account] reads the UTXOs of the address twice: the balance
    is the sum of the first answer, the inputs are those of the second.
    When the node gives the same table both times, the raw file it
    assembles spends every UTXO of the address, in the order of the table
    (those that carry other assets included), pays the fee, which is at
    most the balance, and sends all the rest to the receiver in one output
    (printed exactly, the amount being below 2^53). *)
Theorem empty_account_sends_the_balance
    (node : Node) (ttl_buffer : Z)
    (working_dir tx_name to_addr from_addr : string)
    (w : World) (f : TxFile) (w' : World) (utxos : list Utxo) (w1 : World) :
  empty_account_assemble node ttl_buffer working_dir tx_name to_addr
    from_addr w = (Ok f, w') →
  get_utxos node from_addr None w = (Ok utxos, w1) →
  stdout (utxo_table node (S (now w)) from_addr)
  = stdout (utxo_table node (now w) from_addr) →
  Z.abs (sum_Z (amounts utxos) - tx_fee (file_body f)) < 2 ^ 53 →
  Forall (λ u, utxo_ok u = true) utxos
  ∧ tx_in (file_body f) = refs utxos
  ∧ tx_fee (file_body f) ≤ sum_Z (amounts utxos)
  ∧ tx_out (file_body f)
    = [(to_addr, sum_Z (amounts utxos) - tx_fee (file_body f))]
  ∧ tx_cert (file_body f) = [].
Proof.
  intros H Hfirst Hsame Hsmall.
  apply empty_account_assemble_inv in H
    as (counted & again & w1' & w2 & tipv & amount & Hc & Hnum & Hu & H).
  rewrite Hfirst in Hc. injection Hc as <- <-.
  assert (again = utxos) as ->.
  { destruct (get_utxos_world _ _ _ _ _ _ Hfirst) as [msgs ->].
    pose proof (get_utxos_same_table node from_addr None
                  (print_all msgs (issue (QueryUtxo from_addr) w)) w) as E.
    rewrite Hu, Hfirst in E. simpl in E.
    assert (Ok again = Ok utxos :> outcome (list Utxo)) as [= ->];
      [|reflexivity].
    apply E. unfold now, print_all, issue. simpl.
    rewrite length_app. simpl. rewrite Nat.add_1_r. exact Hsame. }
  cbv zeta in H. destruct H as (Hfee & _ & Hfmt & -> & _).
  simpl in Hsmall |- *.
  unfold Py.format_0f in Hfmt. rewrite float_of_int_exact in Hfmt by exact Hsmall.
  injection Hfmt as <-.
  split; [|auto].
  apply numeric_columns_ok; [eapply get_utxos_columns, Hfirst | exact Hnum].
Qed.

Lemma empty_account_sends_the_balance_witness :
  ∃ f w',
    empty_account_assemble Example.node 1000 "wd" "tx" "to" "from"
      Example.start = (Ok f, w')
    ∧ Forall (λ u, utxo_ok u = true) Example.three
    ∧ tx_in (file_body f) = refs Example.three
    ∧ tx_fee (file_body f) ≤ sum_Z (amounts Example.three)
    ∧ tx_out (file_body f)
      = [("to"%string, sum_Z (amounts Example.three) - tx_fee (file_body f))]
    ∧ tx_cert (file_body f) = [].
Proof.
  eexists _, _. split; [vm_compute; reflexivity|].
  eapply (empty_account_sends_the_balance Example.node 1000 "wd" "tx" "to"
            "from" Example.start _ _ Example.three
            (issue (QueryUtxo "from") Example.start)).
  - vm_compute; reflexivity.
  - reflexivity.
  - reflexivity.
  - vm_compute; reflexivity.
Defined.

Lemma send_payment_closing node ttl_buffer working_dir tx_name amt to_addr
    from_addr key_file offline cleanup :
  send_payment node ttl_buffer working_dir tx_name amt to_addr from_addr
    key_file offline cleanup
  = bind (build_raw_transaction node ttl_buffer working_dir tx_name from_addr 1
            [to_addr] (Some [amt * 1000000]) [] 0 cleanup)
      (λ raw, sign_and_send node raw key_file offline cleanup).
Proof. reflexivity. Qed.

Lemma empty_account_closing node ttl_buffer working_dir tx_name to_addr
    from_addr key_file offline cleanup :
  empty_account node ttl_buffer working_dir tx_name to_addr from_addr key_file
    offline cleanup
  = bind (empty_account_assemble node ttl_buffer working_dir tx_name to_addr
            from_addr)
      (λ raw, sign_and_send node raw key_file offline cleanup).
Proof. reflexivity. Qed.

Lemma sign_and_send_inv node raw key_file offline cleanup w r w' :
  sign_and_send node raw key_file offline cleanup w = (Ok r, w') →
  r = None
  ∧ Py.strip (sign_stderr node (now w)) = EmptyString
  ∧ commands w' = commands w ++ closing_commands raw key_file offline cleanup
  ∧ printed w'
    = printed w
      ++ (if offline then [saved_message (file_stem raw +:+ ".signed")%stdpp]
          else []).
Proof.
  unfold sign_and_send, sign_transaction. intros H.
  unfold bind at 1 2 in H. unfold run_cli at 1 in H.
  destruct (Py.strip (sign_stderr node (now w))) as [|c s] eqn:Hs;
    [|discriminate].
  cbn [Py.is_empty ret] in H.
  unfold closing_commands, submit_or_print, submit_transaction, cleanup_file,
    saved_message in *.
  destruct cleanup, offline; cbn [negb] in H;
    unfold bind, run_cli, print, ret in H; cbn [now commands] in H;
    repeat match type of H with
           | context [Py.strip (submit_stderr node ?t)] =>
               destruct (Py.strip (submit_stderr node t));
               cbn [Py.is_empty] in H; [|discriminate]
           end;
    injection H as <- <-; simpl; rewrite <- ?app_assoc, ?app_nil_r; auto.
Qed.

(** X10.  The commands of a call of [empty_account] that returns: two
    queries of the UTXOs, the draft, the fee estimated on the draft for as
    many inputs as the body has, two outputs and one witness (the body has
    one output), the tip, the raw file; then the signature with the one
    key, the removal of the raw file if asked, and, unless offline, the
    submission and the removal of the signed file if asked.  The draft is
    never removed.  Nothing is returned. *)
Theorem empty_account_commands
    (node : Node) (ttl_buffer : Z)
    (working_dir tx_name to_addr from_addr key_file : string)
    (offline cleanup : bool) (w : World) (r : option string) (w' : World) :
  empty_account node ttl_buffer working_dir tx_name to_addr from_addr key_file
    offline cleanup w = (Ok r, w') →
  r = None
  ∧ ∃ ins amount ttl fee p,
      let draft := sweep_tx working_dir tx_name to_addr ".draft" ins 0 0 0 in
      let raw := sweep_tx working_dir tx_name to_addr ".raw" ins amount ttl
                   fee in
      commands w'
      = commands w
        ++ sweep_commands from_addr (length ins) draft raw p
        ++ closing_commands raw key_file offline cleanup.
Proof.
  rewrite empty_account_closing. intros H.
  apply bind_inv in H as (raw & w3 & Hraw & H).
  apply sign_and_send_inv in H as (-> & _ & Hcmds & _).
  split; [reflexivity|].
  apply empty_account_assemble_inv in Hraw
    as (counted & utxos & w1 & w2 & tipv & amount & Hc & _ & Hu & Hraw).
  cbv zeta in Hraw. destruct Hraw as (_ & _ & _ & -> & _ & _ & Hw3).
  apply get_utxos_world in Hc as [msgs1 ->].
  apply get_utxos_world in Hu as [msgs2 ->].
  eexists (refs utxos), amount, (tipv + ttl_buffer), _, _. cbv zeta.
  rewrite Hcmds, Hw3. unfold sweep_commands, refs. rewrite length_map.
  simpl. rewrite <- !app_assoc. reflexivity.
Qed.

Lemma empty_account_commands_witness :
  ∃ r w',
    empty_account Example.node 1000 "wd" "tx" "to" "from" "from.skey" false
      true Example.start = (Ok r, w')
    ∧ r = None
    ∧ ∃ ins amount ttl fee p,
        let draft := sweep_tx "wd" "tx" "to" ".draft" ins 0 0 0 in
        let raw := sweep_tx "wd" "tx" "to" ".raw" ins amount ttl fee in
        commands w'
        = commands Example.start
          ++ sweep_commands "from" (length ins) draft raw p
          ++ closing_commands raw "from.skey" false true.
Proof.
  eexists _, _. split; [vm_compute; reflexivity|].
  eapply (empty_account_commands Example.node 1000 "wd" "tx" "to" "from"
            "from.skey" false true Example.start).
  vm_compute; reflexivity.
Defined.

(** X11.  The commands of a call of [send_payment] that returns, after
    those of [build_raw_transaction]: the signature with the one key, the
    removal of the raw file if asked, and, unless offline, the submission
    and the removal of the signed file if asked.  Nothing is returned;
    offline, one line is printed, naming the signed file. *)
Theorem send_payment_commands
    (node : Node) (ttl_buffer : Z) (working_dir tx_name : string) (amt : Z)
    (to_addr from_addr key_file : string) (offline cleanup : bool)
    (w : World) (r : option string) (w' : World) :
  send_payment node ttl_buffer working_dir tx_name amt to_addr from_addr
    key_file offline cleanup w = (Ok r, w') →
  r = None
  ∧ ∃ raw w1,
      build_raw_transaction node ttl_buffer working_dir tx_name from_addr 1
        [to_addr] (Some [amt * 1000000]) [] 0 cleanup w = (Ok raw, w1)
      ∧ commands w'
        = commands w1 ++ closing_commands raw key_file offline cleanup
      ∧ printed w'
        = printed w1
          ++ (if offline then [saved_message (tx_name +:+ ".signed")%stdpp]
              else []).
Proof.
  rewrite send_payment_closing. intros H.
  apply bind_inv in H as (raw & w1 & Hraw & H).
  apply sign_and_send_inv in H as (-> & _ & Hcmds & Hprint).
  split; [reflexivity|]. exists raw, w1.
  rewrite (build_raw_transaction_stem _ _ _ _ _ _ _ _ _ _ _ _ _ _ Hraw)
    in Hprint.
  auto.
Qed.

Lemma send_payment_commands_witness :
  ∃ r w',
    send_payment Example.node 1000 "wd" "tx" 0 "to" "from" "from.skey" false
      true Example.start = (Ok r, w')
    ∧ r = None
    ∧ ∃ raw w1,
        build_raw_transaction Example.node 1000 "wd" "tx" "from" 1
          ["to"%string] (Some [0 * 1000000]) [] 0 true Example.start
        = (Ok raw, w1)
        ∧ commands w'
          = commands w1 ++ closing_commands raw "from.skey" false true
        ∧ printed w'
          = printed w1
            ++ (if false then [saved_message ("tx" +:+ ".signed")%stdpp]
                else []).
Proof.
  eexists _, _. split; [vm_compute; reflexivity|].
  eapply (send_payment_commands Example.node 1000 "wd" "tx" 0 "to" "from"
            "from.skey" false true Example.start).
  vm_compute; reflexivity.
Defined.

Lemma silent_add_lovelace utxos : ∀ total, silent (add_lovelace utxos total).
Proof. induction utxos; intros total; simpl; silence. Qed.

Lemma silent_add_tx_in utxos : ∀ acc, silent (add_tx_in utxos acc).
Proof. induction utxos; intros acc; simpl; silence. Qed.

#[local] Hint Resolve silent_add_lovelace silent_add_tx_in : silent.

Lemma silent_query_balance node addr : silent (query_balance node addr).
Proof. unfold query_balance. silence. Qed.

#[local] Hint Resolve silent_query_balance : silent.

Lemma silent_empty_account_assemble node ttl_buffer working_dir tx_name to_addr
    from_addr :
  silent (empty_account_assemble node ttl_buffer working_dir tx_name to_addr
            from_addr).
Proof. unfold empty_account_assemble. silence. Qed.

#[local] Hint Resolve silent_empty_account_assemble : silent.

(** X12.  Called with [offline] set, [empty_account] issues no
    submission, however it ends; when it returns it returns nothing, the
    last line printed naming the signed file. *)
Theorem empty_account_offline_does_not_submit
    (node : Node) (ttl_buffer : Z)
    (working_dir tx_name to_addr from_addr key_file : string)
    (cleanup : bool) (w : World) (r : outcome (option string)) (w' : World) :
  empty_account node ttl_buffer working_dir tx_name to_addr from_addr key_file
    true cleanup w = (r, w') →
  (∃ new, commands w' = commands w ++ new ∧ no_submit new = true)
  ∧ ∀ x, r = Ok x →
      x = None
      ∧ last (printed w') = Some (saved_message (tx_name +:+ ".signed")%stdpp).
Proof.
  intros H. split.
  - revert w r w' H.
    change (silent (empty_account node ttl_buffer working_dir tx_name to_addr
                      from_addr key_file true cleanup)).
    unfold empty_account. silence; try apply silent_offline.
  - intros x ->. rewrite empty_account_closing in H.
    apply bind_inv in H as (raw & w1 & Hraw & H).
    apply sign_and_send_inv in H as (-> & _ & _ & Hprint).
    split; [reflexivity|]. rewrite Hprint, last_snoc.
    apply empty_account_assemble_inv in Hraw
      as (? & ? & ? & ? & ? & ? & _ & _ & _ & Hraw).
    cbv zeta in Hraw. destruct Hraw as (_ & _ & _ & -> & _). reflexivity.
Qed.

Lemma empty_account_offline_does_not_submit_witness :
  ∃ r w',
    empty_account Example.node 1000 "wd" "tx" "to" "from" "from.skey" true
      true Example.start = (r, w')
    ∧ (∃ new, commands w' = commands Example.start ++ new
              ∧ no_submit new = true)
    ∧ ∀ x, r = Ok x →
        x = None
        ∧ last (printed w') = Some (saved_message ("tx" +:+ ".signed")%stdpp).
Proof.
  eexists _, _. split; [vm_compute; reflexivity|].
  eapply (empty_account_offline_does_not_submit Example.node 1000 "wd" "tx"
            "to" "from" "from.skey" true Example.start).
  vm_compute; reflexivity.
Defined.

Lemma raises_only_add_lovelace P utxos : ∀ total,
  raises_only P (add_lovelace utxos total).
Proof. induction utxos; intros total; simpl; classify. Qed.

Lemma raises_only_add_tx_in P utxos : ∀ acc,
  raises_only P (add_tx_in utxos acc).
Proof. induction utxos; intros acc; simpl; classify. Qed.

#[local] Hint Resolve raises_only_add_lovelace raises_only_add_tx_in : raises.

Lemma raises_only_query_balance P node addr :
  raises_only P (query_balance node addr).
Proof. unfold query_balance. classify. Qed.

#[local] Hint Resolve raises_only_query_balance : raises.

Lemma raises_only_empty_account_assemble node ttl_buffer working_dir tx_name
    to_addr from_addr :
  raises_only (short_of_funds from_addr)
    (empty_account_assemble node ttl_buffer working_dir tx_name to_addr
       from_addr).
Proof.
  unfold empty_account_assemble. classify.
  - apply raises_only_raise. simpl. split; [reflexivity|]. now apply Z.ltb_lt.
  - apply raises_only_get_tip. now intros s.
Qed.

(** X13.  The classified failures of [empty_account]: the tip is not
    known, or the balance is below the fee, the error then naming the fee
    and a balance below it; the failure of the signature; and, unless the
    call is offline, the failure of the submission. *)
Theorem empty_account_failures
    (node : Node) (ttl_buffer : Z)
    (working_dir tx_name to_addr from_addr key_file : string)
    (offline cleanup : bool) (w : World) (e : ShelleyError) (w' : World) :
  empty_account node ttl_buffer working_dir tx_name to_addr from_addr key_file
    offline cleanup w = (Shelley e, w') →
  short_of_funds from_addr e ∨ is_sign_failure e
  ∨ (offline = false ∧ is_submit_failure e).
Proof.
  revert w e w'.
  change (raises_only
            (λ e, short_of_funds from_addr e ∨ is_sign_failure e
                  ∨ (offline = false ∧ is_submit_failure e))
            (empty_account node ttl_buffer working_dir tx_name to_addr
               from_addr key_file offline cleanup)).
  unfold empty_account.
  classify;
    (eapply raises_only_weaken;
     [|first [ apply raises_only_empty_account_assemble
             | apply raises_only_sign_transaction
             | apply raises_only_submit_or_print ]]; auto).
Qed.

Lemma empty_account_failures_witness :
  let node := Example.steady (Example.answer []) (Example.params 1000000)
                170000 in
  ∃ w',
    empty_account node 1000 "wd" "tx" "to" "from" "from.skey" false true
      Example.start = (Shelley (InsufficientFunds "from" 170000 0), w')
    ∧ (short_of_funds "from" (InsufficientFunds "from" 170000 0)
       ∨ is_sign_failure (InsufficientFunds "from" 170000 0)
       ∨ (false = false
          ∧ is_submit_failure (InsufficientFunds "from" 170000 0))).
Proof.
  cbv zeta. eexists. split; [vm_compute; reflexivity|].
  eapply (empty_account_failures
            (Example.steady (Example.answer []) (Example.params 1000000)
               170000)
            1000 "wd" "tx" "to" "from" "from.skey" false true Example.start).
  vm_compute; reflexivity.
Defined.

(** X14.  The failure of the signature in [send_payment].  The error
    channel of the signature is stripped; when text is left, [send_payment]
    ends in the error of the signature, which carries the stripped text, and
    the signature is the last command: nothing is submitted, and the raw
    file is not removed, whatever [cleanup] says.  And [send_payment] ends
    in that error in no other case: white space alone on the channel is no
    failure. *)
Theorem failed_signature_stops_send_payment
    (node : Node) (ttl_buffer : Z) (working_dir tx_name : string) (amt : Z)
    (to_addr from_addr key_file : string) (offline cleanup : bool)
    (w : World) (raw : TxFile) (w1 : World) :
  build_raw_transaction node ttl_buffer working_dir tx_name from_addr 1
    [to_addr] (Some [amt * 1000000]) [] 0 cleanup w = (Ok raw, w1) →
  let left := Py.strip (sign_stderr node (now w1)) in
  (left ≠ EmptyString →
   send_payment node ttl_buffer working_dir tx_name amt to_addr from_addr
     key_file offline cleanup w
   = (Shelley (UnableToSign left),
      issue (Sign raw [key_file] (tx_name +:+ ".signed")%stdpp) w1))
  ∧ ∀ text w',
      send_payment node ttl_buffer working_dir tx_name amt to_addr from_addr
        key_file offline cleanup w = (Shelley (UnableToSign text), w') →
      text = left ∧ left ≠ EmptyString.
Proof.
  intros Hraw left.
  assert (Hfail : left ≠ EmptyString →
            send_payment node ttl_buffer working_dir tx_name amt to_addr
              from_addr key_file offline cleanup w
            = (Shelley (UnableToSign left),
               issue (Sign raw [key_file] (tx_name +:+ ".signed")%stdpp) w1)).
  { intros Hsign. rewrite send_payment_closing.
    rewrite (bind_ok _ _ _ _ _ Hraw).
    rewrite <- (build_raw_transaction_stem _ _ _ _ _ _ _ _ _ _ _ _ _ _ Hraw).
    unfold sign_and_send, sign_transaction, bind, run_cli. fold left.
    destruct left; [done|]. reflexivity. }
  split; [exact Hfail|]. intros text w' H.
  destruct (decide (left = EmptyString)) as [Hempty|Hsign].
  - exfalso. rewrite send_payment_closing in H.
    rewrite (bind_ok _ _ _ _ _ Hraw) in H.
    unfold sign_and_send, sign_transaction in H.
    unfold bind at 1 2 in H. unfold run_cli at 1 in H.
    fold left in H. rewrite Hempty in H. cbn [Py.is_empty ret] in H.
    assert (Hrest : raises_only (λ e, offline = false ∧ is_submit_failure e)
              ((if cleanup then cleanup_file (file_path raw) else ret tt);;
               submit_or_print node (file_stem raw +:+ ".signed")%stdpp
                 offline cleanup)).
    { apply raises_only_bind; [destruct cleanup; classify|].
      intros _. apply raises_only_submit_or_print. }
    apply Hrest in H as [_ []].
  - rewrite (Hfail Hsign) in H. injection H as <- _. auto.
Qed.

Lemma failed_signature_stops_send_payment_witness :
  let node := Failing.sign ("  no such key" +:+ Example.newline)%stdpp
                (Example.steady (Example.answer ["aa 0 5000000 lovelace"%string])
                   (Example.params 1000000) 170000) in
  ∃ raw w1,
    build_raw_transaction node 1000 "wd" "tx" "from" 1 ["to"%string]
      (Some [2 * 1000000]) [] 0 true Example.start = (Ok raw, w1)
    ∧ Py.strip (sign_stderr node (now w1)) = "no such key"%string
    ∧ let left := Py.strip (sign_stderr node (now w1)) in
      (left ≠ EmptyString →
       send_payment node 1000 "wd" "tx" 2 "to" "from" "from.skey" false true
         Example.start
       = (Shelley (UnableToSign left),
          issue (Sign raw ["from.skey"%string] ("tx" +:+ ".signed")%stdpp) w1))
      ∧ ∀ text w',
          send_payment node 1000 "wd" "tx" 2 "to" "from" "from.skey" false
            true Example.start = (Shelley (UnableToSign text), w') →
          text = left ∧ left ≠ EmptyString.
Proof.
  cbv zeta. eexists _, _. split; [vm_compute; reflexivity|].
  split; [vm_compute; reflexivity|].
  eapply (failed_signature_stops_send_payment
            (Failing.sign ("  no such key" +:+ Example.newline)%stdpp
               (Example.steady (Example.answer ["aa 0 5000000 lovelace"%string])
                  (Example.params 1000000) 170000))
            1000 "wd" "tx" 2 "to" "from" "from.skey" false true Example.start).
  vm_compute; reflexivity.
Defined.

(** ** The order of the UTXOs *)

Lemma digit_of_range c d : Py.digit_of c = Some d → 0 ≤ d ≤ 9.
Proof.
  unfold Py.digit_of. destruct (_ && _) eqn:E; [|discriminate].
  intros [= <-]. apply andb_true_iff in E as [E1 E2].
  apply Nat.leb_le in E1, E2. lia.
Qed.

Lemma digit_not_space c d : Py.digit_of c = Some d → Py.is_space c = false.
Proof.
  unfold Py.digit_of, Py.is_space. destruct (_ && _) eqn:E; [|discriminate].
  intros _. apply andb_true_iff in E as [E1 E2].
  apply Nat.leb_le in E1, E2.
  repeat match goal with
         | |- context [(?a <=? ?b)%nat] => destruct (Nat.leb_spec a b)
         | |- context [(?a =? ?b)%nat] => destruct (Nat.eqb_spec a b)
         end; try reflexivity; lia.
Qed.

Lemma digits_all_digits s : ∀ acc b,
  all_digits s = true → (s ≠ EmptyString ∨ b = true) →
  Py.digits s acc b = Some (digits_val s acc).
Proof.
  induction s as [|c s IH]; intros acc b Hall Hne; simpl in *.
  - destruct Hne as [Hne| ->]; [done | reflexivity].
  - destruct (Py.digit_of c) as [d|]; [|discriminate]. simpl.
    apply IH; auto.
Qed.

Lemma rstrip_all_digits s : all_digits s = true → Py.rstrip s = s.
Proof.
  induction s as [|c s IH]; simpl; [reflexivity|].
  destruct (Py.digit_of c) as [d|] eqn:Hd; [|discriminate].
  intros Hall. rewrite (digit_not_space _ _ Hd), IH by assumption. reflexivity.
Qed.

Lemma int_numeral s : numeral s = true → Py.int s = Some (digits_val s 0).
Proof.
  unfold numeral. intros H. apply andb_true_iff in H as [Hne Hall].
  destruct s as [|c s]; [discriminate|].
  unfold Py.int, Py.strip.
  assert (Hl : Py.lstrip (String c s) = String c s).
  { simpl in *. destruct (Py.digit_of c) as [d|] eqn:Hd; [|discriminate].
    now rewrite (digit_not_space _ _ Hd). }
  rewrite Hl, (rstrip_all_digits _ Hall).
  assert (Hc : c ≠ "+"%char ∧ c ≠ "-"%char).
  { split; intros ->; simpl in Hall; discriminate. }
  destruct Hc as [Hp Hm].
  transitivity (Py.digits (String c s) 0 false).
  - destruct c as [[] [] [] [] [] [] [] []]; try reflexivity; congruence.
  - apply digits_all_digits; [exact Hall | left; discriminate].
Qed.

Lemma digits_val_acc s : ∀ acc,
  all_digits s = true →
  digits_val s acc = acc * 10 ^ Z.of_nat (String.length s) + digits_val s 0
  ∧ 0 ≤ digits_val s 0 < 10 ^ Z.of_nat (String.length s).
Proof.
  induction s as [|c s IH]; intros acc Hall; cbn [all_digits] in Hall.
  - cbn [digits_val String.length]. change (Z.of_nat 0) with 0.
    rewrite Z.pow_0_r. lia.
  - cbn [digits_val String.length].
    destruct (Py.digit_of c) as [d|] eqn:Hd; [|discriminate].
    apply digit_of_range in Hd. cbn [default]. unfold id.
    rewrite Nat2Z.inj_succ, Z.pow_succ_r by lia.
    destruct (IH (10 * acc + d) Hall) as [E1 _].
    destruct (IH (10 * 0 + d) Hall) as [E2 B].
    rewrite E1, E2. split; [ring|]. nia.
Qed.

Lemma digits_val_lt a b acc1 acc2 :
  all_digits a = true → all_digits b = true →
  String.length a = String.length b → acc1 < acc2 →
  digits_val a acc1 < digits_val b acc2.
Proof.
  intros Ha Hb Hlen Hacc.
  destruct (digits_val_acc a acc1 Ha) as [-> Ba].
  destruct (digits_val_acc b acc2 Hb) as [-> Bb].
  rewrite Hlen in *.
  assert (0 < 10 ^ Z.of_nat (String.length b)) by (apply Z.pow_pos_nonneg; lia).
  nia.
Qed.

Lemma digit_of_compare c1 c2 d1 d2 :
  Py.digit_of c1 = Some d1 → Py.digit_of c2 = Some d2 →
  match Ascii.compare c1 c2 with
  | Lt => d1 < d2
  | Eq => d1 = d2
  | Gt => d2 < d1
  end.
Proof.
  unfold Py.digit_of.
  destruct (_ && _); [|discriminate]. intros [= <-].
  destruct (_ && _); [|discriminate]. intros [= <-].
  unfold Ascii.compare, nat_of_ascii.
  destruct (N.compare_spec (N_of_ascii c1) (N_of_ascii c2)) as [E|E|E].
  - now rewrite E.
  - lia.
  - lia.
Qed.

Lemma compare_numerals a : ∀ b acc,
  all_digits a = true → all_digits b = true →
  String.length a = String.length b →
  match String.compare a b with
  | Lt => digits_val a acc < digits_val b acc
  | Eq => digits_val a acc = digits_val b acc
  | Gt => digits_val b acc < digits_val a acc
  end.
Proof.
  induction a as [|c1 a IH]; intros [|c2 b] acc Ha Hb Hlen;
    try discriminate; simpl in Ha, Hb, Hlen |- *; [reflexivity|].
  destruct (Py.digit_of c1) as [d1|] eqn:H1; [|discriminate].
  destruct (Py.digit_of c2) as [d2|] eqn:H2; [|discriminate].
  injection Hlen as Hlen. cbn [default]. unfold id.
  pose proof (digit_of_compare _ _ _ _ H1 H2) as Hc.
  destruct (Ascii.compare c1 c2).
  - subst d2. now apply IH.
  - apply digits_val_lt; auto; lia.
  - apply digits_val_lt; auto; lia.
Qed.

Lemma amount_width_amount n u :
  amount_width n u →
  ∃ s, u !! "Lovelace"%string = Some s ∧ all_digits s = true
       ∧ String.length s = n ∧ lovelace_key u = s
       ∧ amount_of u = Some (digits_val s 0).
Proof.
  intros (s & Hs & Hnum & Hlen). exists s.
  pose proof (int_numeral _ Hnum) as Hint.
  apply andb_true_iff in Hnum as [_ Hall].
  unfold lovelace_key, amount_of. rewrite Hs. simpl. auto.
Qed.

Lemma text_ge_amount n a b :
  amount_width n a → amount_width n b →
  text_ge lovelace_key a b →
  default 0 (amount_of a) >= default 0 (amount_of b).
Proof.
  intros Ha Hb Hge.
  apply amount_width_amount in Ha as (sa & _ & Halla & Hla & Hka & ->).
  apply amount_width_amount in Hb as (sb & _ & Hallb & Hlb & Hkb & ->).
  unfold text_ge, Py.str_ltb in Hge. rewrite Hka, Hkb in Hge.
  pose proof (compare_numerals sa sb 0 Halla Hallb ltac:(congruence)) as Hc.
  simpl. destruct (String.compare sa sb); [lia | discriminate | lia].
Qed.

Lemma Sorted_amounts n (l : list Utxo) :
  Forall (amount_width n) l → Sorted (text_ge lovelace_key) l →
  Sorted Z.ge (amounts l).
Proof.
  intros Hall Hs. induction Hs as [|u l Hs IH Hhd]; simpl; [constructor|].
  inversion Hall as [|? ? Hu Hl]; subst.
  constructor; [now apply IH|].
  destruct Hhd as [|v l Hv]; simpl; constructor.
  inversion Hl; subst. eapply text_ge_amount; eauto.
Qed.

(** X16.  The sort of the UTXOs, [utxos.sort(key=lambda k: k["Lovelace"],
    reverse=True)].  When it does not fail it has no effect on the world;
    the sorted list is a rearrangement of the list it was given; it is
    descending in the text of the amount column; and the UTXOs with the
    same text keep the order they had. *)
Theorem sort_utxos_is_stable_descending_on_text
    (utxos : list Utxo) (w : World) (sorted : list Utxo) (w' : World) :
  sort_utxos utxos w = (Ok sorted, w') →
  w' = w
  ∧ sorted ≡ₚ utxos
  ∧ Sorted (text_ge lovelace_key) sorted
  ∧ ∀ s, List.filter (λ u, String.eqb (lovelace_key u) s) sorted
         = List.filter (λ u, String.eqb (lovelace_key u) s) utxos.
Proof.
  intros H. apply sort_utxos_inv in H as [-> ->].
  split; [reflexivity|]. split; [apply sort_desc_perm|].
  split; [apply sort_desc_sorted|]. intros s. apply sort_desc_stable.
Qed.

Lemma sort_utxos_is_stable_descending_on_text_witness :
  sort_utxos Example.three Example.start
  = (Ok Example.three, Example.start)
  ∧ Example.start = Example.start
  ∧ Example.three ≡ₚ Example.three
  ∧ Sorted (text_ge lovelace_key) Example.three
  ∧ ∀ s, List.filter (λ u, String.eqb (lovelace_key u) s) Example.three
         = List.filter (λ u, String.eqb (lovelace_key u) s) Example.three.
Proof.
  split; [reflexivity|].
  apply (sort_utxos_is_stable_descending_on_text Example.three Example.start
           Example.three Example.start).
  reflexivity.
Defined.

(** X17.  When the amount column of every UTXO is a numeral of the same
    number of digits, the sort succeeds and the sorted list is descending
    in the amounts themselves: comparing the texts is then comparing the
    numbers. *)
Theorem sort_is_by_amount_at_equal_width
    (n : nat) (utxos : list Utxo) (w : World) :
  Forall (amount_width n) utxos →
  ∃ sorted,
    sort_utxos utxos w = (Ok sorted, w)
    ∧ sorted ≡ₚ utxos
    ∧ Sorted Z.ge (amounts sorted).
Proof.
  intros Hall. exists (Py.sort_desc lovelace_key utxos). split; [|split].
  - unfold sort_utxos.
    replace (forallb (has_key "Lovelace") utxos) with true; [reflexivity|].
    symmetry. apply forallb_forall. intros u Hu. apply list_elem_of_In in Hu.
    rewrite Forall_forall in Hall. destruct (Hall u Hu) as (s & Hs & _).
    unfold has_key. apply bool_decide_eq_true. eauto.
  - apply sort_desc_perm.
  - apply (Sorted_amounts n); [|apply sort_desc_sorted].
    rewrite (sort_desc_perm lovelace_key utxos). exact Hall.
Qed.

Lemma sort_is_by_amount_at_equal_width_witness :
  Forall (amount_width 2)
    [Example.utxo "aa" "0" "17"; Example.utxo "bb" "1" "90";
     Example.utxo "cc" "0" "05"]
  ∧ ∃ sorted,
      sort_utxos [Example.utxo "aa" "0" "17"; Example.utxo "bb" "1" "90";
                  Example.utxo "cc" "0" "05"] Example.start
      = (Ok sorted, Example.start)
      ∧ sorted ≡ₚ [Example.utxo "aa" "0" "17"; Example.utxo "bb" "1" "90";
                   Example.utxo "cc" "0" "05"]
      ∧ Sorted Z.ge (amounts sorted).
Proof.
  assert (H : Forall (amount_width 2)
                [Example.utxo "aa" "0" "17"; Example.utxo "bb" "1" "90";
                 Example.utxo "cc" "0" "05"]).
  { repeat constructor; eexists; (split; [reflexivity|]); split; reflexivity. }
  split; [exact H|].
  exact (sort_is_by_amount_at_equal_width 2 _ Example.start H).
Defined.

(** ** More on the assembly of a transaction *)

Lemma get_utxos_unfiltered node addr f w utxos w1 :
  get_utxos node addr (Some f) w = (Ok utxos, w1) →
  ∃ all, get_utxos node addr None w = (Ok all, w1)
         ∧ utxos = filter_utxos (Some f) all.
Proof.
  set (rows := rows_of (stdout (utxo_table node (now w) addr))).
  assert (Hrun : ∀ filter, get_utxos node addr filter w
                 = bind (parse_rows rows [])
                     (λ utxos, ret (filter_utxos filter utxos))
                     (issue (QueryUtxo addr) w)) by reflexivity.
  rewrite !Hrun. unfold bind.
  destruct (parse_rows rows [] (issue (QueryUtxo addr) w)) as [[us|e|e] w2];
    try discriminate.
  unfold ret. intros [= <- <-]. exists us. auto.
Qed.

Lemma elem_of_refs i utxos :
  i ∈ refs utxos → Forall (λ u, utxo_ok u = true) utxos →
  ∃ u, u ∈ utxos ∧ ref_of u = Some i.
Proof.
  unfold refs. intros Hi Hok. apply list_elem_of_fmap in Hi as (u & -> & Hu).
  exists u. split; [exact Hu|].
  rewrite Forall_forall in Hok. specialize (Hok u Hu).
  unfold utxo_ok in Hok. apply andb_true_iff in Hok as [_ Hr].
  apply bool_decide_eq_true in Hr as [r Hr]. now rewrite Hr.
Qed.

(** X18.  [build_raw_transaction] spends only UTXOs that hold nothing but
    the base currency: every input of the raw file it assembles is a UTXO
    of the address whose dict has the three keys [TxHash], [TxIx],
    [Lovelace] and no other; and the raw file has at least one input. *)
Theorem build_raw_transaction_spends_plain_utxos
    (node : Node) (ttl_buffer : Z) (working_dir tx_name payment_addr : string)
    (witness_count : Z) (receive_addrs : list string)
    (payments : option (list Z)) (certs : list string) (deposits : Z)
    (cleanup : bool) (w : World) (f : TxFile) (w' : World) :
  build_raw_transaction node ttl_buffer working_dir tx_name payment_addr
    witness_count receive_addrs payments certs deposits cleanup w
  = (Ok f, w') →
  tx_in (file_body f) ≠ []
  ∧ ∃ all w1,
      get_utxos node payment_addr None w = (Ok all, w1)
      ∧ ∀ i, i ∈ tx_in (file_body f) →
          ∃ u, u ∈ all ∧ ref_of u = Some i ∧ dom u = plain_columns.
Proof.
  intros H.
  apply build_raw_transaction_inv in H
    as (pairs & zero & pymt & utxos0 & msgs & tipv & v & w2
        & _ & _ & Hu & _ & Hloop & Hfin).
  apply select_loop_inv in Hloop as (n & Hn & -> & -> & Hok & _).
  apply finish_inv in Hfin as (_ & change & Hamt & _ & -> & _).
  destruct n as [|j]; [discriminate|].
  pose proof (get_utxos_columns _ _ _ _ _ _ Hu) as Hcols0.
  apply get_utxos_unfiltered in Hu as (all & Hall & ->).
  pose proof (get_utxos_columns _ _ _ _ _ _ Hall) as Hcols.
  cbn [raw_file file_body tx_in selection_after tx_in_str].
  unfold inputs_upto. split.
  - destruct (Py.sort_desc lovelace_key _) as [|u l] eqn:E;
      [simpl in Hn; lia | discriminate].
  - eexists all, _. split; [exact Hall|]. intros i Hi.
    apply elem_of_refs in Hi as (u & Hu & Hr); [|exact Hok].
    apply elem_of_take in Hu as (k & Hu & _).
    apply list_elem_of_lookup_2 in Hu.
    rewrite (sort_desc_perm lovelace_key) in Hu.
    apply elem_of_filter_utxos in Hu as (Hu & _ & Hdom); [|exact Hcols].
    exists u. auto.
Qed.

Lemma build_raw_transaction_spends_plain_utxos_witness :
  let node := Example.steady
                (Example.answer ["aa 0 9 lovelace + 4 token"%string;
                                 "bb 1 8 lovelace"%string])
                (Example.params 1) 1 in
  ∃ f w',
    build_raw_transaction node 1000 "wd" "tx" "addr" 1 ["to"%string] (Some [5])
      [] 0 true Example.start = (Ok f, w')
    ∧ tx_in (file_body f) ≠ []
    ∧ ∃ all w1,
        get_utxos node "addr" None Example.start = (Ok all, w1)
        ∧ ∀ i, i ∈ tx_in (file_body f) →
            ∃ u, u ∈ all ∧ ref_of u = Some i ∧ dom u = plain_columns.
Proof.
  cbv zeta. eexists _, _. split; [vm_compute; reflexivity|].
  eapply (build_raw_transaction_spends_plain_utxos
            (Example.steady
               (Example.answer ["aa 0 9 lovelace + 4 token"%string;
                                "bb 1 8 lovelace"%string])
               (Example.params 1) 1)
            1000 "wd" "tx" "addr" 1 ["to"%string] (Some [5]) [] 0 true
            Example.start).
  vm_compute; reflexivity.
Defined.

Lemma now_get_utxos node addr filter w r w1 :
  get_utxos node addr filter w = (r, w1) → now w1 = S (now w).
Proof.
  intros H. apply get_utxos_world in H as [msgs ->].
  unfold print_all. apply now_issue.
Qed.

Lemma get_tip_ok node w t :
  tip node (now w) = inl t → get_tip node w = (Ok t, issue QueryTip w).
Proof. intros H. unfold get_tip. rewrite bind_run_cli, H. reflexivity. Qed.

Lemma check_ada_small n w :
  Z.abs n ≤ Py.maxsize → check_ada n w = (Ok tt, w).
Proof.
  intros H. unfold check_ada, Py.ada_overflows.
  assert (Py.maxsize < (2 ^ 1024 - 2 ^ 970) * 1000000)
    by (vm_compute; reflexivity).
  destruct (Z.leb_spec ((2 ^ 1024 - 2 ^ 970) * 1000000) (Z.abs n));
    [lia | reflexivity].
Qed.

(** X19.  When the address has no UTXO that holds only the base currency
    (whatever else it holds), [build_raw_transaction] ends in the error of
    the empty account, whatever is to be paid; it has queried the UTXOs,
    the tip and the parameters, and has built no file. *)
Theorem no_plain_utxo_is_an_empty_account
    (node : Node) (ttl_buffer : Z) (working_dir tx_name payment_addr : string)
    (witness_count : Z) (receive_addrs : list string)
    (payments : option (list Z)) (certs : list string) (deposits : Z)
    (cleanup : bool) (w : World)
    (pairs zero pymt_args : list (string * Z)) (w1 : World) (t : Z) :
  zipped_payments receive_addrs payments w = (Ok pairs, w) →
  payment_args pairs w = (Ok (zero, pymt_args), w) →
  get_utxos node payment_addr (Some "Lovelace"%string) w = (Ok [], w1) →
  tip node (S (now w)) = inl t →
  build_raw_transaction node ttl_buffer working_dir tx_name payment_addr
    witness_count receive_addrs payments certs deposits cleanup w
  = (Shelley (AccountEmpty payment_addr), fetched node (issue QueryTip w1)).
Proof.
  intros Hz Hp Hu Ht. unfold build_raw_transaction.
  rewrite (bind_ok _ _ _ _ _ Hz), (bind_ok _ _ _ _ _ Hp),
    (bind_ok _ _ _ _ _ Hu).
  unfold sort_utxos. cbn [forallb Py.sort_desc]. rewrite bind_ret.
  rewrite <- (now_get_utxos _ _ _ _ _ _ Hu) in Ht.
  rewrite (bind_ok _ _ _ _ _ (get_tip_ok _ _ _ Ht)).
  rewrite (bind_ok _ _ _ _ _ (load_protocol_parameters_eq _ _)).
  unfold get_protocol_parameters, bind at 1. cbn [fetched protocol_parameters].
  cbn [for_break]. rewrite bind_ret. unfold finish.
  cbn [select_init lovelaces_out utxo_total].
  assert (Hmax : Z.abs Py.maxsize ≤ Py.maxsize) by (vm_compute; discriminate).
  assert (Hzero : Z.abs 0 ≤ Py.maxsize) by (vm_compute; discriminate).
  rewrite (bind_ok _ _ _ _ _ (check_ada_small Py.maxsize _ Hmax)).
  rewrite (bind_ok _ _ _ _ _ (check_ada_small 0 _ Hzero)).
  reflexivity.
Qed.

Lemma no_plain_utxo_is_an_empty_account_witness :
  let node := Example.steady
                (Example.answer ["aa 0 9 lovelace + 4 token"%string])
                (Example.params 1) 1 in
  let w1 := issue (QueryUtxo "addr") Example.start in
  build_raw_transaction node 1000 "wd" "tx" "addr" 1 ["to"%string] (Some [5])
    [] 0 true Example.start
  = (Shelley (AccountEmpty "addr"), fetched node (issue QueryTip w1)).
Proof.
  cbv zeta.
  apply (no_plain_utxo_is_an_empty_account
           (Example.steady
              (Example.answer ["aa 0 9 lovelace + 4 token"%string])
              (Example.params 1) 1)
           1000 "wd" "tx" "addr" 1 ["to"%string] (Some [5]) [] 0 true
           Example.start [("to"%string, 5)] [("to"%string, 0)]
           [("to"%string, 5)] (issue (QueryUtxo "addr") Example.start) 100).
  - reflexivity.
  - vm_compute; reflexivity.
  - vm_compute; reflexivity.
  - reflexivity.
Defined.

(** X20.  The raw file of [build_raw_transaction]: it is
    [<working_dir>/<tx_name>.raw]; it carries the certificates given; its
    time to live is the tip, read by the second command of the call, plus
    the buffer; its fee is the last estimation of the loop, made on a draft
    with the same inputs, for as many inputs as the file has, one output
    and the witnesses given; and the call ends with the building of the
    file, followed by the removal of the draft if asked. *)
Theorem build_raw_transaction_file
    (node : Node) (ttl_buffer : Z) (working_dir tx_name payment_addr : string)
    (witness_count : Z) (receive_addrs : list string)
    (payments : option (list Z)) (certs : list string) (deposits : Z)
    (cleanup : bool) (w : World) (f : TxFile) (w' : World) :
  build_raw_transaction node ttl_buffer working_dir tx_name payment_addr
    witness_count receive_addrs payments certs deposits cleanup w
  = (Ok f, w') →
  file_path f = path working_dir (tx_name +:+ ".raw")%stdpp
  ∧ tx_cert (file_body f) = certs
  ∧ (∃ t, tip node (S (now w)) = inl t
          ∧ tx_ttl (file_body f) = t + ttl_buffer)
  ∧ (∃ (j : nat) draft p,
       tx_fee (file_body f)
       = min_fee_of node p (file_body draft) (Z.of_nat j + 1) 1 witness_count 0
       ∧ tx_in (file_body draft) = tx_in (file_body f)
       ∧ length (tx_in (file_body f)) = S j
       ∧ ∃ earlier,
           commands w'
           = earlier
             ++ [BuildRaw draft; QueryProtocolParameters;
                 CalculateMinFee draft (Z.of_nat j + 1) 1 witness_count 0 p;
                 BuildRaw f]
             ++ (if cleanup then [Remove (tx_draft_file working_dir tx_name)]
                 else [])).
Proof.
  intros H.
  apply build_raw_transaction_inv in H
    as (pairs & zero & pymt & utxos0 & msgs & tipv & v & w2
        & _ & _ & Hu & Htip & Hloop & Hfin).
  apply select_loop_inv in Hloop as (n & Hn & -> & -> & Hok & _).
  apply finish_inv in Hfin as (_ & change & Hamt & _ & -> & ->).
  destruct n as [|j]; [discriminate|].
  split; [reflexivity|]. split; [reflexivity|].
  split; [exists tipv; split; [exact Htip | reflexivity]|].
  set (sorted := Py.sort_desc lovelace_key utxos0) in *.
  set (before := prelude node payment_addr msgs w) in *.
  set (mk := draft working_dir tx_name payment_addr certs zero) in *.
  exists j, (mk (inputs_upto sorted (S j))),
    (snapshot_of_turn node before j).
  split; [reflexivity|]. split; [reflexivity|]. split.
  - cbn [raw_file file_body tx_in selection_after tx_in_str].
    unfold inputs_upto, refs. rewrite length_map, length_take. lia.
  - exists (commands before
            ++ loop_commands node mk witness_count sorted before j).
    unfold finished.
    destruct cleanup; cbn [issue commands world_after loop_commands
                             turn_commands];
      rewrite <- ?app_assoc; reflexivity.
Qed.

Lemma build_raw_transaction_file_witness :
  ∃ f w',
    build_raw_transaction Example.node 1000 "wd" "tx" "addr" 1 ["to"%string]
      (Some [5]) [] 0 true Example.start = (Ok f, w')
    ∧ file_path f = path "wd" ("tx" +:+ ".raw")%stdpp
    ∧ tx_cert (file_body f) = []
    ∧ (∃ t, tip Example.node (S (now Example.start)) = inl t
            ∧ tx_ttl (file_body f) = t + 1000)
    ∧ (∃ (j : nat) draft p,
         tx_fee (file_body f)
         = min_fee_of Example.node p (file_body draft) (Z.of_nat j + 1) 1 1 0
         ∧ tx_in (file_body draft) = tx_in (file_body f)
         ∧ length (tx_in (file_body f)) = S j
         ∧ ∃ earlier,
             commands w'
             = earlier
               ++ [BuildRaw draft; QueryProtocolParameters;
                   CalculateMinFee draft (Z.of_nat j + 1) 1 1 0 p;
                   BuildRaw f]
               ++ (if true then [Remove (tx_draft_file "wd" "tx")] else [])).
Proof.
  eexists _, _. split; [vm_compute; reflexivity|].
  eapply (build_raw_transaction_file Example.node 1000 "wd" "tx" "addr" 1
            ["to"%string] (Some [5]) [] 0 true Example.start).
  vm_compute; reflexivity.
Defined.

Lemma pool_assemble_empty node ttl_buffer working_dir tx_name addr owners cert
    del_certs pool_deposit stop short w w1 t :
  get_utxos node addr None w = (Ok [], w1) →
  tip node (S (now w)) = inl t →
  short 0 1 = true →
  Z.abs (1 + pool_deposit) ≤ Py.maxsize →
  pool_assemble node ttl_buffer working_dir tx_name addr owners cert del_certs
    pool_deposit stop short w
  = (Shelley (InsufficientFunds addr (1 + pool_deposit) 0),
     fetched node (issue QueryTip w1)).
Proof.
  intros Hu Ht Hshort Hsmall. unfold pool_assemble.
  rewrite (bind_ok _ _ _ _ _ Hu).
  unfold sort_utxos. cbn [forallb Py.sort_desc]. rewrite bind_ret.
  rewrite <- (now_get_utxos _ _ _ _ _ _ Hu) in Ht.
  rewrite (bind_ok _ _ _ _ _ (get_tip_ok _ _ _ Ht)).
  rewrite (bind_ok _ _ _ _ _ (load_protocol_parameters_eq _ _)).
  cbn [for_break]. rewrite bind_ret.
  cbn [pool_init min_fee' utxo_total' tx_in_str']. rewrite bind_ret.
  rewrite Hshort.
  unfold bind at 1 2.
  rewrite (check_ada_small _ _ Hsmall).
  assert (Hzero : Z.abs 0 ≤ Py.maxsize) by (vm_compute; discriminate).
  rewrite (bind_ok _ _ _ _ _ (check_ada_small 0 _ Hzero)).
  reflexivity.
Qed.

(** X21.  On an address without UTXO the loop of the pool registrations
    does not run, and the fee keeps the value 1 it was given before the
    loop: [register_stake_pool] fails for lack of funds naming a cost of
    1 plus the deposit, [update_stake_pool_registration] naming a cost of
    1, both naming 0 as available; no file is built. *)
Theorem pool_registration_on_an_empty_address
    (node : Node) (ttl_buffer : Z) (working_dir tx_name : string)
    (payment_addr payment_skey pool_cold_skey : string)
    (owner_stake_skeys : list string) (pool_cert_path : string)
    (del_certs : list string) (offline cleanup : bool) (pool_deposit : Z)
    (w w1 : World) (t : Z) :
  get_utxos node payment_addr None w = (Ok [], w1) →
  tip node (S (now w)) = inl t →
  0 ≤ pool_deposit < Py.maxsize →
  register_stake_pool node ttl_buffer working_dir tx_name payment_addr
    payment_skey pool_cold_skey owner_stake_skeys pool_cert_path del_certs
    offline cleanup pool_deposit w
  = (Shelley (InsufficientFunds payment_addr (1 + pool_deposit) 0),
     fetched node (issue QueryTip w1))
  ∧ update_stake_pool_registration node ttl_buffer working_dir tx_name
      payment_addr payment_skey pool_cold_skey owner_stake_skeys
      pool_cert_path del_certs offline cleanup w
    = (Shelley (InsufficientFunds payment_addr 1 0),
       fetched node (issue QueryTip w1)).
Proof.
  intros Hu Ht Hdep. split.
  - unfold register_stake_pool, pool_transaction. unfold bind at 1.
    rewrite (pool_assemble_empty _ _ _ _ _ _ _ _ _ _ _ _ _ _ Hu Ht);
      [reflexivity| |].
    + unfold register_short. apply Z.ltb_lt. lia.
    + lia.
  - unfold update_stake_pool_registration, pool_transaction. unfold bind at 1.
    rewrite (pool_assemble_empty _ _ _ _ _ _ _ _ _ _ _ _ _ _ Hu Ht);
      [reflexivity|reflexivity|vm_compute; discriminate].
Qed.

Lemma pool_registration_on_an_empty_address_witness :
  let node := Example.steady (Example.answer []) (Example.params 1000000)
                170000 in
  let w1 := issue (QueryUtxo "addr") Example.start in
  register_stake_pool node 1000 "wd" "tx" "addr" "pmt.skey" "cold.skey"
    ["owner.skey"%string] "pool.cert" ["del.cert"%string] false true
    500000000 Example.start
  = (Shelley (InsufficientFunds "addr" (1 + 500000000) 0),
     fetched node (issue QueryTip w1))
  ∧ update_stake_pool_registration node 1000 "wd" "tx" "addr" "pmt.skey"
      "cold.skey" ["owner.skey"%string] "pool.cert" ["del.cert"%string] false
      true Example.start
    = (Shelley (InsufficientFunds "addr" 1 0),
       fetched node (issue QueryTip w1)).
Proof.
  cbv zeta.
  apply (pool_registration_on_an_empty_address
           (Example.steady (Example.answer []) (Example.params 1000000) 170000)
           1000 "wd" "tx" "addr" "pmt.skey" "cold.skey" ["owner.skey"%string]
           "pool.cert" ["del.cert"%string] false true 500000000 Example.start
           (issue (QueryUtxo "addr") Example.start) 100).
  - vm_compute; reflexivity.
  - reflexivity.
  - vm_compute. split; [discriminate | reflexivity].
Defined.

(** ** Scripts, and the retirement epoch *)

(** X22.  [build_multisignature_scripts] fails exactly when the type, in
    lower case, is "atleast", a number of required signatures is given, and
    that number is below 1 or not below the number of key hashes (as many
    signatures as there are keys is refused). *)
Theorem multisignature_scripts_failure
    (folder script_name : string) (key_hashes : list string)
    (sig_type : string) (required start_slot end_slot : option Z) :
  (∃ e, build_multisignature_scripts folder script_name key_hashes sig_type
          required start_slot end_slot = inl e)
  ↔ Py.lower sig_type = "atleast"%string
    ∧ ∃ r, required = Some r ∧ (r < 1 ∨ Z.of_nat (length key_hashes) ≤ r).
Proof.
  unfold build_multisignature_scripts.
  destruct (String.eqb_spec (Py.lower sig_type) "any") as [Hany|Hany].
  { split; [intros [e H]; discriminate|].
    intros [Hat _]. rewrite Hat in Hany. discriminate. }
  destruct (String.eqb_spec (Py.lower sig_type) "atleast") as [Hat|Hat].
  - destruct required as [r|].
    + destruct (Z.ltb_spec r 1) as [H1|H1]; cbn [orb].
      * split; [|eauto]. intros _. split; [exact Hat|].
        exists r. split; [reflexivity | lia].
      * destruct (Z.leb_spec (Z.of_nat (length key_hashes)) r) as [H2|H2].
        -- split; [|eauto]. intros _. split; [exact Hat|].
           exists r. split; [reflexivity | lia].
        -- split; [intros [e H]; discriminate|].
           intros (_ & r' & [= <-] & Hr). lia.
    + split; [intros [e H]; discriminate|].
      intros (_ & r & Hr & _). discriminate.
  - split; [intros [e H]; discriminate|]. intros [Hat' _]. contradiction.
Qed.

(** X23.  What [build_multisignature_scripts] writes: the file is
    [<folder>/<script_name>.json]; the entries are one signature entry for
    every key hash, in order, followed by one slot entry for each bound
    given, each carrying [start_slot]; a number of required signatures is
    written only with the type "atLeast", and it is then at least 1 and
    below the number of key hashes; without it the type is "any" when
    that was asked and "all" in every other case, an unknown type and
    "atleast" without a number included. *)
Theorem multisignature_scripts_contents
    (folder script_name : string) (key_hashes : list string)
    (sig_type : string) (required start_slot end_slot : option Z)
    (file : string) (script : Script) :
  build_multisignature_scripts folder script_name key_hashes sig_type required
    start_slot end_slot = inr (file, script) →
  file = path folder (script_name +:+ ".json")%stdpp
  ∧ (∃ bounds,
       scripts script = map SigEntry key_hashes ++ bounds
       ∧ length bounds
         = (length (option_list start_slot) + length (option_list end_slot))%nat
       ∧ Forall (λ entry, ∃ type, entry = SlotEntry start_slot type) bounds)
  ∧ match script_required script with
    | Some r =>
        script_type script = "atLeast"%string
        ∧ Py.lower sig_type = "atleast"%string
        ∧ required = Some r
        ∧ 1 ≤ r < Z.of_nat (length key_hashes)
    | None =>
        (script_type script = "any"%string
         ∧ Py.lower sig_type = "any"%string)
        ∨ (script_type script = "all"%string
           ∧ Py.lower sig_type ≠ "any"%string
           ∧ (Py.lower sig_type = "atleast"%string → required = None))
    end.
Proof.
  unfold build_multisignature_scripts. intros H.
  assert (Hbounds :
    ∃ bounds,
      map SigEntry key_hashes
      ++ match start_slot with
         | Some _ => [SlotEntry start_slot "after"]
         | None => []
         end
      ++ match end_slot with
         | Some _ => [SlotEntry start_slot "before"]
         | None => []
         end
      = map SigEntry key_hashes ++ bounds
      ∧ length bounds
        = (length (option_list start_slot) + length (option_list end_slot))%nat
      ∧ Forall (λ entry, ∃ type, entry = SlotEntry start_slot type) bounds).
  { eexists. split; [reflexivity|].
    destruct start_slot, end_slot; split; try reflexivity;
      repeat constructor; eauto. }
  destruct (String.eqb_spec (Py.lower sig_type) "any") as [Hany|Hany].
  { injection H as <- <-. split; [reflexivity|]. split; [exact Hbounds|].
    left. auto. }
  destruct (String.eqb_spec (Py.lower sig_type) "atleast") as [Hat|Hat].
  - destruct required as [r|].
    + destruct (Z.ltb_spec r 1) as [H1|H1]; cbn [orb] in H; [discriminate|].
      destruct (Z.leb_spec (Z.of_nat (length key_hashes)) r) as [H2|H2];
        [discriminate|].
      injection H as <- <-. split; [reflexivity|]. split; [exact Hbounds|].
      cbn [script_required script_type]. repeat split; auto; lia.
    + injection H as <- <-. split; [reflexivity|]. split; [exact Hbounds|].
      right. auto.
  - injection H as <- <-. split; [reflexivity|]. split; [exact Hbounds|].
    right. repeat split; auto. intros Hat'. contradiction.
Qed.

Lemma multisignature_scripts_contents_witness :
  ∃ file script,
    build_multisignature_scripts "dir" "mint" ["h1"; "h2"; "h3"]%string
      "AtLeast" (Some 2) (Some 10) (Some 20) = inr (file, script)
    ∧ file = path "dir" ("mint" +:+ ".json")%stdpp
    ∧ (∃ bounds,
         scripts script = map SigEntry ["h1"; "h2"; "h3"]%string ++ bounds
         ∧ length bounds
           = (length (option_list (Some 10))
              + length (option_list (Some 20)))%nat
         ∧ Forall (λ entry, ∃ type, entry = SlotEntry (Some 10) type) bounds)
    ∧ match script_required script with
      | Some r =>
          script_type script = "atLeast"%string
          ∧ Py.lower "AtLeast" = "atleast"%string
          ∧ Some 2 = Some r
          ∧ 1 ≤ r < Z.of_nat (length ["h1"; "h2"; "h3"]%string)
      | None =>
          (script_type script = "any"%string
           ∧ Py.lower "AtLeast" = "any"%string)
          ∨ (script_type script = "all"%string
             ∧ Py.lower "AtLeast" ≠ "any"%string
             ∧ (Py.lower "AtLeast" = "atleast"%string → Some 2 = None))
      end.
Proof.
  eexists _, _. split; [vm_compute; reflexivity|].
  apply (multisignature_scripts_contents "dir" "mint" ["h1"; "h2"; "h3"]%string
           "AtLeast" (Some 2) (Some 10) (Some 20)).
  vm_compute; reflexivity.
Defined.

(** X24.  The epoch [retire_stake_pool] writes in the deregistration
    certificate.  A number of remaining epochs below 1 counts as 1 and is
    not compared with [eMax]; a larger one is refused when it is above
    [eMax].  So the epoch written is after the current epoch, and at most
    the larger of 1 and [eMax] epochs after it. *)
Theorem retirement_epoch_is_bounded
    (e_max remaining_epochs epoch_length tip : Z) :
  match retirement_epoch e_max remaining_epochs epoch_length tip with
  | RetireAt epoch =>
      epoch_length ≠ 0
      ∧ tip / epoch_length + 1 ≤ epoch ≤ tip / epoch_length + Z.max 1 e_max
      ∧ epoch = tip / epoch_length + Z.max 1 remaining_epochs
  | InvalidRemainingEpochs r m =>
      r = remaining_epochs ∧ m = e_max ∧ 1 ≤ remaining_epochs
      ∧ e_max < remaining_epochs
  | ZeroEpochLength =>
      epoch_length = 0 ∧ (remaining_epochs < 1 ∨ remaining_epochs ≤ e_max)
  end.
Proof.
  unfold retirement_epoch.
  destruct (Z.ltb_spec remaining_epochs 1) as [H1|H1].
  - destruct (Z.eqb_spec epoch_length 0) as [E|E]; [auto|].
    split; [exact E|]. lia.
  - destruct (Z.ltb_spec e_max remaining_epochs) as [H2|H2]; [auto|].
    destruct (Z.eqb_spec epoch_length 0) as [E|E]; [auto|].
    split; [exact E|]. lia.
Qed.

(** ** The balance of a body file *)

(** X26.  When a body file balances.  The inputs of the body file are
    the first UTXOs of the sorted list, and the sum of their amounts is the
    sum of the outputs plus the fee plus the deposit: for
    [build_raw_transaction] when it is called with as many payments as
    receivers and every payment is below 2^53 (so that the float format
    prints it exactly); and, with no condition, for [register_stake_pool]
    with the pool deposit, for [update_stake_pool_registration] with no
    deposit, and for [register_stake_address] with the stake address
    deposit of the parameters. *)
Theorem assembled_draft_balances
    (node : Node) (ttl_buffer : Z) (working_dir tx_name payment_addr : string)
    (witness_count : Z) (receive_addrs : list string)
    (payments : option (list Z)) (certs : list string) (deposits : Z)
    (cleanup : bool) (owner_stake_skeys : list string)
    (pool_cert_path : string) (del_certs : list string) (pool_deposit : Z)
    (stake_cert_path : string) (w : World) :
  length receive_addrs = length (default [] payments) →
  Forall (λ a, Z.abs a < 2 ^ 53) (default [] payments) →
  (∀ f w',
     build_raw_transaction node ttl_buffer working_dir tx_name payment_addr
       witness_count receive_addrs payments certs deposits cleanup w
     = (Ok f, w') →
     ∃ utxos w1,
       get_utxos node payment_addr (Some "Lovelace"%string) w = (Ok utxos, w1)
       ∧ balances (Py.sort_desc lovelace_key utxos) f deposits)
  ∧ (∀ f w',
       pool_assemble node ttl_buffer working_dir tx_name payment_addr
         owner_stake_skeys pool_cert_path del_certs pool_deposit
         (register_stop pool_deposit) (register_short pool_deposit) w
       = (Ok f, w') →
       ∃ utxos w1,
         get_utxos node payment_addr None w = (Ok utxos, w1)
         ∧ balances (Py.sort_desc lovelace_key utxos) f pool_deposit)
  ∧ (∀ f w',
       pool_assemble node ttl_buffer working_dir tx_name payment_addr
         owner_stake_skeys pool_cert_path del_certs 0
         (update_stop 0) update_short w
       = (Ok f, w') →
       ∃ utxos w1,
         get_utxos node payment_addr None w = (Ok utxos, w1)
         ∧ balances (Py.sort_desc lovelace_key utxos) f 0)
  ∧ (∀ f w',
       stake_assemble node ttl_buffer working_dir tx_name payment_addr
         stake_cert_path w = (Ok f, w') →
       ∃ utxos w1 pp,
         get_utxos node payment_addr None (issue QueryTip w) = (Ok utxos, w1)
         ∧ protocol_parameters w' = Some pp
         ∧ balances (Py.sort_desc lovelace_key utxos) f (stakeAddressDeposit pp)).
Proof.
  intros Hlen Hsmall. split; [|split; [|split]].
  - intros f w' H.
    apply build_raw_transaction_inv in H
      as (pairs & zero & pymt & utxos0 & msgs & tipv & v & w2
          & Hz & Hp & Hu & _ & Hloop & Hfin).
    apply select_loop_inv in Hloop as (n & _ & -> & -> & Hall & _).
    apply finish_inv in Hfin as (_ & change & Hamt & _ & -> & _).
    eexists utxos0, _. split; [exact Hu|]. exists n. cbv zeta.
    split; [exact Hall|]. destruct n as [|j]; [discriminate|].
    simpl in Hamt. injection Hamt as <-.
    split; [reflexivity|]. simpl. rewrite map_app, sum_Z_app.
    rewrite (payments_sum _ _ _ _ _ _ Hlen Hsmall Hz Hp).
    fold (total_upto (Py.sort_desc lovelace_key utxos0) (S j)).
    unfold change_output.
    destruct (Z.eqb_spec
                (total_upto (Py.sort_desc lovelace_key utxos0) (S j)
                 - (fee_of_turn node
                      (draft working_dir tx_name payment_addr certs zero)
                      witness_count (Py.sort_desc lovelace_key utxos0)
                      (prelude node payment_addr msgs w) j
                    + deposits + total_payments payments)) 0) as [E|E];
      simpl; lia.
  - intros f w' H.
    apply pool_assemble_inv in H
      as (utxos0 & msgs & tipv & n & min_fee & Hu & _ & Hall & _ & _ & -> & _).
    eexists utxos0, _. split; [exact Hu|]. exists n. cbv zeta.
    split; [exact Hall|]. split; [reflexivity|].
    unfold total_upto. simpl. lia.
  - intros f w' H.
    apply pool_assemble_inv in H
      as (utxos0 & msgs & tipv & n & min_fee & Hu & _ & Hall & _ & _ & -> & _).
    eexists utxos0, _. split; [exact Hu|]. exists n. cbv zeta.
    split; [exact Hall|]. split; [reflexivity|].
    unfold total_upto. simpl. lia.
  - intros f w' H.
    apply stake_assemble_inv in H
      as (utxos0 & msgs & tipv & n & Hu & Hn & Hall & _ & -> & ->).
    destruct n as [|j]; [lia|].
    eexists utxos0, _, _. split; [exact Hu|]. split; [reflexivity|].
    exists (S j). cbv zeta. split; [exact Hall|]. split; [reflexivity|].
    unfold total_upto. simpl. lia.
Qed.

(** The theorem at a payment of 5 from the UTXOs 5, 3 and 2. *)
Lemma assembled_draft_balances_witness :
  length ["to"%string] = length (default [] (Some [5]))
  ∧ Forall (λ a, Z.abs a < 2 ^ 53) (default [] (Some [5]))
  ∧ ∃ f w',
      build_raw_transaction Example.node 1000 "wd" "tx" "addr" 1
        ["to"%string] (Some [5]) [] 0 true Example.start = (Ok f, w')
      ∧ ∃ utxos w1,
          get_utxos Example.node "addr" (Some "Lovelace"%string) Example.start
          = (Ok utxos, w1)
          ∧ balances (Py.sort_desc lovelace_key utxos) f 0.
Proof.
  assert (Hsmall : Forall (λ a, Z.abs a < 2 ^ 53) (default [] (Some [5]))).
  { repeat constructor. }
  split; [reflexivity|]. split; [exact Hsmall|].
  eexists _, _. split; [vm_compute; reflexivity|].
  eapply (proj1 (assembled_draft_balances Example.node 1000 "wd" "tx" "addr" 1
                   ["to"%string] (Some [5]) [] 0 true [] "pool.cert" [] 0
                   "stake.cert" Example.start eq_refl Hsmall)).
  vm_compute; reflexivity.
Defined.
Lemma sort_utxos_columns utxos w :
  Forall three_columns utxos →
  sort_utxos utxos w = (Ok (Py.sort_desc lovelace_key utxos), w).
Proof.
  intros H. unfold sort_utxos.
  replace (forallb (has_key "Lovelace") utxos) with true; [reflexivity|].
  symmetry. apply forallb_forall. intros u Hu. apply list_elem_of_In in Hu.
  rewrite Forall_forall in H. destruct (H u Hu) as (_ & _ & Hl).
  unfold has_key. now apply bool_decide_eq_true.
Qed.

Lemma total_upto_all utxos :
  total_upto utxos (length utxos) = foldr Z.add 0 (amounts utxos).
Proof. unfold total_upto. now rewrite firstn_all. Qed.

(** C5, as the code has it.  The UTXOs the loop of
    [build_raw_transaction] runs over are those of the address that hold
    nothing but the base currency.  When the loop takes them all without
    stopping, and their total is below the required amount (the fee
    estimated with all of them as inputs, plus the deposit, plus the sum of
    the payments), the call fails, and the failure says which case it is:
    the error of the empty account when there is no such UTXO, and
    otherwise the error of the insufficient funds, which carries the
    required amount and the total of these UTXOs.  (The amounts are those
    of a ledger: they fit in 63 bits, the required amount being below
    [sys.maxsize], which the code keeps as the mark of the loop that never
    ran.) *)
Theorem exhausted_selection_is_classified
    (node : Node) (ttl_buffer : Z) (working_dir tx_name payment_addr : string)
    (witness_count : Z) (receive_addrs : list string)
    (payments : option (list Z)) (certs : list string) (deposits : Z)
    (cleanup : bool) (w : World)
    (pairs zero pymt_args : list (string * Z)) (utxos : list Utxo)
    (w1 : World) (t : Z) :
  zipped_payments receive_addrs payments w = (Ok pairs, w) →
  payment_args pairs w = (Ok (zero, pymt_args), w) →
  get_utxos node payment_addr (Some "Lovelace"%string) w = (Ok utxos, w1) →
  forallb numeric utxos = true →
  tip node (S (now w)) = inl t →
  let sorted := Py.sort_desc lovelace_key utxos in
  let fee := fee_of_turn node
               (draft working_dir tx_name payment_addr certs zero)
               witness_count sorted (fetched node (issue QueryTip w1)) in
  let sum_of_payments := foldr Z.add 0 (default [] payments) in
  let required := fee (pred (length utxos)) + deposits + sum_of_payments in
  let available := foldr Z.add 0 (amounts utxos) in
  let min_utxo := minUTxOValue (parameters node (now w + 2)%nat) in
  (∀ k, (1 ≤ k < length utxos)%nat →
     stop_condition fee (total_upto sorted) deposits sum_of_payments min_utxo k
     = false) →
  (utxos ≠ [] →
   available < required ∧ - Py.maxsize < available ∧ required < Py.maxsize) →
  ∃ w',
    build_raw_transaction node ttl_buffer working_dir tx_name payment_addr
      witness_count receive_addrs payments certs deposits cleanup w
    = (Shelley match utxos with
               | [] => AccountEmpty payment_addr
               | _ :: _ => InsufficientFunds payment_addr required available
               end, w')
    ∧ ∀ f, BuildRaw f ∈ commands w' → BuildRaw f ∈ commands w
                                       ∨ file_suffix f = ".draft"%string.
Proof.
  intros Hz Hp Hu Hnum Ht sorted fee sum_of_payments required available
    min_utxo Hnostop Hshort.
  pose proof (get_utxos_columns _ _ _ _ _ _ Hu) as Hcols.
  pose proof (numeric_columns_ok _ Hcols Hnum) as Hok.
  assert (Hperm : sorted ≡ₚ utxos) by apply sort_desc_perm.
  assert (Hlen : length sorted = length utxos) by now rewrite Hperm.
  assert (Hoks : Forall (λ u, utxo_ok u = true) sorted) by now rewrite Hperm.
  set (before := fetched node (issue QueryTip w1)) in *.
  set (mk := draft working_dir tx_name payment_addr certs zero) in *.
  set (sel := selection_after fee (total_upto sorted) (inputs_upto sorted)
                deposits (total_payments payments)).
  set (world := world_after node mk witness_count sorted before).
  (* the loop takes every UTXO *)
  destruct (for_break_exit
              (select_body node working_dir tx_name payment_addr witness_count
                 payments certs deposits zero)
              (select_stop min_utxo) sel world sorted)
    as (n & Hn & Hrun & _ & Hat & Hpos).
  { intros k x Hx. apply select_body_turn; [exact Hx|].
    rewrite Forall_forall in Hoks. apply Hoks.
    eapply list_elem_of_lookup_2, Hx. }
  assert (n = length utxos) as ->.
  { destruct (decide (n < length sorted)%nat) as [Hlt|Hge]; [|lia].
    exfalso. specialize (Hat Hlt).
    assert (1 ≤ n)%nat as Hn1 by (apply Hpos; lia).
    assert (E : select_stop min_utxo (sel n)
                = stop_condition fee (total_upto sorted) deposits
                    (total_payments payments) min_utxo n)
      by exact (select_stop_condition node working_dir tx_name payment_addr
                  witness_count payments certs deposits zero sorted before
                  min_utxo n Hn1).
    rewrite E, total_payments_sum in Hat.
    rewrite Hnostop in Hat by lia. discriminate. }
  unfold world in Hrun at 1. rewrite world_after_0 in Hrun.
  (* the call, up to what follows the loop *)
  assert (Hcall :
    build_raw_transaction node ttl_buffer working_dir tx_name payment_addr
      witness_count receive_addrs payments certs deposits cleanup w
    = finish working_dir tx_name payment_addr certs cleanup min_utxo
        (t + ttl_buffer) pymt_args (sel (length utxos))
        (world (length utxos))).
  { unfold build_raw_transaction.
    rewrite (bind_ok _ _ _ _ _ Hz), (bind_ok _ _ _ _ _ Hp),
      (bind_ok _ _ _ _ _ Hu).
    rewrite (bind_ok _ _ _ _ _ (sort_utxos_columns _ _ Hcols)).
    rewrite <- (now_get_utxos _ _ _ _ _ _ Hu) in Ht.
    rewrite (bind_ok _ _ _ _ _ (get_tip_ok _ _ _ Ht)).
    rewrite (bind_ok _ _ _ _ _ (load_protocol_parameters_eq _ _)).
    unfold get_protocol_parameters, bind at 1.
    cbn [fetched protocol_parameters].
    replace (parameters node (now (issue QueryTip w1)))
      with (parameters node (now w + 2)%nat).
    2:{ f_equal. rewrite now_issue, (now_get_utxos _ _ _ _ _ _ Hu). lia. }
    fold min_utxo. fold sorted. fold before.
    rewrite (bind_ok _ _ _ _ _ Hrun). reflexivity. }
  assert (Hcommands : ∀ f, BuildRaw f ∈ commands (world (length utxos)) →
            BuildRaw f ∈ commands w ∨ file_suffix f = ".draft"%string).
  { intros f Hf. unfold world, world_after in Hf. cbn [commands] in Hf.
    apply elem_of_app in Hf as [Hf|Hf].
    - left. unfold before in Hf. cbn [fetched issue commands] in Hf.
      destruct (get_utxos_world _ _ _ _ _ _ Hu) as [msgs ->].
      cbn [print_all issue commands] in Hf.
      rewrite !elem_of_app in Hf. destruct Hf as [[[Hf|Hf]|Hf]|Hf]; auto;
        apply list_elem_of_singleton in Hf; discriminate.
    - right. clear -Hf. induction (length utxos) as [|j IH];
        [inversion Hf|].
      cbn [loop_commands] in Hf. apply elem_of_app in Hf as [Hf|Hf]; [auto|].
      unfold turn_commands in Hf.
      repeat (apply elem_of_cons in Hf as [Hf|Hf]; [try discriminate|]);
        [|inversion Hf].
      injection Hf as ->. reflexivity. }
  rewrite Hcall. exists (world (length utxos)). split; [|exact Hcommands].
  set (expected := match utxos with
                   | [] => AccountEmpty payment_addr
                   | _ :: _ => InsufficientFunds payment_addr required available
                   end).
  assert (Hempty : utxos = [] → expected = AccountEmpty payment_addr)
    by (intros E; unfold expected; now rewrite E).
  assert (Hsome : utxos ≠ [] →
            expected = InsufficientFunds payment_addr required available)
    by (intros E; unfold expected; now destruct utxos).
  clearbody expected.
  destruct (decide (utxos = [])) as [E|E].
  - (* no UTXO: the mark of the loop that never ran *)
    rewrite (Hempty E).
    assert (length utxos = 0%nat) as -> by now rewrite E.
    unfold sel, selection_after, finish.
    cbn [select_init lovelaces_out utxo_total].
    assert (Hmax : Z.abs Py.maxsize ≤ Py.maxsize) by (vm_compute; discriminate).
    assert (Hzero : Z.abs 0 ≤ Py.maxsize) by (vm_compute; discriminate).
    rewrite (bind_ok _ _ _ _ _ (check_ada_small Py.maxsize _ Hmax)).
    rewrite (bind_ok _ _ _ _ _ (check_ada_small 0 _ Hzero)).
    reflexivity.
  - rewrite (Hsome E). destruct (Hshort E) as (Hlt & Hlow & Hhigh).
    assert (Htotal : utxo_total (sel (length utxos)) = available).
    { transitivity (total_upto sorted (length utxos));
        [exact (selection_total node working_dir tx_name payment_addr
                  witness_count payments certs deposits zero sorted before
                  (length utxos))|].
      rewrite <- Hlen, total_upto_all.
      apply (sum_Z_Permutation (amounts sorted) (amounts utxos)).
      apply amounts_Permutation, Hperm. }
    assert (Hreq : lovelaces_out (sel (length utxos)) = required).
    { unfold sel, required, sum_of_payments. rewrite <- total_payments_sum.
      destruct (length utxos) as [|j] eqn:El; [|reflexivity].
      destruct utxos; [contradiction | discriminate]. }
    assert (Hreq_small : Z.abs required ≤ Py.maxsize) by lia.
    assert (Havail_small : Z.abs available ≤ Py.maxsize) by lia.
    unfold finish. rewrite Hreq, Htotal.
    rewrite (bind_ok _ _ _ _ _ (check_ada_small required _ Hreq_small)).
    rewrite (bind_ok _ _ _ _ _ (check_ada_small available _ Havail_small)).
    unfold bind at 1.
    destruct (Z.ltb_spec available required) as [_|Hge]; [|lia].
    destruct (Z.eqb_spec required Py.maxsize) as [E'|_]; [lia|].
    reflexivity.
Qed.

(** The theorem at the scenario of the specification: the UTXOs 5, 3 and 2,
    a fee of 1 and a payment of 20. *)
Lemma exhausted_selection_is_classified_witness :
  let sorted := Py.sort_desc lovelace_key Example.three in
  let w1 := issue (QueryUtxo "addr") Example.start in
  let fee := fee_of_turn Example.node
               (draft "wd" "tx" "addr" [] [("to"%string, 0)]) 1 sorted
               (fetched Example.node (issue QueryTip w1)) in
  let sum_of_payments := foldr Z.add 0 (default [] (Some [20])) in
  let required := fee (pred (length Example.three)) + 0 + sum_of_payments in
  let available := foldr Z.add 0 (amounts Example.three) in
  required = 21 ∧ available = 10
  ∧ ∃ w',
      build_raw_transaction Example.node 1000 "wd" "tx" "addr" 1 ["to"%string]
        (Some [20]) [] 0 true Example.start
      = (Shelley match Example.three with
                 | [] => AccountEmpty "addr"
                 | _ :: _ => InsufficientFunds "addr" required available
                 end, w')
      ∧ ∀ f, BuildRaw f ∈ commands w' →
             BuildRaw f ∈ commands Example.start
             ∨ file_suffix f = ".draft"%string.
Proof.
  cbv zeta. split; [vm_compute; reflexivity|]. split; [vm_compute; reflexivity|].
  apply (exhausted_selection_is_classified Example.node 1000 "wd" "tx" "addr"
           1 ["to"%string] (Some [20]) [] 0 true Example.start
           [("to"%string, 20)] [("to"%string, 0)] [("to"%string, 20)]
           Example.three (issue (QueryUtxo "addr") Example.start) 100).
  - reflexivity.
  - vm_compute; reflexivity.
  - reflexivity.
  - reflexivity.
  - reflexivity.
  - intros k [Hlow Hhigh]. destruct k as [|[|[|k]]].
    + inversion Hlow.
    + vm_compute; reflexivity.
    + vm_compute; reflexivity.
    + do 3 apply <- Nat.succ_lt_mono in Hhigh. inversion Hhigh.
  - intros _. split; [|split]; vm_compute; reflexivity.
Defined.

(** The sentence of the specification fails on an address that holds
    UTXOs, none of them with the base currency alone: the one UTXO of the
    address, of 9 with a token, is not among those the loop runs over, and
    the call ends in the error of the empty account, where the
    specification has the one of the insufficient funds. *)
Lemma token_only_address_is_reported_empty :
  let node := Example.steady
                (Example.answer ["aa 0 9 lovelace + 4 token"%string])
                (Example.params 1) 1 in
  let held := <["token"%string := "4"%string]> (Example.utxo "aa" "0" "9") in
  get_utxos node "addr" None Example.start
  = (Ok [held], issue (QueryUtxo "addr") Example.start)
  ∧ [held] ≠ []
  ∧ amounts [held] = [9]
  ∧ (build_raw_transaction node 1000 "wd" "tx" "addr" 1 ["to"%string]
       (Some [20]) [] 0 true Example.start).1
    = Shelley (AccountEmpty "addr").
Proof.
  cbv zeta. split; [reflexivity|]. split; [discriminate|].
  split; vm_compute; reflexivity.
Qed.
